(** * mikroplot: the [Window] facade, both revisions of window.cpp

    The repository carries two revisions of the implementation of
    [mikroplot::Window].  The first one (module [V1] below) polls the
    keyboard through glfw and declares shader constants inline; the second
    one (module [V2]) tracks keys in two maps, reduces palette indices
    modulo the palette size and initialises glfw and the audio engine on
    first use.

    Conventions of the embedding:
    - [int] values are integers in [Z]; the conversions to and from
      [size_t] that the code performs are written out with their wrap-around
      ([to_size_t], [to_int]); [size_t] has 64 bits.
    - [float] is IEEE binary32, in the parameterised specification of the
      Standard Library ([SpecFloat] at precision 24 and maximal exponent
      128), so that [==] and [<] are the floating-point comparisons.
    - [assert] is live (no NDEBUG): a failed assertion ends the call with
      [AssertionFailure]; an exception that leaves the call ends it with
      [RuntimeError] and its message (the [std::runtime_error]s that the
      code throws, and the [std::length_error] of a vector asked to grow
      beyond its maximal size); an out-of-range [operator[]], [&v[0]] on an
      empty vector, a division by zero or an [int] product that overflows
      ends it with [UndefinedBehaviour].
    - what the library does to the outside (draw calls, files, the glfw
      close flag) is recorded in a [World] that every method threads; the
      world survives a failed call, so what was written before an abort
      stays observable.  The answers of glfw and of the audio engine that
      the code tests (initialisation, window creation, framebuffer size,
      events) are read from the world; the other library calls (shader
      compilation, buffer uploads, [checkGLError]) are taken to return. *)

From Stdlib Require Import ZArith List String Ascii Bool Lia.
From Stdlib Require Import Floats.SpecFloat.
From stdpp Require Import base option list gmap strings.

Import ListNotations.
Local Open Scope Z_scope.

(** ** Results of a call *)

Inductive result (A : Type) : Type :=
| Returns (x : A)
| AssertionFailure
| RuntimeError (what : string)
| UndefinedBehaviour.

Arguments Returns {A} x.
Arguments AssertionFailure {A}.
Arguments RuntimeError {A} what.
Arguments UndefinedBehaviour {A}.

Definition result_bind {A B} (m : result A) (k : A -> result B) : result B :=
  match m with
  | Returns x => k x
  | AssertionFailure => AssertionFailure
  | RuntimeError what => RuntimeError what
  | UndefinedBehaviour => UndefinedBehaviour
  end.

(** [assert(c)] *)
Definition assert (c : bool) : result unit :=
  if c then Returns tt else AssertionFailure.

Declare Scope result_scope.
Delimit Scope result_scope with result.
Notation "x <- m ;; k" := (result_bind m (fun x => k))
  (at level 100, m at next level, right associativity) : result_scope.
Notation "m ;;; k" := (result_bind m (fun _ => k))
  (at level 100, right associativity) : result_scope.

(** A range-based [for] loop whose body may abort. *)
Fixpoint for_each {A S} (body : S -> A -> result S) (s : S) (l : list A)
  : result S :=
  match l with
  | [] => Returns s
  | x :: l' => result_bind (body s x) (fun s' => for_each body s' l')
  end.

(** ** Machine integers *)

Definition size_t_bits : Z := 64.

(** conversion of an [int] (or of any integer) to [size_t] *)
Definition to_size_t (i : Z) : Z := i mod 2 ^ size_t_bits.

(** conversion of an unsigned value back to a 32-bit [int] *)
Definition to_int (u : Z) : Z := (u + 2 ^ 31) mod 2 ^ 32 - 2 ^ 31.

(** conversion to [uint8_t], as [push_back] on a [vector<uint8_t>] does *)
Definition to_uint8 (c : Z) : Z := c mod 256.

(** [a * b] on two [int]s; the product is undefined when an [int] cannot
    hold it *)
Definition int_mul (a b : Z) : result Z :=
  if (- 2 ^ 31 <=? a * b) && (a * b <? 2 ^ 31) then Returns (a * b)
  else UndefinedBehaviour.

(** [&v[0]]: an empty vector has no first element *)
Definition first_element {A} (v : list A) : result unit :=
  match v with
  | [] => UndefinedBehaviour
  | _ :: _ => Returns tt
  end.

(** [max_size()] of a [std::vector<uint8_t>]: what a [ptrdiff_t] counts *)
Definition vector_max_size : Z := 2 ^ (size_t_bits - 1) - 1.

(** [v.resize(n)] on a fresh vector of bytes; [n] is converted to [size_t],
    so that a negative [int] asks for more than the vector can hold and
    [std::length_error] is thrown (its message is the library's; the model
    carries the name of the exception) *)
Definition vector_resize (n : Z) : result (list Z) :=
  if vector_max_size <? to_size_t n then RuntimeError "std::length_error"
  else Returns (replicate (Z.to_nat (to_size_t n)) 0).

(** ** Single-precision floats *)

Module Float32.
Definition prec : Z := 24.
Definition emax : Z := 128.

Definition add := SFadd prec emax.
Definition sub := SFsub prec emax.
Definition mul := SFmul prec emax.
Definition div := SFdiv prec emax.
Definition opp := SFopp.
Definition eqb := SFeqb.
Definition ltb := SFltb.

(** the value [m * 2^e], rounded to nearest even *)
Definition of_scaled (m e : Z) : spec_float :=
  binary_normalize prec emax m e false.

(** conversion of an [int], and integer literals such as [2.0f] *)
Definition of_Z (z : Z) : spec_float := of_scaled z 0.

(** [0.5f] *)
Definition half : spec_float := of_scaled 1 (-1).

(** [std::max] and [std::min]: [(a < b) ? b : a] and [(b < a) ? b : a] *)
Definition max (a b : spec_float) : spec_float := if ltb a b then b else a.
Definition min (a b : spec_float) : spec_float := if ltb b a then b else a.
End Float32.

Abbreviation float := spec_float.

Record vec2 : Type := Vec2 { vec2_x : float; vec2_y : float }.

(** ** Colours, grids, textures *)

(** [RGBA] is declared in a header outside these sources; its channels are
    kept as integers and converted when they are pushed into the byte
    vector. *)
Module Color.
Record RGBA : Type := mk { r : Z; g : Z; b : Z; a : Z }.
End Color.
Abbreviation RGBA := Color.RGBA.

(** [Grid]: rows of palette indices *)
Abbreviation Grid := (list (list Z)).

(** [Constant]: a named vector of floats handed to a shader *)
Abbreviation Constant := (string * list float)%type.

(** The two constructors of texture.h that window.cpp uses. *)
Inductive Texture : Type :=
| TextureU8 (width height nrChannels : Z) (data : list Z)
| TextureTarget (width height : Z) (isDepthTexture : bool).

(** ** The world outside the object *)

Inductive gl_call : Type :=
| DrawScreenSizeQuad (texture : Texture)
| DrawSpriteQuad (P M : list float) (texture : Texture)
                 (fragmentShader : string) (uniforms : list Constant)
| DrawShadeQuad (M : list float) (fragmentShader : string)
                (leftBottom rightTop minXY maxXY size : float * float)
                (uniforms : list Constant)
| Ortho (left right bottom top near far : float)
| ScreenSizeQuadPositions (positions : list vec2)
| SwapBuffers
| Clear (red green blue alpha : float)
| ClearShadeFbo.

Record png_file : Type := Png {
  png_name : string;
  png_width : Z;
  png_height : Z;
  png_channels : Z;
  png_data : list Z
}.

Inductive glfw_event : Type :=
| KeyEvent (key action : Z)
| CloseRequested.

Record World : Type := mkWorld {
  glfwInit_ok : bool;               (* what glfwInit will answer *)
  ma_engine_init_ok : bool;         (* what ma_engine_init will answer *)
  glfwCreateWindow_handle : Z;      (* what glfwCreateWindow will return *)
  static_init : bool;               (* V2: the global [init] is set *)
  should_close : bool;              (* glfwWindowShouldClose *)
  framebuffer_size : Z * Z;         (* glfwGetFramebufferSize *)
  framebuffer : list Z;             (* the bytes glReadPixels hands out *)
  gl_calls : list gl_call;          (* draw calls issued so far *)
  png_files : list png_file         (* files written by stbi_write_png *)
}.

Definition set_static_init (v : bool) (e : World) : World :=
  mkWorld (glfwInit_ok e) (ma_engine_init_ok e) (glfwCreateWindow_handle e)
          v (should_close e) (framebuffer_size e) (framebuffer e)
          (gl_calls e) (png_files e).

Definition set_should_close (v : bool) (e : World) : World :=
  mkWorld (glfwInit_ok e) (ma_engine_init_ok e) (glfwCreateWindow_handle e)
          (static_init e) v (framebuffer_size e) (framebuffer e)
          (gl_calls e) (png_files e).

Definition issue (c : gl_call) (e : World) : World :=
  mkWorld (glfwInit_ok e) (ma_engine_init_ok e) (glfwCreateWindow_handle e)
          (static_init e) (should_close e) (framebuffer_size e) (framebuffer e)
          (gl_calls e ++ [c]) (png_files e).

Definition write_png (f : png_file) (e : World) : World :=
  mkWorld (glfwInit_ok e) (ma_engine_init_ok e) (glfwCreateWindow_handle e)
          (static_init e) (should_close e) (framebuffer_size e) (framebuffer e)
          (gl_calls e) (png_files e ++ [f]).

(** A method: a result together with the world it leaves behind. *)
Definition method (A : Type) : Type := World -> result A * World.

Definition ret {A} (x : A) : method A := fun e => (Returns x, e).

Definition bind {A B} (m : method A) (k : A -> method B) : method B :=
  fun e =>
    match m e with
    | (Returns x, e') => k x e'
    | (AssertionFailure, e') => (AssertionFailure, e')
    | (RuntimeError what, e') => (RuntimeError what, e')
    | (UndefinedBehaviour, e') => (UndefinedBehaviour, e')
    end.

(** a computation without effects, run inside a method *)
Definition lift {A} (m : result A) : method A := fun e => (m, e).

(** an effect on the world *)
Definition effect (f : World -> World) : method unit := fun e => (Returns tt, f e).

Definition throw {A} (what : string) : method A := fun e => (RuntimeError what, e).

Declare Scope method_scope.
Delimit Scope method_scope with method.
Notation "x <- m ;; k" := (bind m (fun x => k))
  (at level 100, m at next level, right associativity) : method_scope.
Notation "m ;;; k" := (bind m (fun _ => k))
  (at level 100, right associativity) : method_scope.

(** ** Building the texture of a pixel grid *)

(** The three locals of the grid loops. *)
Record map_state : Type := MapState {
  mapData : list Z;
  mapWidth : Z;
  mapHeight : Z
}.

(** the bytes of a colour, in the order in which they are pushed *)
Definition rgba_bytes (color : RGBA) : list Z :=
  [to_uint8 (Color.r color); to_uint8 (Color.g color);
   to_uint8 (Color.b color); to_uint8 (Color.a color)].

(** the four [push_back]s and [++mapWidth] *)
Definition push_color (color : RGBA) (s : map_state) : map_state :=
  MapState (mapData s ++ rgba_bytes color) (mapWidth s + 1) (mapHeight s).

(** [assert(index >= 0 && index < m_palette.size())]: the second comparison
    converts [index] to [size_t], which leaves the non-negative [int] that
    reaches it as it is. *)
Definition index_in_palette (m_palette : list RGBA) (index : Z) : bool :=
  (0 <=? index) && (index <? Z.of_nat (length m_palette)).

(** [m_palette[index]] *)
Definition palette_at (m_palette : list RGBA) (index : Z) : result RGBA :=
  match m_palette !! Z.to_nat (to_size_t index) with
  | Some color => Returns color
  | None => UndefinedBehaviour
  end.

(** the assertion on an index and the lookup that follows it *)
Definition checked_color (m_palette : list RGBA) (index : Z) : result RGBA :=
  (assert (index_in_palette m_palette index) ;;;
   palette_at m_palette index)%result.

(** the asserts after the loops, [mapWidth /= mapHeight] and the texture *)
Definition finish_texture (s : map_state) : result Texture :=
  (assert (negb (mapWidth s =? 0)) ;;;
   assert (negb (mapHeight s =? 0)) ;;;
   Returns (TextureU8 (Z.quot (mapWidth s) (mapHeight s)) (mapHeight s) 4
                      (mapData s)))%result.

(** the outer and the inner loop over a grid; [lookup] is what one
    revision does with an index before it pushes the colour *)
Definition grid_row (lookup : Z -> result RGBA) (s : map_state) (row : list Z)
  : result map_state :=
  for_each (fun s index => result_bind (lookup index)
                             (fun color => Returns (push_color color s)))
           (MapState (mapData s) (mapWidth s) (mapHeight s + 1)) row.

Definition grid_loop (lookup : Z -> result RGBA) (pixels : Grid)
  : result map_state :=
  for_each (grid_row lookup) (MapState [] 0 0) pixels.

(** ** The object *)

Record Window : Type := mkWindow {
  m_clearColor : Z;
  m_width : Z;
  m_height : Z;
  m_palette : list RGBA;
  m_window : Z;                        (* GLFWwindow*, 0 is the null pointer *)
  m_left : float;
  m_right : float;
  m_bottom : float;
  m_top : float;
  m_shadeFbo : option Texture;         (* colour texture 0 of the FBO *)
  m_projection : list float;
  m_screenshotFileName : string;
  m_curKeys : gmap Z bool;             (* second revision only *)
  m_prevKeys : gmap Z bool             (* second revision only *)
}.

Definition set_window (h : Z) (w : Window) : Window :=
  mkWindow (m_clearColor w) (m_width w) (m_height w) (m_palette w) h
           (m_left w) (m_right w) (m_bottom w) (m_top w) (m_shadeFbo w)
           (m_projection w) (m_screenshotFileName w) (m_curKeys w) (m_prevKeys w).

Definition set_size (width height : Z) (w : Window) : Window :=
  mkWindow (m_clearColor w) width height (m_palette w) (m_window w)
           (m_left w) (m_right w) (m_bottom w) (m_top w) (m_shadeFbo w)
           (m_projection w) (m_screenshotFileName w) (m_curKeys w) (m_prevKeys w).

Definition set_range (l r b t : float) (w : Window) : Window :=
  mkWindow (m_clearColor w) (m_width w) (m_height w) (m_palette w) (m_window w)
           l r b t (m_shadeFbo w)
           (m_projection w) (m_screenshotFileName w) (m_curKeys w) (m_prevKeys w).

Definition set_shadeFbo (f : option Texture) (w : Window) : Window :=
  mkWindow (m_clearColor w) (m_width w) (m_height w) (m_palette w) (m_window w)
           (m_left w) (m_right w) (m_bottom w) (m_top w) f
           (m_projection w) (m_screenshotFileName w) (m_curKeys w) (m_prevKeys w).

Definition set_projection (p : list float) (w : Window) : Window :=
  mkWindow (m_clearColor w) (m_width w) (m_height w) (m_palette w) (m_window w)
           (m_left w) (m_right w) (m_bottom w) (m_top w) (m_shadeFbo w)
           p (m_screenshotFileName w) (m_curKeys w) (m_prevKeys w).

Definition set_screenshotFileName (f : string) (w : Window) : Window :=
  mkWindow (m_clearColor w) (m_width w) (m_height w) (m_palette w) (m_window w)
           (m_left w) (m_right w) (m_bottom w) (m_top w) (m_shadeFbo w)
           (m_projection w) f (m_curKeys w) (m_prevKeys w).

Definition set_curKeys (k : gmap Z bool) (w : Window) : Window :=
  mkWindow (m_clearColor w) (m_width w) (m_height w) (m_palette w) (m_window w)
           (m_left w) (m_right w) (m_bottom w) (m_top w) (m_shadeFbo w)
           (m_projection w) (m_screenshotFileName w) k (m_prevKeys w).

Definition set_prevKeys (k : gmap Z bool) (w : Window) : Window :=
  mkWindow (m_clearColor w) (m_width w) (m_height w) (m_palette w) (m_window w)
           (m_left w) (m_right w) (m_bottom w) (m_top w) (m_shadeFbo w)
           (m_projection w) (m_screenshotFileName w) (m_curKeys w) k.

(** the member initialisers of the constructor, the same in both revisions *)
Definition initial_members (sizeX sizeY : Z) (palette : list RGBA)
           (clearColor : Z) : Window :=
  mkWindow clearColor sizeX sizeY palette 0
           (Float32.of_Z 0) (Float32.of_Z 0) (Float32.of_Z 0) (Float32.of_Z 0)
           None [] EmptyString ∅ ∅.

(** glfw's constants *)
Definition GLFW_RELEASE : Z := 0.
Definition GLFW_PRESS : Z := 1.
Definition GLFW_KEY_ESCAPE : Z := 256.

Definition nl : string := String (ascii_of_nat 10) EmptyString.

(** ** What the two revisions share word for word *)

(** [m_projection = { 2/(r-l), 0, 0, 0,  0, 2/(t-b), 0, 0,
                      0, 0, -2/(far-near), 0,  0, 0, 0, 1 }] *)
Definition projection_of (left right bottom top : float) : list float :=
  let m_near := Float32.opp (Float32.of_Z 1) in
  let m_far := Float32.of_Z 1 in
  let zero := Float32.of_Z 0 in
  [ Float32.div (Float32.of_Z 2) (Float32.sub right left); zero; zero; zero;
    zero; Float32.div (Float32.of_Z 2) (Float32.sub top bottom); zero; zero;
    zero; zero;
      Float32.div (Float32.opp (Float32.of_Z 2)) (Float32.sub m_far m_near);
      zero;
    zero; zero; zero; Float32.of_Z 1 ].

(** [screenshot]: only the member is assigned *)
Definition screenshot (filename : string) (this : Window) : method Window :=
  ret (set_screenshotFileName filename this).

(** the first [height] rows of a buffer, [stride] bytes each *)
Fixpoint buffer_rows (height stride : nat) (data : list Z) : list (list Z) :=
  match height with
  | O => []
  | S height' =>
      take stride data :: buffer_rows height' stride (drop stride data)
  end.

(** [stbi_write_png(filename, w, h, comp, data, stride)] while
    [stbi_flip_vertically_on_write(true)] is in force: the file holds the
    rows of the buffer from the last one to the first.  (The rows are
    [stride] bytes apart; here [stride] is [w * comp], the length of a
    row.) *)
Definition stbi_write_png_flipped (filename : string) (w h comp : Z)
           (data : list Z) (stride : Z) : png_file :=
  Png filename w h comp
      (concat (reverse (buffer_rows (Z.to_nat h) (Z.to_nat stride) data))).

(** [glReadPixels] into a buffer of [count] bytes: the bytes of the frame,
    zeros where the world holds none *)
Definition glReadPixels (count : nat) (e : World) : list Z :=
  resize count 0 (framebuffer e).

(** the loop that sets every fourth byte, the alpha, to 0xff *)
Definition opaque (lastFrame : list Z) : list Z :=
  imap (fun i x => if Z.of_nat i mod 4 =? 3 then 255 else x) lastFrame.

(** [takeScreenshot]: size the buffer, read the frame, force alpha to 0xff,
    write the file upside down (GL's first row is the bottom one) *)
Definition takeScreenshot (filename : string) : method unit :=
  fun e =>
    let '(width, height) := framebuffer_size e in
    let channels := 4 in
    (size <- lift (n <- int_mul channels width ;; int_mul n height)%result ;;
     lastFrame <- lift (vector_resize size) ;;
     lift (first_element lastFrame) ;;;
     let lastFrame := glReadPixels (length lastFrame) e in
     let lastFrame := opaque lastFrame in
     stride <- lift (int_mul width channels) ;;
     effect (write_png (stbi_write_png_flipped filename width height channels
                                               lastFrame stride)))%method e.

(** the file that [takeScreenshot] writes when it gets that far *)
Definition screenshot_file (filename : string) (e : World) : png_file :=
  let '(width, height) := framebuffer_size e in
  stbi_write_png_flipped filename width height 4
    (opaque (glReadPixels (Z.to_nat (4 * width * height)) e)) (width * 4).

(** [drawScreenSizeQuad] *)
Definition drawScreenSizeQuad (texture : Texture) : method unit :=
  effect (issue (DrawScreenSizeQuad texture)).

(** the flattening of [transform] into the model matrix *)
Definition flatten_transform (transform : list (list float)) : list float :=
  concat transform.

(** The part of the grid overload of [drawSprite] that builds the texture:
    the loops with the plain assertion on the index, then the substitution
    of one white pixel when the grid has no rows. *)
Definition sprite_texture (this : Window) (pixels : Grid) : result Texture :=
  (s <- grid_loop (checked_color (m_palette this)) pixels ;;
   let s := if (Z.of_nat (length pixels) =? 0)
            then MapState (mapData s ++ [255; 255; 255; 255]) 1 1
            else s in
   finish_texture s)%result.

(** the positions of the screen-size quad that [setScreen] uploads *)
Definition screenSizeQuad (left right bottom top : float) : list vec2 :=
  let sx := Float32.sub right left in
  let sy := Float32.sub top bottom in
  let neg_half_sx := Float32.mul (Float32.opp sx) Float32.half in
  let neg_half_sy := Float32.mul (Float32.opp sy) Float32.half in
  let half_sx := Float32.mul sx Float32.half in
  let half_sy := Float32.mul sy Float32.half in
  let ssqTopLeft := Vec2 neg_half_sx neg_half_sy in
  let ssqTopRight := Vec2 neg_half_sx half_sy in
  let ssqBottomLeft := Vec2 half_sx neg_half_sy in
  let ssqBottomRight := Vec2 half_sx half_sy in
  [ssqBottomLeft; ssqBottomRight; ssqTopRight;
   ssqBottomLeft; ssqTopRight; ssqTopLeft].

(** the clear at the end of a frame: [m_palette[m_clearColor]], then the
    window and the FBO are cleared *)
Definition clear_frame (this : Window) : method unit :=
  (rgb <- lift (palette_at (m_palette this) (m_clearColor this)) ;;
   effect (issue (Clear (Float32.div (Float32.of_Z (Color.r rgb)) (Float32.of_Z 255))
                        (Float32.div (Float32.of_Z (Color.g rgb)) (Float32.of_Z 255))
                        (Float32.div (Float32.of_Z (Color.b rgb)) (Float32.of_Z 255))
                        (Float32.of_Z 1))) ;;;
   effect (issue ClearShadeFbo))%method.

(** the start of a frame: the FBO's colour texture goes to the window *)
Definition present_frame (this : Window) : method unit :=
  match m_shadeFbo this with
  | Some texture =>
      (drawScreenSizeQuad texture ;;; effect (issue SwapBuffers))%method
  | None => lift UndefinedBehaviour
  end.

(** [if(m_screenshotFileName.length()>0){ takeScreenshot(...); ... = ""; }] *)
Definition pending_screenshot (this : Window) : method Window :=
  if (0 <? Z.of_nat (String.length (m_screenshotFileName this)))
  then (takeScreenshot (m_screenshotFileName this) ;;;
        ret (set_screenshotFileName EmptyString this))%method
  else ret this.

(** [glfwWindowShouldClose(m_window)] *)
Definition glfwWindowShouldClose : method bool :=
  fun e => (Returns (should_close e), e).

(** ** First revision *)

Module V1.
Local Open Scope method_scope.

Definition SPRITE_FRAG (shader inputUniforms globals : string) : string :=
  "#version 330 core" +:+ nl +:+
  "in vec2 texCoord;" +:+ nl +:+
  "out vec4 FragColor;" +:+ nl +:+ inputUniforms +:+
  nl +:+ "uniform sampler2D texture0;" +:+ nl +:+ globals +:+
  nl +:+ "void main(){" +:+ nl +:+
  "vec4 color = texture2D(texture0, texCoord);" +:+ nl +:+
  shader +:+
  "gl_FragData[0] = color;" +:+ nl +:+ "}" +:+ nl.

(** the key callback: escape closes the window *)
Definition key_callback (key action : Z) (e : World) : World :=
  if (key =? GLFW_KEY_ESCAPE) && (action =? GLFW_PRESS)
  then set_should_close true e else e.

(** glfw hands a key event to the callback; a request to close the window
    sets the close flag *)
Definition deliver (e : World) (ev : glfw_event) : World :=
  match ev with
  | KeyEvent key action => key_callback key action e
  | CloseRequested => set_should_close true e
  end.

Definition glfwPollEvents (events : list glfw_event) : method unit :=
  effect (fun e => fold_left deliver events e).

Definition shouldClose (events : list glfw_event) (this : Window)
  : method bool :=
  glfwPollEvents events ;;;
  closing <- glfwWindowShouldClose ;;
  ret ((m_window this =? 0) || closing)%bool.

Definition setScreen (left right bottom top : float) (this : Window)
  : method Window :=
  let this := set_range left right bottom top this in
  let m_near := Float32.opp (Float32.of_Z 1) in
  let m_far := Float32.of_Z 1 in
  effect (issue (Ortho left right bottom top m_near m_far)) ;;;
  effect (issue (ScreenSizeQuadPositions
                   (screenSizeQuad left right bottom top))) ;;;
  ret (set_projection
         (projection_of (m_left this) (m_right this)
                        (m_bottom this) (m_top this)) this).

(** [setScreen(vec2 p, float s)] *)
Definition setScreen_square (p : vec2) (s : float) (this : Window)
  : method Window :=
  let left := Float32.sub (vec2_x p) (Float32.mul Float32.half s) in
  let right := Float32.add (vec2_x p) (Float32.mul Float32.half s) in
  let top := Float32.sub (vec2_y p) (Float32.mul Float32.half s) in
  let bottom := Float32.add (vec2_y p) (Float32.mul Float32.half s) in
  setScreen left right top bottom this.

(** The constructor.  glfw and the audio engine were initialised by a
    static object before [main]. *)
Definition new (sizeX sizeY : Z) (title : string) (palette : list RGBA)
           (clearColor : Z) : method Window :=
  let this := initial_members sizeX sizeY palette clearColor in
  fun e =>
    let this := set_window (glfwCreateWindow_handle e) this in
    if m_window this =? 0 then throw "Failed to create window!" e
    else
      let '(screenWidth, screenHeight) := framebuffer_size e in
      (this <- setScreen (Float32.of_Z 0) (Float32.of_Z screenWidth)
                         (Float32.of_Z 0) (Float32.of_Z screenHeight) this ;;
       ret (set_shadeFbo
              (Some (TextureTarget screenWidth screenHeight false)) this)) e.

(** [update]; [poll1] and [poll2] are the events that the two calls of
    [glfwPollEvents] deliver *)
Definition update (poll1 poll2 : list glfw_event) (this : Window)
  : method (Z * Window) :=
  closing <- shouldClose poll1 this ;;
  if closing : bool then ret (-1, this)
  else
    present_frame this ;;;
    this <- pending_screenshot this ;;
    clear_frame this ;;;
    glfwPollEvents poll2 ;;;
    closing <- glfwWindowShouldClose ;;
    ret (if closing : bool then -1 else 0, this).

Definition drawPixels (pixels : Grid) (this : Window) : method unit :=
  texture <- lift (s <- grid_loop (checked_color (m_palette this)) pixels ;;
                   finish_texture s)%result ;;
  drawScreenSizeQuad texture.

(** one round of the loop that declares the uniforms; [shade] and
    [drawSprite] both carry it *)
Definition declare_uniform (inputUniforms : string) (c : Constant)
  : result string :=
  let name := fst c in
  let val := snd c in
  if Z.of_nat (length val) =? 1 then
    Returns (inputUniforms +:+ ("uniform float " +:+ name +:+ ";" +:+ nl))
  else if Z.of_nat (length val) =? 2 then
    Returns (inputUniforms +:+ ("uniform vec2 " +:+ name +:+ ";" +:+ nl))
  else if Z.of_nat (length val) =? 3 then
    Returns (inputUniforms +:+ ("uniform vec3 " +:+ name +:+ ";" +:+ nl))
  else if Z.of_nat (length val) =? 4 then
    Returns (inputUniforms +:+ ("uniform vec4 " +:+ name +:+ ";" +:+ nl))
  else
    (assert false ;;; Returns inputUniforms)%result.

Definition declare_uniforms (inputConstants : list Constant)
  : result string :=
  for_each declare_uniform EmptyString inputConstants.

(** [drawSprite(M, texture, inputConstants, surfaceShader, globals)] *)
Definition drawSprite (M : list float) (texture : Texture)
           (inputConstants : list Constant) (surfaceShader globals : string)
           (this : Window) : method unit :=
  inputUniforms <- lift (declare_uniforms inputConstants) ;;
  effect (issue (DrawSpriteQuad (m_projection this) M texture
                   (SPRITE_FRAG surfaceShader inputUniforms globals)
                   inputConstants)).

(** [drawSprite(transform, pixels, inputConstants, surfaceShader, globals)] *)
Definition drawSprite_grid (transform : list (list float)) (pixels : Grid)
           (inputConstants : list Constant) (surfaceShader globals : string)
           (this : Window) : method unit :=
  texture <- lift (sprite_texture this pixels) ;;
  drawSprite (flatten_transform transform) texture inputConstants
             surfaceShader globals this.

(** [drawSprite(transform, pixels, surfaceShader, globals)] *)
Definition drawSprite_grid_plain (transform : list (list float))
           (pixels : Grid) (surfaceShader globals : string) (this : Window)
  : method unit :=
  drawSprite_grid transform pixels [] surfaceShader globals this.

Definition shade_fragment (inputUniforms globals fragmentShaderMain : string)
  : string :=
  "#version 330 core" +:+ nl +:+
  "out vec4 FragColor;" +:+ nl +:+
  "in float x;" +:+ nl +:+
  "in float y;" +:+ nl +:+
  "in float z;" +:+ nl +:+
  "in float w;" +:+ nl +:+
  "uniform vec2 max;" +:+ nl +:+
  "uniform vec2 min;" +:+ nl +:+
  "uniform vec2 size;" +:+ nl +:+
  inputUniforms +:+
  (nl +:+ globals +:+ nl) +:+
  nl +:+ "void main(){" +:+ nl +:+
  "vec4 color;" +:+ nl +:+
  fragmentShaderMain +:+
  "gl_FragData[0] = color;" +:+ nl +:+
  nl +:+ "}" +:+ nl.

(** [shade(inputConstants, fragmentShaderMain, globals)] *)
Definition shade (inputConstants : list Constant)
           (fragmentShaderMain globals : string) (this : Window)
  : method unit :=
  inputUniforms <- lift (declare_uniforms inputConstants) ;;
  let maxX := Float32.max (m_right this) (m_left this) in
  let minX := Float32.min (m_right this) (m_left this) in
  let maxY := Float32.max (m_top this) (m_bottom this) in
  let minY := Float32.min (m_top this) (m_bottom this) in
  effect (issue (DrawShadeQuad (m_projection this)
                   (shade_fragment inputUniforms globals fragmentShaderMain)
                   (m_left this, m_bottom this) (m_right this, m_top this)
                   (minX, minY) (maxX, maxY)
                   (Float32.sub maxX minX, Float32.sub maxY minY)
                   inputConstants)).
End V1.

(** ** Second revision *)

Module V2.
Local Open Scope method_scope.

(** [StaticInit::StaticInit()] *)
Definition StaticInit_new : method unit :=
  fun e =>
    if negb (glfwInit_ok e) then throw "Failed to initialize OpenGL!" e
    else if negb (ma_engine_init_ok e)
    then throw "Failed to initialize audio engine!" e
    else ret tt e.

(** [if(!init) init = std::make_unique<StaticInit>();] *)
Definition ensure_static_init : method unit :=
  fun e =>
    if negb (static_init e)
    then (StaticInit_new ;;; effect (set_static_init true)) e
    else ret tt e.

(** the key callback: escape closes the window, and the key's entry of
    [m_curKeys] follows presses and releases *)
Definition key_callback (key action : Z) (s : Window * World)
  : Window * World :=
  let '(pThis, e) := s in
  let e := if (key =? GLFW_KEY_ESCAPE) && (action =? GLFW_PRESS)
           then set_should_close true e else e in
  let pThis := if action =? GLFW_PRESS
               then set_curKeys (<[key := true]> (m_curKeys pThis)) pThis
               else pThis in
  let pThis := if action =? GLFW_RELEASE
               then set_curKeys (<[key := false]> (m_curKeys pThis)) pThis
               else pThis in
  (pThis, e).

(** glfw hands a key event to the callback; a request to close the window
    sets the close flag *)
Definition deliver (s : Window * World) (ev : glfw_event) : Window * World :=
  match ev with
  | KeyEvent key action => key_callback key action s
  | CloseRequested => (fst s, set_should_close true (snd s))
  end.

Definition glfwPollEvents (events : list glfw_event) (this : Window)
  : method Window :=
  fun e => let '(this, e) := fold_left deliver events (this, e) in
           (Returns this, e).

Definition shouldClose (events : list glfw_event) (this : Window)
  : method (bool * Window) :=
  this <- glfwPollEvents events this ;;
  closing <- glfwWindowShouldClose ;;
  ret ((m_window this =? 0) || closing, this)%bool.

(** [setScreenSize]; the call of [glfwSetWindowSize] leaves no trace here *)
Definition setScreenSize (width height : Z) (this : Window) : method Window :=
  ret (set_size width height this).

(** [setScreen(left, right, bottom, top)]: nothing is recomputed when the
    four members already compare equal to the arguments *)
Definition setScreen (left right bottom top : float) (this : Window)
  : method (list float * Window) :=
  if Float32.eqb (m_left this) left && Float32.eqb (m_right this) right
     && Float32.eqb (m_bottom this) bottom && Float32.eqb (m_top this) top
  then ret (m_projection this, this)
  else
    let m_near := Float32.opp (Float32.of_Z 1) in
    let m_far := Float32.of_Z 1 in
    let this := set_range left right bottom top this in
    effect (issue (Ortho (m_left this) (m_right this)
                         (m_bottom this) (m_top this) m_near m_far)) ;;;
    effect (issue (ScreenSizeQuadPositions
                     (screenSizeQuad left right bottom top))) ;;;
    let this := set_projection
                  (projection_of (m_left this) (m_right this)
                                 (m_bottom this) (m_top this)) this in
    ret (m_projection this, this).

(** [setScreen(vec2 pos, vec2 size)] *)
Definition setScreen_centered (pos size : vec2) (this : Window)
  : method (list float * Window) :=
  let left := Float32.sub (vec2_x pos) (Float32.mul Float32.half (vec2_x size)) in
  let right := Float32.add (vec2_x pos) (Float32.mul Float32.half (vec2_x size)) in
  let top := Float32.sub (vec2_y pos) (Float32.mul Float32.half (vec2_y size)) in
  let bottom := Float32.add (vec2_y pos) (Float32.mul Float32.half (vec2_y size)) in
  setScreen left right top bottom this.

(** The constructor; glfw and the audio engine are initialised by the
    first window. *)
Definition new (sizeX sizeY : Z) (title : string) (palette : list RGBA)
           (clearColor : Z) : method Window :=
  let this := initial_members sizeX sizeY palette clearColor in
  ensure_static_init ;;;
  fun e =>
    let this := set_window (glfwCreateWindow_handle e) this in
    if m_window this =? 0 then throw "Failed to create window!" e
    else
      let '(screenWidth, screenHeight) := framebuffer_size e in
      (r <- setScreen (Float32.of_Z 0) (Float32.of_Z screenWidth)
                      (Float32.of_Z 0) (Float32.of_Z screenHeight) this ;;
       ret (set_shadeFbo
              (Some (TextureTarget screenWidth screenHeight false))
              (snd r))) e.

Definition keyState (keyMap : gmap Z bool) (keyCode : Z) : bool :=
  match keyMap !! keyCode with
  | None => false
  | Some pressed => pressed
  end.

Definition getKeyState (keyCode : Z) (this : Window) : Z :=
  if keyState (m_curKeys this) keyCode then Z.b2z true else Z.b2z false.

Definition getKeyPressed (keyCode : Z) (this : Window) : Z :=
  Z.b2z (keyState (m_curKeys this) keyCode
         && negb (keyState (m_prevKeys this) keyCode)).

Definition getKeyReleased (keyCode : Z) (this : Window) : Z :=
  Z.b2z (negb (keyState (m_curKeys this) keyCode)
         && keyState (m_prevKeys this) keyCode).

(** [update]; [poll1] and [poll2] are the events that the two calls of
    [glfwPollEvents] deliver *)
Definition update (poll1 poll2 : list glfw_event) (this : Window)
  : method (Z * Window) :=
  c <- shouldClose poll1 this ;;
  let '(closing, this) := c in
  if closing : bool then ret (-1, this)
  else
    present_frame this ;;;
    this <- pending_screenshot this ;;
    clear_frame this ;;;
    let this := set_prevKeys (m_curKeys this) this in
    this <- glfwPollEvents poll2 this ;;
    closing <- glfwWindowShouldClose ;;
    ret (if closing : bool then -1 else 0, this).

(** [index = index % m_palette.size()]: the remainder is taken in
    [size_t] and stored back into the [int] *)
Definition wrap_index (m_palette : list RGBA) (index : Z) : result Z :=
  if Z.of_nat (length m_palette) =? 0 then UndefinedBehaviour
  else Returns (to_int (Z.rem (to_size_t index) (Z.of_nat (length m_palette)))).

Definition drawPixels (pixels : Grid) (this : Window) : method unit :=
  texture <- lift (s <- grid_loop
                          (fun index =>
                             index <- wrap_index (m_palette this) index ;;
                             checked_color (m_palette this) index) pixels ;;
                   finish_texture s)%result ;;
  drawScreenSizeQuad texture.

Section Shaders.
(** [shaders::constants], [shaders::textureFSSource] and
    [shaders::shadeFSSource] belong to a file of the project that is not
    part of this development; they are taken as they come. *)
Variable shaders_constants : list Constant -> result string.
Variable shaders_textureFSSource : string -> string -> string -> string.
Variable shaders_shadeFSSource : string -> string -> string -> string.

(** [drawSprite(M, texture, inputConstants, surfaceShader, globals)] *)
Definition drawSprite (M : list float) (texture : Texture)
           (inputConstants : list Constant) (surfaceShader globals : string)
           (this : Window) : method unit :=
  inputUniforms <- lift (shaders_constants inputConstants) ;;
  lift (first_element (m_projection this)) ;;;
  lift (first_element M) ;;;
  effect (issue (DrawSpriteQuad (m_projection this) M texture
                   (shaders_textureFSSource inputUniforms globals
                                            surfaceShader)
                   inputConstants)).

(** [drawSprite(transform, pixels, inputConstants, surfaceShader, globals)] *)
Definition drawSprite_grid (transform : list (list float)) (pixels : Grid)
           (inputConstants : list Constant) (surfaceShader globals : string)
           (this : Window) : method unit :=
  texture <- lift (sprite_texture this pixels) ;;
  drawSprite (flatten_transform transform) texture inputConstants
             surfaceShader globals this.

(** [shade(inputConstants, fragmentShaderMain, globals)] *)
Definition shade (inputConstants : list Constant)
           (fragmentShaderMain globals : string) (this : Window)
  : method unit :=
  inputUniforms <- lift (shaders_constants inputConstants) ;;
  lift (first_element (m_projection this)) ;;;
  let maxX := Float32.max (m_right this) (m_left this) in
  let minX := Float32.min (m_right this) (m_left this) in
  let maxY := Float32.max (m_top this) (m_bottom this) in
  let minY := Float32.min (m_top this) (m_bottom this) in
  effect (issue (DrawShadeQuad (m_projection this)
                   (shaders_shadeFSSource inputUniforms globals
                                          fragmentShaderMain)
                   (m_left this, m_bottom this) (m_right this, m_top this)
                   (minX, minY) (maxX, maxY)
                   (Float32.sub maxX minX, Float32.sub maxY minY)
                   inputConstants)).
End Shaders.

(** [drawRGB(map)]: a grid of colours, pushed as they are *)
Definition drawRGB (map : list (list RGBA)) (this : Window) : method unit :=
  texture <- lift (s <- for_each
                          (fun s row =>
                             for_each (fun s color => Returns (push_color color s))
                                      (MapState (mapData s) (mapWidth s)
                                                (mapHeight s + 1)) row)
                          (MapState [] 0 0) map ;;
                   finish_texture s)%result ;;
  drawScreenSizeQuad texture.
End V2.

(** [drawHeatMap(pixels, valueMin, valueMax)], the same in both revisions;
    [heatToRGB] is declared outside window.cpp and is taken as it comes. *)
Definition drawHeatMap (heatToRGB : float -> float -> float -> RGBA)
           (pixels : list (list float)) (valueMin valueMax : float)
           (this : Window) : method unit :=
  (texture <- lift (s <- for_each
                          (fun s row =>
                             for_each (fun s heat =>
                                         Returns (push_color
                                                    (heatToRGB heat valueMin valueMax) s))
                                      (MapState (mapData s) (mapWidth s)
                                                (mapHeight s + 1)) row)
                          (MapState [] 0 0) pixels ;;
                   finish_texture s)%result ;;
   drawScreenSizeQuad texture)%method.

(** ** Reachable windows of the second revision

    A window exists once its constructor has returned; after that only
    [setScreen], [setScreenSize], [screenshot], [update] and [shouldClose]
    assign the members kept here (the drawing methods read them). *)

Inductive reachable : Window -> Prop :=
| reach_new sizeX sizeY title palette clearColor e this e' :
    V2.new sizeX sizeY title palette clearColor e = (Returns this, e') ->
    reachable this
| reach_setScreen left right bottom top this e p this' e' :
    reachable this ->
    V2.setScreen left right bottom top this e = (Returns (p, this'), e') ->
    reachable this'
| reach_setScreen_centered pos size this e p this' e' :
    reachable this ->
    V2.setScreen_centered pos size this e = (Returns (p, this'), e') ->
    reachable this'
| reach_setScreenSize width height this e this' e' :
    reachable this ->
    V2.setScreenSize width height this e = (Returns this', e') ->
    reachable this'
| reach_screenshot filename this e this' e' :
    reachable this ->
    screenshot filename this e = (Returns this', e') ->
    reachable this'
| reach_shouldClose events this e c this' e' :
    reachable this ->
    V2.shouldClose events this e = (Returns (c, this'), e') ->
    reachable this'
| reach_update poll1 poll2 this e rc this' e' :
    reachable this ->
    V2.update poll1 poll2 this e = (Returns (rc, this'), e') ->
    reachable this'.

(** the members that [update] and the events leave alone *)
Definition screen_members (this : Window) :=
  (m_clearColor this, m_width this, m_height this, m_palette this,
   m_window this, m_shadeFbo this,
   (m_left this, m_right this, m_bottom this, m_top this), m_projection this).

(** what a call leaves on disk and on screen *)
Definition outputs (e : World) := (png_files e, gl_calls e).

(** The stored matrix belongs to the stored range, or nothing was stored
    yet and the range is the constructor's. *)
Definition projection_current (this : Window) : Prop :=
  m_projection this
  = projection_of (m_left this) (m_right this) (m_bottom this) (m_top this)
  \/ (m_left this = Float32.of_Z 0 /\ m_right this = Float32.of_Z 0
      /\ m_bottom this = Float32.of_Z 0 /\ m_top this = Float32.of_Z 0).

(** the conditions under which the static initialisation of the second
    revision throws *)
Definition static_init_fails (e : World) : Prop :=
  static_init e = false
  /\ (glfwInit_ok e = false \/ ma_engine_init_ok e = false).

(** a window that the constructor has finished *)
Definition constructed (this : Window) : Prop :=
  m_window this <> 0 /\ is_Some (m_shadeFbo this).

(** a framebuffer that [takeScreenshot] can capture: it has pixels, and an
    [int] counts their bytes *)
Definition capturable (e : World) : Prop :=
  0 < fst (framebuffer_size e) /\ 0 < snd (framebuffer_size e)
  /\ 4 * fst (framebuffer_size e) * snd (framebuffer_size e) < 2 ^ 31.

(** [a] holds the value [b]: the same float, or one that [==] equates with
    it (the two zeros) *)
Definition holds_value (a b : float) : Prop :=
  a = b \/ Float32.eqb a b = true.

(** an [int] *)
Definition is_int (i : Z) : Prop := - 2 ^ 31 <= i < 2 ^ 31.

(** an index of the palette *)
Definition in_palette (m_palette : list RGBA) (index : Z) : Prop :=
  0 <= index < Z.of_nat (length m_palette).

(** the entry of the palette at an index, transparent black outside *)
Definition color_at (m_palette : list RGBA) (index : Z) : RGBA :=
  nth (Z.to_nat index) m_palette (Color.mk 0 0 0 0).

(** the index that the second revision makes of [index] *)
Definition wrapped (m_palette : list RGBA) (index : Z) : Z :=
  to_size_t index mod Z.of_nat (length m_palette).

(** ** The claim's words, for comparison *)

(** the GLSL type of a vector of [n] floats *)
Definition glsl_type (n : nat) : string :=
  match n with
  | 1%nat => "float"
  | 2%nat => "vec2"
  | 3%nat => "vec3"
  | _ => "vec4"
  end.

(** the declaration of a constant as a uniform of the matching type *)
Definition uniform_declaration (c : Constant) : string :=
  "uniform " +:+ glsl_type (length (snd c)) +:+ " " +:+ fst c +:+ ";" +:+ nl.

(** the declarations of a list of constants, one after the other *)
Definition uniform_declarations (cs : list Constant) : string :=
  fold_right (fun c rest => uniform_declaration c +:+ rest) EmptyString cs.

(** a vector that a shader accepts *)
Definition accepted (c : Constant) : Prop :=
  (1 <= length (snd c) <= 4)%nat.

(** [part] stands somewhere in [text] *)
Definition occurs_in (part text : string) : Prop :=
  exists before after, text = before +:+ part +:+ after.

(** The orthographic projection of [glOrtho], column by column. *)
Definition orthographic (left right bottom top near far : float) : list float :=
  let zero := Float32.of_Z 0 in
  let two := Float32.of_Z 2 in
  [ Float32.div two (Float32.sub right left); zero; zero; zero;
    zero; Float32.div two (Float32.sub top bottom); zero; zero;
    zero; zero; Float32.div (Float32.opp two) (Float32.sub far near); zero;
    Float32.opp (Float32.div (Float32.add right left) (Float32.sub right left));
    Float32.opp (Float32.div (Float32.add top bottom) (Float32.sub top bottom));
    Float32.opp (Float32.div (Float32.add far near) (Float32.sub far near));
    Float32.of_Z 1 ].

(** [M * vec4(x, y, 0, 1)], its first two coordinates, as the vertex shaders
    compute it; [M] is stored column by column. *)
Definition transform_point (M : list float) (x y : float)
  : option (float * float) :=
  match M with
  | [m0; m1; _; _; m4; m5; _; _; m8; m9; _; _; m12; m13; _; _] =>
      let zero := Float32.of_Z 0 in
      let one := Float32.of_Z 1 in
      let dot a b c d :=
        Float32.add (Float32.add (Float32.add (Float32.mul a x)
                                              (Float32.mul b y))
                                 (Float32.mul c zero))
                    (Float32.mul d one) in
      Some (dot m0 m4 m8 m12, dot m1 m5 m9 m13)
  | _ => None
  end.

(** the same product when [M] is read row by row *)
Definition transform_point_rows (M : list float) (x y : float)
  : option (float * float) :=
  match M with
  | [m0; m1; m2; m3; m4; m5; m6; m7; _; _; _; _; _; _; _; _] =>
      let zero := Float32.of_Z 0 in
      let one := Float32.of_Z 1 in
      let dot a b c d :=
        Float32.add (Float32.add (Float32.add (Float32.mul a x)
                                              (Float32.mul b y))
                                 (Float32.mul c zero))
                    (Float32.mul d one) in
      Some (dot m0 m1 m2 m3, dot m4 m5 m6 m7)
  | _ => None
  end.

(** an empty world in which every library call succeeds *)
Definition quiet_world : World :=
  mkWorld true true 1 false false (640, 480) [] [] [].

Definition black : RGBA := Color.mk 0 0 0 255.
Definition white : RGBA := Color.mk 255 255 255 255.
Definition red : RGBA := Color.mk 255 0 0 255.

(** a window of the second revision, as its constructor leaves it *)
Definition sample_window : Window :=
  match fst (V2.new 640 480 "plot" [black; white; red] 0 quiet_world) with
  | Returns this => this
  | _ => initial_members 640 480 [black; white; red] 0
  end.

(** the matrix a call left in [m_projection], when the call returned *)
Definition stored_projection {A} (get : A -> Window) (run : result A * World)
  : option (list float) :=
  match fst run with
  | Returns x => Some (m_projection (get x))
  | _ => None
  end.

(** ** Further methods and notions *)

(** [loadTexture] of the second revision.  [m_textures] is the cache, a
    member; [stbi_load] is the decoder of the image library, asked for the
    file as it is on disk at the time of the call: it answers the width,
    the height, the bytes per pixel and the data, or nothing. *)
Definition loadTexture
           (stbi_load : string -> option (Z * Z * Z * list Z))
           (filename : string) (m_textures : gmap string Texture)
  : option Texture * gmap string Texture :=
  match m_textures !! filename with
  | Some it => (Some it, m_textures)
  | None =>
      match stbi_load filename with
      | None => (None, m_textures)
      | Some (width, height, bpp, data) =>
          let res := TextureU8 width height bpp data in
          (Some res, <[filename := res]> m_textures)
      end
  end.

(** the state that the events of a poll leave a key in: the last press or
    release of that key among them, if there is one *)
Fixpoint last_key_action (keyCode : Z) (events : list glfw_event)
  : option bool :=
  match events with
  | [] => None
  | ev :: rest =>
      match last_key_action keyCode rest with
      | Some down => Some down
      | None =>
          match ev with
          | KeyEvent key action =>
              if key =? keyCode
              then if action =? GLFW_RELEASE then Some false
                   else if action =? GLFW_PRESS then Some true
                   else None
              else None
          | CloseRequested => None
          end
      end
  end.

(** an event that asks the window to close *)
Definition closes (ev : glfw_event) : bool :=
  match ev with
  | KeyEvent key action => (key =? GLFW_KEY_ESCAPE) && (action =? GLFW_PRESS)
  | CloseRequested => true
  end.

(** The stored matrix is the one of the stored range, or no range was ever
    stored: the matrix is still empty and the range is the constructor's. *)
Definition projection_settled (this : Window) : Prop :=
  m_projection this
  = projection_of (m_left this) (m_right this) (m_bottom this) (m_top this)
  \/ (m_projection this = []
      /\ m_left this = Float32.of_Z 0 /\ m_right this = Float32.of_Z 0
      /\ m_bottom this = Float32.of_Z 0 /\ m_top this = Float32.of_Z 0).

(** a float that is a number *)
Definition is_number (x : float) : Prop := x <> S754_nan.

(** the colour texture that a texture stage hands on, inside a method *)
Definition texture_of_rows {A} (color : A -> RGBA) (rows : list (list A))
  : Texture :=
  TextureU8 (Z.quot (Z.of_nat (length (concat rows)))
                    (Z.of_nat (length rows)))
            (Z.of_nat (length rows)) 4
            (flat_map (fun x => rgba_bytes (color x)) (concat rows)).

(** [e'] is [e] after one draw of a four-channel texture built from the
    grid [rows]: as many rows high, the mean row length (rounded down) wide,
    over a buffer of four bytes per pixel that the texture does not exceed. *)
Definition drew_within_buffer {A} (rows : list (list A)) (e e' : World) : Prop :=
  exists data,
    let width := Z.quot (Z.of_nat (length (concat rows)))
                        (Z.of_nat (length rows)) in
    let height := Z.of_nat (length rows) in
    e' = issue (DrawScreenSizeQuad (TextureU8 width height 4 data)) e
    /\ Z.of_nat (length data) = 4 * Z.of_nat (length (concat rows))
    /\ 0 <= width /\ 1 <= height
    /\ 4 * width * height <= Z.of_nat (length data).

(** [lo] and [hi] are the two ends [a] and [b] of a range in order: the
    smaller first when the two compare; both are [b] when neither is less
    than the other (equal ends, or a NaN); in no case is [hi] less than
    [lo]. *)
Definition ordered_ends (lo hi a b : float) : Prop :=
  (Float32.ltb a b = true -> lo = a /\ hi = b)
  /\ (Float32.ltb b a = true -> lo = b /\ hi = a)
  /\ (Float32.ltb a b = false -> Float32.ltb b a = false -> lo = b /\ hi = b)
  /\ Float32.ltb hi lo = false.

(** * Facts *)

(** ** Floats *)

Section Float32_facts.
Implicit Types x y l r : float.

Lemma eqb_true_cases x y :
  Float32.eqb x y = true ->
  x = y \/ exists s1 s2, x = S754_zero s1 /\ y = S754_zero s2.
Proof.
  unfold Float32.eqb, SFeqb.
  destruct x as [sx|sx| |sx mx ex], y as [sy|sy| |sy my ey]; simpl;
    try discriminate;
    try (destruct sx; discriminate); try (destruct sy; discriminate).
  - right. eauto.
  - destruct sx, sy; try discriminate; auto.
  - change (Pos.compare_cont Eq mx my) with (Pos.compare mx my).
    destruct sx, sy; try discriminate;
      destruct (Z.compare_spec ex ey) as [->| |]; try discriminate;
      destruct (Pos.compare_spec mx my) as [->| |]; try discriminate; auto.
Qed.

(** Under [l < r], floats that [==] equates with [l] and [r] have the
    same difference: only the two zeros are equated without being the
    same, and a zero does not change the difference with a non-zero. *)
Lemma sub_stable l r l' r' :
  Float32.ltb l r = true ->
  Float32.eqb l' l = true -> Float32.eqb r' r = true ->
  Float32.sub r' l' = Float32.sub r l.
Proof.
  intros Hlt Hl Hr.
  destruct (eqb_true_cases _ _ Hl) as [->|(a & b & -> & ->)];
    destruct (eqb_true_cases _ _ Hr) as [->|(c & d & -> & ->)];
    try reflexivity.
  - destruct l as [sl|sl| |sl ml el]; try discriminate; reflexivity.
  - destruct r as [sr|sr| |sr mr er]; try discriminate; reflexivity.
  - discriminate.
Qed.
End Float32_facts.

(** ** [setScreen] *)

Section SetScreen.
Variables left right bottom top : float.
Variable this : Window.
Variable e : World.

Lemma V1_setScreen_runs :
  exists e',
    V1.setScreen left right bottom top this e
    = (Returns (set_projection (projection_of left right bottom top)
                  (set_range left right bottom top this)), e').
Proof. eexists. reflexivity. Qed.

(** The second revision either leaves the window alone, its range being
    [==] to the arguments, or stores range and matrix. *)
Lemma V2_setScreen_cases :
  (Float32.eqb (m_left this) left = true
   /\ Float32.eqb (m_right this) right = true
   /\ Float32.eqb (m_bottom this) bottom = true
   /\ Float32.eqb (m_top this) top = true
   /\ V2.setScreen left right bottom top this e
      = (Returns (m_projection this, this), e))
  \/ exists e',
      V2.setScreen left right bottom top this e
      = (Returns (projection_of left right bottom top,
                  set_projection (projection_of left right bottom top)
                    (set_range left right bottom top this)), e').
Proof.
  unfold V2.setScreen.
  destruct (Float32.eqb (m_left this) left) eqn:El; simpl; [|right; eauto].
  destruct (Float32.eqb (m_right this) right) eqn:Er; simpl; [|right; eauto].
  destruct (Float32.eqb (m_bottom this) bottom) eqn:Eb; simpl; [|right; eauto].
  destruct (Float32.eqb (m_top this) top) eqn:Et; simpl; [|right; eauto].
  left. auto.
Qed.

Lemma V2_setScreen_current :
  projection_current this ->
  forall p this' e',
    V2.setScreen left right bottom top this e = (Returns (p, this'), e') ->
    projection_current this'.
Proof.
  intros Hcur p this' e' Hrun.
  destruct V2_setScreen_cases as [(_ & _ & _ & _ & H)|[e0 H]];
    rewrite H in Hrun; inversion Hrun; subst; [assumption|].
  left. reflexivity.
Qed.

Lemma V2_setScreen_projection :
  projection_current this ->
  Float32.ltb left right = true -> Float32.ltb bottom top = true ->
  exists this' e',
    V2.setScreen left right bottom top this e
    = (Returns (m_projection this', this'), e')
    /\ m_projection this' = projection_of left right bottom top.
Proof.
  intros Hcur Hlr Hbt.
  destruct V2_setScreen_cases as [(El & Er & Eb & Et & H)|[e0 H]].
  - exists this, e. split; [assumption|].
    destruct Hcur as [->|(Zl & Zr & _)].
    + unfold projection_of.
      rewrite (sub_stable _ _ _ _ Hlr El Er), (sub_stable _ _ _ _ Hbt Eb Et).
      reflexivity.
    + rewrite Zl in El. rewrite Zr in Er.
      destruct (eqb_true_cases _ _ El) as [<-|(a & b & _ & ->)];
        destruct (eqb_true_cases _ _ Er) as [<-|(c & d & _ & ->)];
        discriminate.
  - exists (set_projection (projection_of left right bottom top)
              (set_range left right bottom top this)), e0.
    split; [exact H|reflexivity].
Qed.
End SetScreen.

(** ** Events *)

Lemma V2_deliver_keeps s ev :
  screen_members (fst (V2.deliver s ev)) = screen_members (fst s)
  /\ m_screenshotFileName (fst (V2.deliver s ev))
     = m_screenshotFileName (fst s)
  /\ m_prevKeys (fst (V2.deliver s ev)) = m_prevKeys (fst s)
  /\ outputs (snd (V2.deliver s ev)) = outputs (snd s).
Proof.
  destruct s as [this e], ev as [key action|]; simpl.
  - destruct (action =? GLFW_PRESS), (action =? GLFW_RELEASE),
      (key =? GLFW_KEY_ESCAPE); repeat split; reflexivity.
  - repeat split; reflexivity.
Qed.

Lemma V2_poll_keeps events : forall s,
  screen_members (fst (fold_left V2.deliver events s))
  = screen_members (fst s)
  /\ m_screenshotFileName (fst (fold_left V2.deliver events s))
     = m_screenshotFileName (fst s)
  /\ m_prevKeys (fst (fold_left V2.deliver events s)) = m_prevKeys (fst s)
  /\ outputs (snd (fold_left V2.deliver events s)) = outputs (snd s).
Proof.
  induction events as [|ev events IH]; intros s; simpl; [auto|].
  destruct (IH (V2.deliver s ev)) as (-> & -> & -> & ->).
  apply V2_deliver_keeps.
Qed.

Lemma V2_poll_frame events : forall s,
  framebuffer_size (snd (fold_left V2.deliver events s))
  = framebuffer_size (snd s)
  /\ framebuffer (snd (fold_left V2.deliver events s)) = framebuffer (snd s).
Proof.
  induction events as [|ev events IH]; intros s; simpl; [auto|].
  destruct (IH (V2.deliver s ev)) as (-> & ->).
  destruct s as [this e], ev as [key action|]; simpl; [|auto].
  destruct ((key =? GLFW_KEY_ESCAPE) && (action =? GLFW_PRESS)); auto.
Qed.

Lemma V2_glfwPollEvents_frame events this e this' e' :
  V2.glfwPollEvents events this e = (Returns this', e') ->
  framebuffer_size e' = framebuffer_size e /\ framebuffer e' = framebuffer e.
Proof.
  unfold V2.glfwPollEvents. intros H.
  pose proof (V2_poll_frame events (this, e)) as Hf.
  destruct (fold_left V2.deliver events (this, e)) as [this1 e1].
  injection H as _ <-. exact Hf.
Qed.

Lemma V2_shouldClose_frame events this e c this' e' :
  V2.shouldClose events this e = (Returns (c, this'), e') ->
  framebuffer_size e' = framebuffer_size e /\ framebuffer e' = framebuffer e.
Proof.
  unfold V2.shouldClose, bind. intros H.
  destruct (V2.glfwPollEvents events this e) as [[this1| | |] e1] eqn:Hpoll;
    try discriminate.
  unfold glfwWindowShouldClose, ret in H. injection H as _ _ <-.
  exact (V2_glfwPollEvents_frame _ _ _ _ _ Hpoll).
Qed.

Lemma V2_glfwPollEvents_runs events this e :
  exists this' e',
    V2.glfwPollEvents events this e = (Returns this', e')
    /\ screen_members this' = screen_members this
    /\ m_screenshotFileName this' = m_screenshotFileName this
    /\ m_prevKeys this' = m_prevKeys this
    /\ outputs e' = outputs e.
Proof.
  unfold V2.glfwPollEvents.
  pose proof (V2_poll_keeps events (this, e)) as H.
  destruct (fold_left V2.deliver events (this, e)) as [this' e'].
  exists this', e'. split; [reflexivity|exact H].
Qed.

Lemma V2_shouldClose_runs events this e :
  exists this' e',
    V2.shouldClose events this e
    = (Returns ((m_window this' =? 0) || should_close e', this'), e')
    /\ screen_members this' = screen_members this
    /\ m_screenshotFileName this' = m_screenshotFileName this
    /\ m_prevKeys this' = m_prevKeys this
    /\ outputs e' = outputs e.
Proof.
  destruct (V2_glfwPollEvents_runs events this e) as (this' & e' & H & Hk).
  exists this', e'. split; [|exact Hk].
  unfold V2.shouldClose, bind. rewrite H. reflexivity.
Qed.

(** ** Running methods *)

Lemma bind_returns {A B} (m : method A) (k : A -> method B) e x e' :
  m e = (Returns x, e') -> bind m k e = k x e'.
Proof. intros H. unfold bind. rewrite H. reflexivity. Qed.

Lemma bind_undefined {A B} (m : method A) (k : A -> method B) e e' :
  m e = (UndefinedBehaviour, e') -> bind m k e = (UndefinedBehaviour, e').
Proof. intros H. unfold bind. rewrite H. reflexivity. Qed.

Lemma bind_throws {A B} (m : method A) (k : A -> method B) e what e' :
  m e = (RuntimeError what, e') -> bind m k e = (RuntimeError what, e').
Proof. intros H. unfold bind. rewrite H. reflexivity. Qed.

Lemma lift_bind {A B} (m : result A) (k : A -> method B) e :
  bind (lift m) k e
  = match m with
    | Returns x => k x e
    | AssertionFailure => (AssertionFailure, e)
    | RuntimeError what => (RuntimeError what, e)
    | UndefinedBehaviour => (UndefinedBehaviour, e)
    end.
Proof. unfold bind, lift. destruct m; reflexivity. Qed.

(** ** [update] *)

Lemma V2_update_early poll1 poll2 this e this1 e1 :
  V2.shouldClose poll1 this e = (Returns (true, this1), e1) ->
  V2.update poll1 poll2 this e = (Returns (-1, this1), e1).
Proof. intros H. unfold V2.update. rewrite (bind_returns _ _ _ _ _ H). reflexivity. Qed.

(** ** [takeScreenshot] *)

Lemma int_mul_fits a b :
  - 2 ^ 31 <= a * b < 2 ^ 31 -> int_mul a b = Returns (a * b).
Proof.
  intros H. unfold int_mul.
  destruct (Z.leb_spec (- 2 ^ 31) (a * b)); [|lia].
  destruct (Z.ltb_spec (a * b) (2 ^ 31)); [reflexivity|lia].
Qed.

Lemma int_mul_overflows a b :
  ~ - 2 ^ 31 <= a * b < 2 ^ 31 -> int_mul a b = UndefinedBehaviour.
Proof.
  intros H. unfold int_mul.
  destruct (Z.leb_spec (- 2 ^ 31) (a * b)); [|reflexivity].
  destruct (Z.ltb_spec (a * b) (2 ^ 31)); [lia|reflexivity].
Qed.

Lemma vector_resize_fits n :
  0 <= n < 2 ^ 31 -> vector_resize n = Returns (replicate (Z.to_nat n) 0).
Proof.
  intros H. unfold vector_resize, vector_max_size, to_size_t, size_t_bits.
  rewrite Z.mod_small by lia.
  destruct (Z.ltb_spec (2 ^ (64 - 1) - 1) n); [lia|reflexivity].
Qed.

Lemma vector_resize_negative n :
  - 2 ^ 31 <= n < 0 -> vector_resize n = RuntimeError "std::length_error".
Proof.
  intros H. unfold vector_resize, vector_max_size, size_t_bits.
  assert (Hn : to_size_t n = n + 2 ^ 64).
  { unfold to_size_t, size_t_bits.
    rewrite <- (Z.mod_add n 1 (2 ^ 64)) by lia.
    apply Z.mod_small. lia. }
  rewrite Hn.
  destruct (Z.ltb_spec (2 ^ (64 - 1) - 1) (n + 2 ^ 64)); [reflexivity|lia].
Qed.

(** on a framebuffer that can be captured the file is written *)
Lemma takeScreenshot_runs filename e :
  capturable e ->
  takeScreenshot filename e
  = (Returns tt, write_png (screenshot_file filename e) e).
Proof.
  unfold capturable, takeScreenshot, screenshot_file.
  destruct (framebuffer_size e) as [width height]. cbn [fst snd].
  intros (Hw & Hh & Hsize).
  rewrite lift_bind.
  rewrite (int_mul_fits 4 width) by nia. cbn [result_bind].
  rewrite (int_mul_fits (4 * width) height) by nia.
  rewrite lift_bind, vector_resize_fits by nia.
  rewrite lift_bind.
  assert (Hlen : length (replicate (Z.to_nat (4 * width * height)) 0)
                 = Z.to_nat (4 * width * height))
    by apply length_replicate.
  destruct (replicate (Z.to_nat (4 * width * height)) 0) as [|x l] eqn:Hrep.
  { simpl in Hlen. nia. }
  cbn [first_element]. rewrite lift_bind.
  rewrite (int_mul_fits width 4) by nia.
  rewrite Hlen. reflexivity.
Qed.

(** whenever it returns it has written one file, of the name it was given;
    otherwise it has written nothing *)
Lemma takeScreenshot_cases filename e :
  (exists file,
      takeScreenshot filename e = (Returns tt, write_png file e)
      /\ png_name file = filename)
  \/ (exists r, takeScreenshot filename e = (r, e)
                /\ forall x, r <> Returns x).
Proof.
  unfold takeScreenshot.
  destruct (framebuffer_size e) as [width height].
  rewrite lift_bind.
  destruct (int_mul 4 width) as [n| | |]; cbn [result_bind];
    try (right; eexists; split; [reflexivity|discriminate]).
  destruct (int_mul n height) as [size| | |];
    try (right; eexists; split; [reflexivity|discriminate]).
  rewrite lift_bind.
  destruct (vector_resize size) as [lastFrame| | |];
    try (right; eexists; split; [reflexivity|discriminate]).
  rewrite lift_bind.
  destruct lastFrame as [|x l]; cbn [first_element];
    try (right; eexists; split; [reflexivity|discriminate]).
  rewrite lift_bind.
  destruct (int_mul width 4) as [stride| | |];
    try (right; eexists; split; [reflexivity|discriminate]).
  left. eexists. split; reflexivity.
Qed.

Lemma pending_screenshot_runs this e :
  m_screenshotFileName this = EmptyString \/ capturable e ->
  pending_screenshot this e
  = if (0 <? Z.of_nat (String.length (m_screenshotFileName this)))
    then (Returns (set_screenshotFileName EmptyString this),
          write_png (screenshot_file (m_screenshotFileName this) e) e)
    else (Returns this, e).
Proof.
  intros Hok. unfold pending_screenshot.
  destruct (0 <? Z.of_nat (String.length (m_screenshotFileName this))) eqn:Hlen;
    [|reflexivity].
  destruct Hok as [Hname|Hcap]; [rewrite Hname in Hlen; discriminate|].
  unfold bind. rewrite (takeScreenshot_runs _ _ Hcap). reflexivity.
Qed.

(** however the pending request ends, no draw call is issued and the close
    flag stays; when the step returns, the request is gone and nothing else
    of the window has changed *)
Lemma pending_screenshot_cases this e :
  exists r e',
    pending_screenshot this e = (r, e')
    /\ gl_calls e' = gl_calls e
    /\ (forall this', r = Returns this' ->
        screen_members this' = screen_members this
        /\ m_screenshotFileName this' = EmptyString
        /\ m_curKeys this' = m_curKeys this
        /\ m_prevKeys this' = m_prevKeys this).
Proof.
  unfold pending_screenshot.
  destruct (0 <? Z.of_nat (String.length (m_screenshotFileName this))) eqn:Hlen.
  - unfold bind.
    destruct (takeScreenshot_cases (m_screenshotFileName this) e)
      as [(file & -> & _)|(r & -> & Hr)].
    + eexists _, _. split; [reflexivity|]. split; [reflexivity|].
      intros this' H. injection H as <-. repeat split.
    + destruct r as [x| | |]; [destruct (Hr x eq_refl)| | |];
        eexists _, _; (split; [reflexivity|]); (split; [reflexivity|]);
        discriminate.
  - exists (Returns this), e. split; [reflexivity|]. split; [reflexivity|].
    intros this' H. injection H as <-. repeat split.
    destruct (m_screenshotFileName this); [reflexivity|discriminate].
Qed.

Lemma clear_frame_cases this e :
  (exists e', clear_frame this e = (Returns tt, e')
              /\ png_files e' = png_files e)
  \/ (clear_frame this e = (UndefinedBehaviour, e)
      /\ m_palette this !! Z.to_nat (to_size_t (m_clearColor this)) = None).
Proof.
  unfold clear_frame, palette_at, bind, lift.
  destruct (m_palette this !! Z.to_nat (to_size_t (m_clearColor this))) as [rgb|];
    [left|right; auto].
  eexists. split; reflexivity.
Qed.

(** A frame that is not cut short: the pending screenshot is taken after
    the swap, and nothing else touches the files. *)
Lemma V2_update_frame poll1 poll2 this e this1 e1 texture :
  V2.shouldClose poll1 this e = (Returns (false, this1), e1) ->
  m_shadeFbo this1 = Some texture ->
  m_screenshotFileName this1 = EmptyString \/ capturable e1 ->
  exists this2 e2,
    pending_screenshot this1
      (issue SwapBuffers (issue (DrawScreenSizeQuad texture) e1))
    = (Returns this2, e2)
    /\ screen_members this2 = screen_members this1
    /\ png_files (snd (V2.update poll1 poll2 this e)) = png_files e2
    /\ (forall rc this' e',
          V2.update poll1 poll2 this e = (Returns (rc, this'), e') ->
          m_screenshotFileName this' = m_screenshotFileName this2
          /\ screen_members this' = screen_members this2)
    /\ (is_Some (m_palette this1 !! Z.to_nat (to_size_t (m_clearColor this1))) ->
        exists rc this' e', V2.update poll1 poll2 this e = (Returns (rc, this'), e')).
Proof.
  intros Hclose Hfbo Hok.
  set (e1' := issue SwapBuffers (issue (DrawScreenSizeQuad texture) e1)).
  assert (Hpresent : present_frame this1 e1 = (Returns tt, e1')).
  { unfold present_frame. rewrite Hfbo. reflexivity. }
  assert (Hpend : exists this2 e2,
             pending_screenshot this1 e1' = (Returns this2, e2)
             /\ screen_members this2 = screen_members this1).
  { rewrite pending_screenshot_runs by exact Hok.
    destruct (0 <? Z.of_nat (String.length (m_screenshotFileName this1)));
      eauto. }
  destruct Hpend as (this2 & e2 & Hpend & Hsame).
  assert (Hpal : m_palette this2 = m_palette this1)
    by (unfold screen_members in Hsame; congruence).
  assert (Hclr : m_clearColor this2 = m_clearColor this1)
    by (unfold screen_members in Hsame; congruence).
  exists this2, e2. split; [exact Hpend|]. split; [exact Hsame|].
  unfold V2.update.
  rewrite (bind_returns _ _ _ _ _ Hclose). cbv beta iota.
  rewrite (bind_returns _ _ _ _ _ Hpresent).
  rewrite (bind_returns _ _ _ _ _ Hpend).
  destruct (clear_frame_cases this2 e2) as [(e3 & Hclear & Hfiles)|[Hclear Hnone]].
  - rewrite (bind_returns _ _ _ _ _ Hclear).
    destruct (V2_glfwPollEvents_runs poll2 (set_prevKeys (m_curKeys this2) this2) e3)
      as (this4 & e4 & Hpoll & Hscreen & Hname & _ & Hout).
    rewrite (bind_returns _ _ _ _ _ Hpoll).
    unfold bind, glfwWindowShouldClose, ret. simpl.
    split; [|split].
    + injection Hout as -> _. exact Hfiles.
    + intros rc this' e' H. injection H as _ <- _. auto.
    + eauto.
  - rewrite (bind_undefined _ _ _ _ Hclear). simpl.
    split; [reflexivity|split].
    + discriminate.
    + rewrite <- Hpal, <- Hclr, Hnone. intros [? ?]. discriminate.
Qed.

(** An [update] that returns leaves size, palette, handle, range and
    matrix as they were. *)
Lemma V2_update_members poll1 poll2 this e rc this' e' :
  V2.update poll1 poll2 this e = (Returns (rc, this'), e') ->
  screen_members this' = screen_members this.
Proof.
  intros Hrun.
  destruct (V2_shouldClose_runs poll1 this e)
    as (this1 & e1 & H & Hsame & _).
  unfold V2.update in Hrun.
  rewrite (bind_returns _ _ _ _ _ H) in Hrun. cbv beta iota in Hrun.
  destruct ((m_window this1 =? 0) || should_close e1).
  { injection Hrun as _ <- _. exact Hsame. }
  unfold bind at 1 in Hrun.
  destruct (present_frame this1 e1) as [[[]| | |] e2]; try discriminate.
  destruct (pending_screenshot_cases this1 e2)
    as (r & e3 & Hpend & _ & Hret).
  unfold bind at 1 in Hrun. rewrite Hpend in Hrun.
  destruct r as [this2| | |]; try discriminate.
  destruct (Hret this2 eq_refl) as (Hsame2 & _).
  unfold bind at 1 in Hrun.
  destruct (clear_frame this2 e3) as [[[]| | |] e4]; try discriminate.
  destruct (V2_glfwPollEvents_runs poll2 (set_prevKeys (m_curKeys this2) this2) e4)
    as (this4 & e5 & Hpoll & Hsame4 & _).
  rewrite (bind_returns _ _ _ _ _ Hpoll) in Hrun.
  unfold bind, glfwWindowShouldClose, ret in Hrun.
  injection Hrun as _ <- _.
  rewrite Hsame4.
  change (screen_members (set_prevKeys (m_curKeys this2) this2))
    with (screen_members this2).
  congruence.
Qed.

(** ** The constructors *)

Section Constructors.
Variables sizeX sizeY : Z.
Variable title : string.
Variable palette : list RGBA.
Variable clearColor : Z.

(** what the body does once the window handle is there *)
Lemma V2_new_body e h :
  h <> 0 ->
  exists this e',
    (let '(screenWidth, screenHeight) := framebuffer_size e in
     bind (V2.setScreen (Float32.of_Z 0) (Float32.of_Z screenWidth)
                        (Float32.of_Z 0) (Float32.of_Z screenHeight)
                        (set_window h (initial_members sizeX sizeY palette clearColor)))
          (fun r => ret (set_shadeFbo
                           (Some (TextureTarget screenWidth screenHeight false))
                           (snd r))) e)
    = (Returns this, e')
    /\ m_width this = sizeX /\ m_height this = sizeY
    /\ m_palette this = palette /\ m_clearColor this = clearColor
    /\ constructed this /\ projection_current this.
Proof.
  intros Hh. destruct (framebuffer_size e) as [screenWidth screenHeight].
  set (this0 := set_window h (initial_members sizeX sizeY palette clearColor)).
  assert (Hcur : projection_current this0) by (right; repeat split; reflexivity).
  destruct (V2_setScreen_cases (Float32.of_Z 0) (Float32.of_Z screenWidth)
              (Float32.of_Z 0) (Float32.of_Z screenHeight) this0 e)
    as [(_ & _ & _ & _ & H)|[e1 H]];
    pose proof (V2_setScreen_current _ _ _ _ _ _ Hcur _ _ _ H) as Hcur';
    rewrite (bind_returns _ _ _ _ _ H);
    eexists _, _; (split; [reflexivity|]);
    repeat split; try reflexivity; try exact Hh; try (eexists; reflexivity);
    exact Hcur'.
Qed.

Lemma V1_new_outcome e :
  (glfwCreateWindow_handle e = 0
   /\ V1.new sizeX sizeY title palette clearColor e
      = (RuntimeError "Failed to create window!", e))
  \/ (glfwCreateWindow_handle e <> 0
      /\ exists this e',
          V1.new sizeX sizeY title palette clearColor e = (Returns this, e')
          /\ m_width this = sizeX /\ m_height this = sizeY
          /\ m_palette this = palette /\ m_clearColor this = clearColor).
Proof.
  unfold V1.new. simpl.
  destruct (Z.eqb_spec (glfwCreateWindow_handle e) 0) as [H0|Hne];
    [left; auto|right].
  split; [exact Hne|].
  destruct (framebuffer_size e) as [screenWidth screenHeight].
  eexists _, _. split; [reflexivity|]. repeat split.
Qed.

Lemma V2_ensure_static_init_cases e :
  (static_init_fails e
   /\ exists what, V2.ensure_static_init e = (RuntimeError what, e))
  \/ (~ static_init_fails e
      /\ exists e', V2.ensure_static_init e = (Returns tt, e')
                    /\ glfwCreateWindow_handle e' = glfwCreateWindow_handle e).
Proof.
  unfold static_init_fails, V2.ensure_static_init, V2.StaticInit_new, bind,
    throw, ret, effect.
  destruct (static_init e), (glfwInit_ok e), (ma_engine_init_ok e); simpl;
    solve [ left; split; [auto|eexists; reflexivity]
          | right; split;
            [intros [? [?|?]]; discriminate
            |eexists; split; reflexivity] ].
Qed.

Lemma V2_new_outcome e :
  ((static_init_fails e \/ glfwCreateWindow_handle e = 0)
   /\ exists what e',
       V2.new sizeX sizeY title palette clearColor e = (RuntimeError what, e'))
  \/ (~ static_init_fails e /\ glfwCreateWindow_handle e <> 0
      /\ exists this e',
          V2.new sizeX sizeY title palette clearColor e = (Returns this, e')
          /\ m_width this = sizeX /\ m_height this = sizeY
          /\ m_palette this = palette /\ m_clearColor this = clearColor
          /\ constructed this /\ projection_current this).
Proof.
  unfold V2.new.
  destruct (V2_ensure_static_init_cases e)
    as [(Hfail & what & H)|(Hok & e1 & H & Hh)].
  - left. split; [auto|]. exists what, e.
    apply (bind_throws _ _ _ _ _ H).
  - rewrite (bind_returns _ _ _ _ _ H). cbv beta.
    change (m_window (set_window (glfwCreateWindow_handle e1)
              (initial_members sizeX sizeY palette clearColor)))
      with (glfwCreateWindow_handle e1).
    rewrite Hh.
    destruct (Z.eqb_spec (glfwCreateWindow_handle e) 0) as [H0|Hne].
    + left. split; [auto|]. eexists _, _. reflexivity.
    + right. split; [exact Hok|]. split; [exact Hne|].
      rewrite <- Hh in Hne.
      destruct (V2_new_body e1 _ Hne) as (this & e' & Hrun & Hrest).
      rewrite Hh in Hrun.
      exists this, e'. split; [exact Hrun|exact Hrest].
Qed.
End Constructors.

(** ** Reachable windows *)

Lemma screen_members_constructed this this' :
  screen_members this' = screen_members this ->
  constructed this -> constructed this'.
Proof.
  unfold screen_members, constructed. intros H [Hw Hf].
  injection H as _ _ _ _ -> -> _ _ _. auto.
Qed.

Lemma screen_members_current this this' :
  screen_members this' = screen_members this ->
  projection_current this -> projection_current this'.
Proof.
  unfold screen_members, projection_current. intros H Hc.
  injection H as _ _ _ _ _ _ -> -> -> -> ->. exact Hc.
Qed.

Lemma reachable_invariant this :
  reachable this -> constructed this /\ projection_current this.
Proof.
  induction 1 as
    [sizeX sizeY title palette clearColor e this e' Hnew
    |left right bottom top this e p this' e' Hreach [IHc IHp] Hrun
    |pos size this e p this' e' Hreach [IHc IHp] Hrun
    |width height this e this' e' Hreach [IHc IHp] Hrun
    |filename this e this' e' Hreach [IHc IHp] Hrun
    |events this e c this' e' Hreach [IHc IHp] Hrun
    |poll1 poll2 this e rc this' e' Hreach [IHc IHp] Hrun].
  - destruct (V2_new_outcome sizeX sizeY title palette clearColor e)
      as [(_ & what & e0 & H)|(_ & _ & this0 & e0 & H & _ & _ & _ & _ & Hc & Hp)];
      rewrite H in Hnew; [discriminate|].
    injection Hnew as <- _. auto.
  - split; [|exact (V2_setScreen_current _ _ _ _ _ _ IHp _ _ _ Hrun)].
    destruct (V2_setScreen_cases left right bottom top this e)
      as [(_ & _ & _ & _ & H)|[e0 H]];
      rewrite H in Hrun; injection Hrun as _ <- _; exact IHc.
  - unfold V2.setScreen_centered in Hrun.
    split; [|exact (V2_setScreen_current _ _ _ _ _ _ IHp _ _ _ Hrun)].
    match type of Hrun with
    | V2.setScreen ?l ?r ?b ?t _ _ = _ =>
        destruct (V2_setScreen_cases l r b t this e)
          as [(_ & _ & _ & _ & H)|[e0 H]]
    end;
      rewrite H in Hrun; injection Hrun as _ <- _; exact IHc.
  - injection Hrun as <- _. auto.
  - injection Hrun as <- _. auto.
  - destruct (V2_shouldClose_runs events this e)
      as (this1 & e1 & H & Hsame & _).
    rewrite H in Hrun. injection Hrun as _ <- _.
    eauto using screen_members_constructed, screen_members_current.
  - destruct (V2_shouldClose_runs poll1 this e)
      as (this1 & e1 & H & Hsame & _).
    assert (Hc1 : constructed this1) by eauto using screen_members_constructed.
    assert (Hp1 : projection_current this1) by eauto using screen_members_current.
    destruct ((m_window this1 =? 0) || should_close e1) eqn:Eclose.
    + rewrite (V2_update_early _ _ _ _ _ _ H) in Hrun.
      injection Hrun as _ <- _. auto.
    + pose proof (V2_update_members _ _ _ _ _ _ _ Hrun) as Hs.
      split; [eapply screen_members_constructed|eapply screen_members_current];
        eauto.
Qed.

Lemma sample_window_reachable : reachable sample_window.
Proof.
  eapply (reach_new 640 480 "plot" [black; white; red] 0 quiet_world).
  reflexivity.
Qed.

(** * The claims *)

(** C2, as stated, fails: after [setScreen(0, 2, 0, 2)] the stored matrix
    is the identity up to the sign of its third diagonal entry.  It is
    not the orthographic projection of that range, whose last column holds
    the translation (-1, -1, 0) and which does send (0, 0) to (-1, -1) and
    (2, 2) to (1, 1); the stored matrix sends (left, bottom) = (0, 0) to
    (0, 0) and (right, top) = (2, 2) to (2, 2), whichever way the sixteen
    floats are read.  Both revisions agree. *)
Lemma setScreen_projection_not_orthographic :
  let zero := Float32.of_Z 0 in
  let one := Float32.of_Z 1 in
  let two := Float32.of_Z 2 in
  let minus_one := Float32.of_Z (-1) in
  let stored := [one; zero; zero; zero;  zero; one; zero; zero;
                 zero; zero; minus_one; zero;  zero; zero; zero; one] in
  Float32.ltb zero two = true
  /\ stored_projection id
       (V1.setScreen zero two zero two sample_window quiet_world) = Some stored
  /\ stored_projection snd
       (V2.setScreen zero two zero two sample_window quiet_world) = Some stored
  /\ stored <> orthographic zero two zero two minus_one one
  /\ transform_point (orthographic zero two zero two minus_one one) zero zero
     = Some (minus_one, minus_one)
  /\ transform_point (orthographic zero two zero two minus_one one) two two
     = Some (one, one)
  /\ transform_point stored zero zero = Some (zero, zero)
  /\ transform_point stored zero zero <> Some (minus_one, minus_one)
  /\ transform_point stored two two = Some (two, two)
  /\ transform_point stored two two <> Some (one, one)
  /\ transform_point_rows stored zero zero = Some (zero, zero)
  /\ transform_point_rows stored two two = Some (two, two).
Proof.
  cbv zeta. repeat split; try reflexivity; vm_compute; discriminate.
Qed.

(** C2, amended: for [left < right] and [bottom < top], [setScreen] leaves
    in [m_projection] the scaling part of the orthographic projection of the
    range with near plane -1 and far plane 1, that is the diagonal matrix of
    2/(right-left), 2/(top-bottom), -1 and 1, every other entry, the
    translation included, being zero.  The first revision does so for any
    window, the second one for every reachable window, also when it returns
    early because the range is unchanged. *)
Theorem setScreen_stores_scaling
        (left right bottom top : float) (this1 this2 : Window) (e : World) :
  reachable this2 ->
  Float32.ltb left right = true ->
  Float32.ltb bottom top = true ->
  let zero := Float32.of_Z 0 in
  let scaling :=
    [Float32.div (Float32.of_Z 2) (Float32.sub right left); zero; zero; zero;
     zero; Float32.div (Float32.of_Z 2) (Float32.sub top bottom); zero; zero;
     zero; zero; Float32.of_Z (-1); zero;
     zero; zero; zero; Float32.of_Z 1] in
  (exists this' e',
      V1.setScreen left right bottom top this1 e = (Returns this', e')
      /\ m_projection this' = scaling)
  /\ (exists this' e',
         V2.setScreen left right bottom top this2 e
         = (Returns (m_projection this', this'), e')
         /\ m_projection this' = scaling).
Proof.
  intros Hreach Hlr Hbt zero scaling.
  assert (Hscaling : projection_of left right bottom top = scaling)
    by reflexivity.
  split.
  - destruct (V1_setScreen_runs left right bottom top this1 e) as [e' H].
    eexists _, e'. split; [exact H|exact Hscaling].
  - destruct (reachable_invariant _ Hreach) as [_ Hcur].
    destruct (V2_setScreen_projection left right bottom top this2 e Hcur Hlr Hbt)
      as (this' & e' & H & Hp).
    exists this', e'. split; [exact H|]. rewrite Hp. exact Hscaling.
Qed.

Lemma setScreen_stores_scaling_witness :
  let zero := Float32.of_Z 0 in
  let one := Float32.of_Z 1 in
  let four := Float32.of_Z 4 in
  let half := Float32.half in
  exists this' e',
    V2.setScreen one (Float32.of_Z 5) zero four sample_window quiet_world
    = (Returns (m_projection this', this'), e')
    /\ m_projection this'
       = [half; zero; zero; zero;  zero; half; zero; zero;
          zero; zero; Float32.of_Z (-1); zero;  zero; zero; zero; one].
Proof.
  cbv zeta.
  destruct (setScreen_stores_scaling
              (Float32.of_Z 1) (Float32.of_Z 5) (Float32.of_Z 0) (Float32.of_Z 4)
              sample_window sample_window quiet_world
              sample_window_reachable eq_refl eq_refl) as [_ H].
  exact H.
Defined.

(** C6: [setScreen(pos, size)] establishes the range centred on [pos]:
    [m_left] holds pos.x - size.x/2, [m_right] holds pos.x + size.x/2,
    [m_bottom] holds pos.y - size.y/2 and [m_top] holds pos.y + size.y/2,
    the halves being computed as [0.5f * size.x] and [0.5f * size.y].  A
    member holds a value when it is that float or, the call having returned
    early, one that [==] equates with it. *)
Theorem setScreen_centered_range (pos size : vec2) (this : Window) (e : World) :
  exists p this' e',
    V2.setScreen_centered pos size this e = (Returns (p, this'), e')
    /\ holds_value (m_left this')
         (Float32.sub (vec2_x pos) (Float32.mul Float32.half (vec2_x size)))
    /\ holds_value (m_right this')
         (Float32.add (vec2_x pos) (Float32.mul Float32.half (vec2_x size)))
    /\ holds_value (m_bottom this')
         (Float32.sub (vec2_y pos) (Float32.mul Float32.half (vec2_y size)))
    /\ holds_value (m_top this')
         (Float32.add (vec2_y pos) (Float32.mul Float32.half (vec2_y size))).
Proof.
  unfold V2.setScreen_centered, holds_value.
  match goal with
  | |- context [V2.setScreen ?l ?r ?b ?t this e] =>
      destruct (V2_setScreen_cases l r b t this e)
        as [(El & Er & Eb & Et & H)|[e0 H]]
  end; rewrite H; eexists _, _, _; (split; [reflexivity|]); simpl; auto.
Qed.

(** C10: in the second revision, for every key and every state of the two
    key maps (the reachable ones among them), [getKeyPressed] and
    [getKeyReleased] are not both true, and a key that [getKeyPressed]
    reports is one that [getKeyState] reports. *)
Theorem key_pressed_released_exclusive (keyCode : Z) (this : Window) :
  ~ (V2.getKeyPressed keyCode this <> 0 /\ V2.getKeyReleased keyCode this <> 0)
  /\ (V2.getKeyPressed keyCode this <> 0 -> V2.getKeyState keyCode this <> 0).
Proof.
  unfold V2.getKeyPressed, V2.getKeyReleased, V2.getKeyState.
  destruct (V2.keyState (m_curKeys this) keyCode),
    (V2.keyState (m_prevKeys this) keyCode); simpl; split; try tauto;
    intros [? ?]; congruence.
Qed.

(** the sample window after the key 65 went down *)
Lemma key_pressed_released_exclusive_witness :
  let this := fst (V2.key_callback 65 GLFW_PRESS
                                   (sample_window, quiet_world)) in
  V2.getKeyPressed 65 this <> 0 /\ V2.getKeyState 65 this <> 0.
Proof.
  cbv zeta.
  assert (H : V2.getKeyPressed 65
                (fst (V2.key_callback 65 GLFW_PRESS
                                      (sample_window, quiet_world))) <> 0)
    by (vm_compute; discriminate).
  split; [exact H|].
  exact (proj2 (key_pressed_released_exclusive 65 _) H).
Defined.

(** C8, as stated, fails in the second revision: the first window also
    initialises glfw and the audio engine, and when glfw does not
    initialise the constructor throws although no window creation failed. *)
Lemma constructor_throws_without_window_failure :
  let e := mkWorld false true 1 false false (640, 480) [] [] [] in
  glfwCreateWindow_handle e <> 0
  /\ V2.new 640 480 "plot" [black; white] 0 e
     = (RuntimeError "Failed to initialize OpenGL!", e).
Proof. cbv zeta. split; [discriminate|reflexivity]. Qed.

(** C8, amended: the constructor of the first revision throws a
    runtime_error exactly when the window creation fails; the one of the
    second revision throws exactly when the static initialisation that the
    first window performs fails (glfw or the audio engine) or the window
    creation fails.  Otherwise the constructor returns, and the window holds
    the requested width, height, palette and clear-colour index. *)
Theorem constructor_throws_iff
        (sizeX sizeY : Z) (title : string) (palette : list RGBA)
        (clearColor : Z) (e : World) :
  ((exists what e',
       V1.new sizeX sizeY title palette clearColor e = (RuntimeError what, e'))
   <-> glfwCreateWindow_handle e = 0)
  /\ ((exists what e',
          V2.new sizeX sizeY title palette clearColor e = (RuntimeError what, e'))
      <-> (static_init_fails e \/ glfwCreateWindow_handle e = 0))
  /\ (glfwCreateWindow_handle e <> 0 ->
      exists this e',
        V1.new sizeX sizeY title palette clearColor e = (Returns this, e')
        /\ m_width this = sizeX /\ m_height this = sizeY
        /\ m_palette this = palette /\ m_clearColor this = clearColor)
  /\ (~ static_init_fails e -> glfwCreateWindow_handle e <> 0 ->
      exists this e',
        V2.new sizeX sizeY title palette clearColor e = (Returns this, e')
        /\ m_width this = sizeX /\ m_height this = sizeY
        /\ m_palette this = palette /\ m_clearColor this = clearColor).
Proof.
  pose proof (V1_new_outcome sizeX sizeY title palette clearColor e) as H1.
  pose proof (V2_new_outcome sizeX sizeY title palette clearColor e) as H2.
  repeat split.
  - intros (what & e' & H).
    destruct H1 as [[H0 _]|(_ & this & e0 & Hr & _)]; [exact H0|].
    rewrite Hr in H. discriminate.
  - intros H0. destruct H1 as [[_ Ht]|[Hne _]]; [eauto|contradiction].
  - intros (what & e' & H).
    destruct H2 as [[Hc _]|(_ & _ & this & e0 & Hr & _)]; [exact Hc|].
    rewrite Hr in H. discriminate.
  - intros Hc. destruct H2 as [[_ Ht]|(Hok & Hne & _)]; [exact Ht|tauto].
  - intros Hne. destruct H1 as [[H0 _]|[_ Hr]]; [contradiction|exact Hr].
  - intros Hok Hne.
    destruct H2 as [[Hc _]|(_ & _ & this & e' & Hr & Hw & Hh & Hp & Hc & _)];
      [tauto|].
    exists this, e'. auto.
Qed.

Lemma constructor_throws_iff_witness :
  exists this e',
    V2.new 640 480 "plot" [black; white; red] 0 quiet_world = (Returns this, e')
    /\ m_width this = 640 /\ m_height this = 480
    /\ m_palette this = [black; white; red] /\ m_clearColor this = 0.
Proof.
  refine (proj2 (proj2 (proj2 (constructor_throws_iff
                                 640 480 "plot" [black; white; red] 0
                                 quiet_world))) _ _).
  - intros [_ [H|H]]; discriminate.
  - discriminate.
Defined.

(** ** Screenshots *)

(** A frame without a pending request writes no file, however it ends. *)
Lemma V2_update_nothing_pending poll1 poll2 this e :
  m_screenshotFileName this = EmptyString ->
  png_files (snd (V2.update poll1 poll2 this e)) = png_files e.
Proof.
  intros Hname.
  destruct (V2_shouldClose_runs poll1 this e)
    as (this1 & e1 & H & Hsame & Hname1 & _ & Hout).
  assert (Hfiles : png_files e1 = png_files e) by (injection Hout; auto).
  destruct ((m_window this1 =? 0) || should_close e1).
  - rewrite (V2_update_early _ _ _ _ _ _ H). exact Hfiles.
  - destruct (m_shadeFbo this1) as [texture|] eqn:Hfbo.
    + assert (Hnone : m_screenshotFileName this1 = EmptyString) by congruence.
      destruct (V2_update_frame poll1 poll2 this e this1 e1 texture H Hfbo
                  (or_introl Hnone))
        as (this2 & e2 & Hpend & _ & -> & _).
      rewrite (pending_screenshot_runs _ _ (or_introl Hnone)), Hnone in Hpend.
      injection Hpend as _ <-. exact Hfiles.
    + unfold V2.update. rewrite (bind_returns _ _ _ _ _ H). cbv beta iota.
      assert (Hp : present_frame this1 e1 = (UndefinedBehaviour, e1))
        by (unfold present_frame; rewrite Hfbo; reflexivity).
      rewrite (bind_undefined _ _ _ _ Hp). exact Hfiles.
Qed.

Lemma length_positive (s : string) :
  s <> EmptyString -> (0 <? Z.of_nat (String.length s)) = true.
Proof. destruct s; [congruence|reflexivity]. Qed.

Lemma capturable_same (e e' : World) :
  framebuffer_size e' = framebuffer_size e -> capturable e -> capturable e'.
Proof. unfold capturable. intros ->. auto. Qed.

(** C5, as stated, fails for the empty file name: [screenshot("")] records
    the empty name, which is the code's mark for "nothing pending", and the
    next [update], although it does not return early, writes no file. *)
Lemma screenshot_empty_name_not_written :
  let pending := set_screenshotFileName EmptyString sample_window in
  screenshot EmptyString sample_window quiet_world
  = (Returns pending, quiet_world)
  /\ exists this' e',
      V2.update [] [] pending quiet_world = (Returns (0, this'), e')
      /\ png_files e' = [].
Proof.
  cbv zeta. split; [reflexivity|].
  eexists _, _. split; [vm_compute; reflexivity|reflexivity].
Qed.

(** C5, amended: [screenshot(filename)] writes no file and only records the
    name.  Let the request be pending on a reachable window of the second
    revision, and let the framebuffer be one that can be captured (it has
    pixels, and an [int] counts their bytes).  With the empty name no
    [update] writes anything.  With a non-empty name, an [update] that
    returns early because the window should close writes nothing and leaves
    the request pending; an [update] that does not return early writes
    exactly one file, of that name; when it returns (the clear-colour index
    being one of the palette) the request is cleared, and no later [update]
    writes a screenshot. *)
Theorem screenshot_written_by_next_update
        (filename : string) (this : Window) (e0 e : World)
        (poll1 poll2 : list glfw_event)
        (closing : bool) (this1 : Window) (e1 : World) :
  reachable this ->
  capturable e ->
  V2.shouldClose poll1 (set_screenshotFileName filename this) e
  = (Returns (closing, this1), e1) ->
  let pending := set_screenshotFileName filename this in
  screenshot filename this e0 = (Returns pending, e0)
  /\ (filename = EmptyString ->
      png_files (snd (V2.update poll1 poll2 pending e)) = png_files e)
  /\ (filename <> EmptyString ->
      if closing
      then V2.update poll1 poll2 pending e = (Returns (-1, this1), e1)
           /\ png_files e1 = png_files e
           /\ m_screenshotFileName this1 = filename
      else (exists png,
               png_name png = filename
               /\ png_files (snd (V2.update poll1 poll2 pending e))
                  = png_files e ++ [png])
           /\ (forall rc this2 e2,
                  V2.update poll1 poll2 pending e = (Returns (rc, this2), e2) ->
                  m_screenshotFileName this2 = EmptyString
                  /\ forall poll3 poll4 e3,
                      png_files (snd (V2.update poll3 poll4 this2 e3))
                      = png_files e3)
           /\ (is_Some (m_palette this
                          !! Z.to_nat (to_size_t (m_clearColor this))) ->
               exists rc this2 e2,
                 V2.update poll1 poll2 pending e = (Returns (rc, this2), e2))).
Proof.
  intros Hreach Hcap Hclose pending.
  fold pending in Hclose.
  split; [reflexivity|].
  split; [intros ->; apply V2_update_nothing_pending; reflexivity|].
  intros Hname.
  pose proof (V2_shouldClose_frame _ _ _ _ _ _ Hclose) as [Hsize _].
  pose proof (capturable_same _ _ Hsize Hcap) as Hcap1.
  destruct (V2_shouldClose_runs poll1 pending e)
    as (this1' & e1' & H & Hsame & Hname1 & _ & Hout).
  rewrite H in Hclose. injection Hclose as Hc <- <-.
  assert (Hfiles : png_files e1' = png_files e) by (injection Hout; auto).
  destruct closing.
  - rewrite Hc in H. rewrite (V2_update_early _ _ _ _ _ _ H). auto.
  - rewrite Hc in H.
    assert (Hcon : constructed this1').
    { apply (screen_members_constructed pending); [exact Hsame|].
      exact (proj1 (reachable_invariant _ Hreach)). }
    destruct Hcon as [_ [texture Hfbo]].
    destruct (V2_update_frame poll1 poll2 pending e this1' e1' texture H Hfbo
                (or_intror Hcap1))
      as (this2 & e2 & Hpend & Hsame2 & Hwritten & Hret & Hruns).
    assert (Hcap2 : capturable (issue SwapBuffers
                                  (issue (DrawScreenSizeQuad texture) e1')))
      by exact Hcap1.
    rewrite (pending_screenshot_runs _ _ (or_intror Hcap2)), Hname1 in Hpend.
    change (m_screenshotFileName pending) with filename in Hpend.
    rewrite (length_positive _ Hname) in Hpend.
    injection Hpend as <- <-.
    split; [|split].
    + eexists. split; [|rewrite Hwritten; simpl; rewrite Hfiles; reflexivity].
      unfold screenshot_file. destruct (framebuffer_size _). reflexivity.
    + intros rc this3 e3 Hrun. destruct (Hret _ _ _ Hrun) as [Hn _].
      split; [exact Hn|].
      intros poll3 poll4 e4. apply V2_update_nothing_pending. exact Hn.
    + intros Hclear. apply Hruns.
      assert (Hpal : m_palette this1' = m_palette this)
        by (unfold screen_members in Hsame; simpl in Hsame; congruence).
      assert (Hclr : m_clearColor this1' = m_clearColor this)
        by (unfold screen_members in Hsame; simpl in Hsame; congruence).
      rewrite Hpal, Hclr. exact Hclear.
Qed.

Lemma quiet_world_capturable : capturable quiet_world.
Proof. unfold capturable. simpl. lia. Qed.

Lemma screenshot_written_by_next_update_witness :
  let pending := set_screenshotFileName "shot.png" sample_window in
  exists png,
    png_name png = "shot.png"
    /\ png_files (snd (V2.update [] [] pending quiet_world))
       = png_files quiet_world ++ [png].
Proof.
  cbv zeta.
  assert (Hname : "shot.png" <> EmptyString) by discriminate.
  destruct (screenshot_written_by_next_update
              "shot.png" sample_window quiet_world quiet_world [] []
              false (set_screenshotFileName "shot.png" sample_window)
              quiet_world sample_window_reachable quiet_world_capturable
              eq_refl)
    as (_ & _ & H).
  exact (proj1 (H Hname)).
Defined.

(** ** Loops *)

Section ForEach.
Context {A S : Type}.
Variable body : S -> A -> result S.

(** the elements at which the body aborts on an assertion *)
Variable trips : A -> Prop.
Hypothesis trips_aborts : forall s x, trips x -> body s x = AssertionFailure.
Hypothesis body_clean :
  forall s x, body s x = AssertionFailure \/ exists s', body s x = Returns s'.

Lemma for_each_clean (l : list A) : forall s,
  for_each body s l = AssertionFailure
  \/ exists s', for_each body s l = Returns s'.
Proof.
  induction l as [|x l IH]; intros s; simpl; [eauto|].
  destruct (body_clean s x) as [->|[s' ->]]; simpl; auto.
Qed.

Lemma for_each_trips (l : list A) :
  Exists trips l -> forall s, for_each body s l = AssertionFailure.
Proof.
  induction 1 as [x l Hx|x l _ IH]; intros s; simpl.
  - rewrite (trips_aborts s x Hx). reflexivity.
  - destruct (body_clean s x) as [->|[s' ->]]; simpl; auto.
Qed.
End ForEach.

Lemma for_each_ext {A S} (body1 body2 : S -> A -> result S) (l : list A) :
  Forall (fun x => forall s, body1 s x = body2 s x) l ->
  forall s, for_each body1 s l = for_each body2 s l.
Proof.
  induction 1 as [|x l Hx _ IH]; intros s; simpl; [reflexivity|].
  rewrite Hx. destruct (body2 s x); simpl; auto.
Qed.

(** ** Grids *)

Section Grids.
Variable lookup : Z -> result RGBA.

(** a row whose lookups all succeed *)
Lemma grid_row_returns (color : Z -> RGBA) (row : list Z) :
  Forall (fun index => lookup index = Returns (color index)) row ->
  forall s,
    grid_row lookup s row
    = Returns (MapState
                 (mapData s ++ flat_map (fun index => rgba_bytes (color index)) row)
                 (mapWidth s + Z.of_nat (length row))
                 (mapHeight s + 1)).
Proof.
  unfold grid_row.
  set (body := fun s index =>
                 result_bind (lookup index)
                             (fun color => Returns (push_color color s))).
  assert (Hloop : forall s,
             Forall (fun index => lookup index = Returns (color index)) row ->
             for_each body s row
             = Returns (MapState
                          (mapData s ++ flat_map (fun index => rgba_bytes (color index)) row)
                          (mapWidth s + Z.of_nat (length row))
                          (mapHeight s))).
  { induction row as [|index row IH]; intros s Hrow; simpl.
    - rewrite app_nil_r, Z.add_0_r. destruct s; reflexivity.
    - inversion Hrow as [|? ? Hindex Hrest]; subst.
      unfold body at 1. rewrite Hindex. simpl.
      rewrite (IH _ Hrest). simpl.
      rewrite <- app_assoc. f_equal. f_equal. lia. }
  intros Hrow s. rewrite (Hloop _ Hrow). reflexivity.
Qed.

Lemma grid_loop_returns (color : Z -> RGBA) (pixels : Grid) :
  Forall (Forall (fun index => lookup index = Returns (color index))) pixels ->
  grid_loop lookup pixels
  = Returns (MapState
               (flat_map (fun index => rgba_bytes (color index)) (concat pixels))
               (Z.of_nat (length (concat pixels)))
               (Z.of_nat (length pixels))).
Proof.
  unfold grid_loop.
  assert (Hloop : forall s,
             Forall (Forall (fun index => lookup index = Returns (color index)))
                    pixels ->
             for_each (grid_row lookup) s pixels
             = Returns (MapState
                          (mapData s ++ flat_map (fun index => rgba_bytes (color index))
                                                 (concat pixels))
                          (mapWidth s + Z.of_nat (length (concat pixels)))
                          (mapHeight s + Z.of_nat (length pixels)))).
  { induction pixels as [|row pixels IH]; intros s Hgrid; simpl.
    - rewrite app_nil_r, !Z.add_0_r. destruct s; reflexivity.
    - inversion Hgrid as [|? ? Hrow Hrest]; subst.
      rewrite (grid_row_returns color row Hrow). simpl.
      rewrite (IH _ Hrest). simpl.
      rewrite flat_map_app, length_app, <- app_assoc.
      f_equal. f_equal; lia. }
  intros Hgrid. rewrite (Hloop _ Hgrid). reflexivity.
Qed.

(** a lookup that fails does so on its assertion *)
Hypothesis lookup_clean :
  forall index,
    lookup index = AssertionFailure \/ exists color, lookup index = Returns color.

Lemma grid_loop_trips (pixels : Grid) :
  Exists (Exists (fun index => lookup index = AssertionFailure)) pixels ->
  grid_loop lookup pixels = AssertionFailure.
Proof.
  intros Hbad. unfold grid_loop.
  assert (Hinner : forall s index,
             result_bind (lookup index)
                         (fun color => Returns (push_color color s))
             = AssertionFailure
             \/ exists s', result_bind (lookup index)
                                       (fun color => Returns (push_color color s))
                           = Returns s').
  { intros s index. destruct (lookup_clean index) as [->|[color ->]]; simpl; eauto. }
  apply (for_each_trips (grid_row lookup)
           (Exists (fun index => lookup index = AssertionFailure))).
  - intros s row Hrow. unfold grid_row.
    apply (for_each_trips _ (fun index => lookup index = AssertionFailure));
      [|exact Hinner|exact Hrow].
    intros s' index ->. reflexivity.
  - intros s row. unfold grid_row. apply for_each_clean. exact Hinner.
  - exact Hbad.
Qed.
End Grids.

Lemma grid_loop_ext (lookup1 lookup2 : Z -> result RGBA) (pixels : Grid) :
  Forall (Forall (fun index => lookup1 index = lookup2 index)) pixels ->
  grid_loop lookup1 pixels = grid_loop lookup2 pixels.
Proof.
  intros Hgrid. unfold grid_loop. apply for_each_ext.
  eapply Forall_impl; [exact Hgrid|].
  intros row Hrow s. unfold grid_row. apply for_each_ext.
  eapply Forall_impl; [exact Hrow|].
  intros index Hindex s'. simpl in Hindex. rewrite Hindex. reflexivity.
Qed.

(** ** Looking up an index *)

Section Lookup.
Variable m_palette : list RGBA.

Lemma to_size_t_small i : 0 <= i < 2 ^ 64 -> to_size_t i = i.
Proof. intros H. unfold to_size_t, size_t_bits. apply Z.mod_small. exact H. Qed.

Lemma to_size_t_below i : 0 <= i -> 0 <= to_size_t i <= i.
Proof.
  intros H. unfold to_size_t, size_t_bits.
  pose proof (Z.mod_pos_bound i (2 ^ 64) ltac:(lia)).
  pose proof (Z.mod_le i (2 ^ 64) H ltac:(lia)). lia.
Qed.

Lemma to_int_small u : 0 <= u < 2 ^ 31 -> to_int u = u.
Proof.
  intros H. unfold to_int. rewrite Z.mod_small; lia.
Qed.

Lemma palette_at_color_at i :
  (Z.to_nat i < length m_palette)%nat ->
  m_palette !! Z.to_nat i = Some (color_at m_palette i).
Proof.
  intros H. unfold color_at.
  destruct (lookup_lt_is_Some_2 m_palette (Z.to_nat i) H) as [c Hc].
  rewrite Hc. f_equal. symmetry. apply nth_lookup_Some with (d := Color.mk 0 0 0 0).
  exact Hc.
Qed.

Lemma checked_color_outside i :
  ~ in_palette m_palette i -> checked_color m_palette i = AssertionFailure.
Proof.
  unfold in_palette, checked_color, index_in_palette. intros H.
  destruct (Z.leb_spec 0 i); simpl; [|reflexivity].
  destruct (Z.ltb_spec i (Z.of_nat (length m_palette))); simpl; [lia|reflexivity].
Qed.

Lemma checked_color_inside i :
  in_palette m_palette i -> i < 2 ^ 64 ->
  checked_color m_palette i = Returns (color_at m_palette i).
Proof.
  unfold in_palette, checked_color, index_in_palette, palette_at. intros H H64.
  destruct (Z.leb_spec 0 i); [|lia].
  destruct (Z.ltb_spec i (Z.of_nat (length m_palette))); [|lia]. simpl.
  rewrite to_size_t_small by lia.
  rewrite palette_at_color_at by lia. reflexivity.
Qed.

Lemma checked_color_clean i :
  checked_color m_palette i = AssertionFailure
  \/ exists color, checked_color m_palette i = Returns color.
Proof.
  unfold checked_color, index_in_palette, palette_at.
  destruct (Z.leb_spec 0 i); simpl; [|auto].
  destruct (Z.ltb_spec i (Z.of_nat (length m_palette))); simpl; [|auto].
  right. pose proof (to_size_t_below i ltac:(lia)).
  destruct (lookup_lt_is_Some_2 m_palette (Z.to_nat (to_size_t i)) ltac:(lia))
    as [c ->]. eauto.
Qed.

(** the second revision, on a palette that is not empty and whose size
    an [int] can hold: every index ends inside *)
Lemma V2_wrapped_color i :
  0 < Z.of_nat (length m_palette) <= 2 ^ 31 ->
  result_bind (V2.wrap_index m_palette i) (checked_color m_palette)
  = Returns (color_at m_palette (wrapped m_palette i)).
Proof.
  intros Hsize. unfold V2.wrap_index, wrapped.
  destruct (Z.eqb_spec (Z.of_nat (length m_palette)) 0); [lia|]. simpl.
  assert (H0 : 0 <= to_size_t i)
    by (unfold to_size_t, size_t_bits; apply Z.mod_pos_bound; lia).
  rewrite Z.rem_mod_nonneg by lia.
  pose proof (Z.mod_pos_bound (to_size_t i) (Z.of_nat (length m_palette))
                ltac:(lia)).
  rewrite to_int_small by lia.
  apply checked_color_inside; unfold in_palette; lia.
Qed.

(** the second revision leaves an [int] of the palette as it is *)
Lemma V2_wrap_index_inside i :
  in_palette m_palette i -> is_int i ->
  V2.wrap_index m_palette i = Returns i.
Proof.
  unfold in_palette, is_int, V2.wrap_index. intros H Hint.
  destruct (Z.eqb_spec (Z.of_nat (length m_palette)) 0); [lia|].
  rewrite to_size_t_small by lia.
  rewrite Z.rem_small by lia.
  rewrite to_int_small by lia. reflexivity.
Qed.
End Lookup.

(** ** [drawPixels] *)

(** the texture of a grid with at least one index whose lookups succeed *)
Lemma finish_texture_grid (data : list Z) (pixels : Grid) :
  concat pixels <> [] ->
  finish_texture (MapState data (Z.of_nat (length (concat pixels)))
                           (Z.of_nat (length pixels)))
  = Returns (TextureU8 (Z.quot (Z.of_nat (length (concat pixels)))
                               (Z.of_nat (length pixels)))
                       (Z.of_nat (length pixels)) 4 data).
Proof.
  intros Hne. unfold finish_texture. simpl.
  assert (Hw : Z.of_nat (length (concat pixels)) <> 0)
    by (destruct (concat pixels); [congruence|simpl; lia]).
  assert (Hh : Z.of_nat (length pixels) <> 0)
    by (destruct pixels; [simpl in Hne; congruence|simpl; lia]).
  destruct (Z.eqb_spec (Z.of_nat (length (concat pixels))) 0); [contradiction|].
  destruct (Z.eqb_spec (Z.of_nat (length pixels)) 0); [contradiction|].
  reflexivity.
Qed.

Lemma concat_rows_length (pixels : Grid) (n : nat) :
  Forall (fun row => length row = n) pixels ->
  length (concat pixels) = (n * length pixels)%nat.
Proof.
  induction 1 as [|row pixels Hrow _ IH]; simpl; [lia|].
  rewrite length_app, IH, Hrow. lia.
Qed.

Lemma V1_drawPixels_runs this pixels e :
  V1.drawPixels pixels this e
  = match result_bind (grid_loop (checked_color (m_palette this)) pixels)
                      finish_texture with
    | Returns texture => (Returns tt, issue (DrawScreenSizeQuad texture) e)
    | AssertionFailure => (AssertionFailure, e)
    | RuntimeError what => (RuntimeError what, e)
    | UndefinedBehaviour => (UndefinedBehaviour, e)
    end.
Proof. unfold V1.drawPixels. rewrite lift_bind. reflexivity. Qed.

Lemma V2_drawPixels_runs this pixels e :
  V2.drawPixels pixels this e
  = match result_bind
            (grid_loop (fun index =>
                          result_bind (V2.wrap_index (m_palette this) index)
                                      (checked_color (m_palette this))) pixels)
            finish_texture with
    | Returns texture => (Returns tt, issue (DrawScreenSizeQuad texture) e)
    | AssertionFailure => (AssertionFailure, e)
    | RuntimeError what => (RuntimeError what, e)
    | UndefinedBehaviour => (UndefinedBehaviour, e)
    end.
Proof. unfold V2.drawPixels. rewrite lift_bind. reflexivity. Qed.

Lemma Exists_concat_nonempty {A} (P : A -> Prop) (ll : list (list A)) :
  Exists (Exists P) ll -> concat ll <> [].
Proof.
  induction 1 as [l ll Hl|l ll _ IH]; simpl.
  - destruct Hl; discriminate.
  - destruct l; [exact IH|discriminate].
Qed.

(** C1, as stated, fails in the second revision: with a palette of three
    colours the index 5 is outside, and [drawPixels] does not abort; it
    draws the pixel in the colour of index 5 mod 3 = 2. *)
Lemma drawPixels_wraps_out_of_range_index :
  m_palette sample_window = [black; white; red]
  /\ ~ in_palette (m_palette sample_window) 5
  /\ V2.drawPixels [[5]] sample_window quiet_world
     = (Returns tt,
        issue (DrawScreenSizeQuad (TextureU8 1 1 4 [255; 0; 0; 255]))
              quiet_world).
Proof.
  split; [reflexivity|]. split; [|reflexivity].
  unfold in_palette. simpl. lia.
Qed.

(** C1, amended: on a grid that holds an index outside [0, palette size),
    [drawPixels] of the first revision ends in an assertion failure, and
    draws nothing.  [drawPixels] of the second revision first reduces every
    index modulo the palette size, as a [size_t]; when the palette is not
    empty (and an [int] can hold its size) the call returns and draws the
    texture whose pixels are the palette's colours at the reduced indices. *)
Theorem drawPixels_index_outside_palette
        (this : Window) (pixels : Grid) (e : World) :
  Exists (Exists (fun index => ~ in_palette (m_palette this) index)) pixels ->
  V1.drawPixels pixels this e = (AssertionFailure, e)
  /\ (0 < Z.of_nat (length (m_palette this)) <= 2 ^ 31 ->
      V2.drawPixels pixels this e
      = (Returns tt,
         issue (DrawScreenSizeQuad
                  (TextureU8
                     (Z.quot (Z.of_nat (length (concat pixels)))
                             (Z.of_nat (length pixels)))
                     (Z.of_nat (length pixels)) 4
                     (flat_map
                        (fun index =>
                           rgba_bytes (color_at (m_palette this)
                                                (wrapped (m_palette this) index)))
                        (concat pixels)))) e)).
Proof.
  intros Hbad. split.
  - rewrite V1_drawPixels_runs.
    rewrite (grid_loop_trips _ (checked_color_clean (m_palette this))); [reflexivity|].
    eapply Exists_impl; [exact Hbad|]. intros row Hrow.
    eapply Exists_impl; [exact Hrow|]. intros index.
    apply checked_color_outside.
  - intros Hsize. rewrite V2_drawPixels_runs.
    rewrite (grid_loop_returns _
               (fun index => color_at (m_palette this)
                                      (wrapped (m_palette this) index))).
    + simpl. rewrite finish_texture_grid; [reflexivity|].
      exact (Exists_concat_nonempty _ _ Hbad).
    + apply Forall_forall. intros row _. apply Forall_forall. intros index _.
      apply V2_wrapped_color. exact Hsize.
Qed.

Lemma drawPixels_index_outside_palette_witness :
  V1.drawPixels [[0; 1]; [2; -1]] sample_window quiet_world
  = (AssertionFailure, quiet_world)
  /\ V2.drawPixels [[0; 1]; [2; -1]] sample_window quiet_world
     = (Returns tt,
        issue (DrawScreenSizeQuad
                 (TextureU8 2 2 4 [0; 0; 0; 255;  255; 255; 255; 255;
                                   255; 0; 0; 255;  0; 0; 0; 255]))
              quiet_world).
Proof.
  assert (Hbad : Exists (Exists (fun index =>
                                   ~ in_palette (m_palette sample_window) index))
                        [[0; 1]; [2; -1]]).
  { apply Exists_cons_tl, Exists_cons_hd, Exists_cons_tl, Exists_cons_hd.
    unfold in_palette. simpl. lia. }
  destruct (drawPixels_index_outside_palette sample_window _ quiet_world Hbad)
    as [H1 H2].
  split; [exact H1|].
  rewrite H2; [reflexivity|]. simpl. lia.
Defined.

(** C4: on a grid with at least one row, whose rows all have the length
    [n] and whose indices are [int]s inside [0, palette size), the two
    revisions of [drawPixels] do the same.  When the rows hold pixels
    ([n] is not 0) both draw the texture of width [n], of height the number
    of rows, whose bytes are row by row the red, green, blue and alpha of
    the palette's colour at each index; rows without pixels end both in the
    same assertion failure. *)
Theorem drawPixels_revisions_agree
        (this : Window) (pixels : Grid) (n : nat) (e : World) :
  pixels <> [] ->
  Forall (fun row => length row = n) pixels ->
  Forall (Forall (fun index => is_int index
                               /\ in_palette (m_palette this) index)) pixels ->
  V1.drawPixels pixels this e = V2.drawPixels pixels this e
  /\ (n <> 0%nat ->
      V1.drawPixels pixels this e
      = (Returns tt,
         issue (DrawScreenSizeQuad
                  (TextureU8 (Z.of_nat n) (Z.of_nat (length pixels)) 4
                     (flat_map (fun index =>
                                  rgba_bytes (color_at (m_palette this) index))
                               (concat pixels)))) e))
  /\ (n = 0%nat -> V1.drawPixels pixels this e = (AssertionFailure, e)).
Proof.
  intros Hrows Hn Hin.
  assert (Hloop : grid_loop (checked_color (m_palette this)) pixels
                  = Returns (MapState
                               (flat_map (fun index =>
                                            rgba_bytes (color_at (m_palette this) index))
                                         (concat pixels))
                               (Z.of_nat (length (concat pixels)))
                               (Z.of_nat (length pixels)))).
  { apply grid_loop_returns.
    eapply Forall_impl; [exact Hin|]. intros row Hrow.
    eapply Forall_impl; [exact Hrow|]. intros index [Hint Hpal].
    apply checked_color_inside; [exact Hpal|]. unfold is_int in Hint. lia. }
  assert (Hlen : length (concat pixels) = (n * length pixels)%nat)
    by (apply concat_rows_length; exact Hn).
  assert (Hheight : (length pixels <> 0)%nat)
    by (destruct pixels; [congruence|discriminate]).
  split; [|split].
  - rewrite V1_drawPixels_runs, V2_drawPixels_runs.
    rewrite (grid_loop_ext
               (fun index =>
                  result_bind (V2.wrap_index (m_palette this) index)
                              (checked_color (m_palette this)))
               (checked_color (m_palette this))); [reflexivity|].
    eapply Forall_impl; [exact Hin|]. intros row Hrow.
    eapply Forall_impl; [exact Hrow|]. intros index [Hint Hpal]. simpl.
    rewrite (V2_wrap_index_inside _ _ Hpal Hint). reflexivity.
  - intros Hpos. rewrite V1_drawPixels_runs, Hloop. simpl.
    rewrite finish_texture_grid.
    + rewrite Hlen, Nat2Z.inj_mul, Z.quot_mul by lia. reflexivity.
    + intros Hnil. rewrite Hnil in Hlen. simpl in Hlen. nia.
  - intros ->. rewrite V1_drawPixels_runs, Hloop. simpl.
    rewrite Hlen. reflexivity.
Qed.

Lemma drawPixels_revisions_agree_witness :
  V1.drawPixels [[0; 1]; [2; 0]] sample_window quiet_world
  = V2.drawPixels [[0; 1]; [2; 0]] sample_window quiet_world
  /\ V1.drawPixels [[0; 1]; [2; 0]] sample_window quiet_world
     = (Returns tt,
        issue (DrawScreenSizeQuad
                 (TextureU8 2 2 4 [0; 0; 0; 255;  255; 255; 255; 255;
                                   255; 0; 0; 255;  0; 0; 0; 255]))
              quiet_world).
Proof.
  assert (Hin : Forall (Forall (fun index =>
                                  is_int index
                                  /\ in_palette (m_palette sample_window) index))
                       [[0; 1]; [2; 0]]).
  { repeat constructor; unfold is_int, in_palette; simpl; lia. }
  destruct (drawPixels_revisions_agree sample_window [[0; 1]; [2; 0]] 2
              quiet_world ltac:(discriminate)
              ltac:(repeat constructor) Hin) as (H1 & H2 & _).
  split; [exact H1|]. rewrite H2; [reflexivity|discriminate].
Defined.

(** C3, as stated, fails for the grid overload of [drawSprite]: called with
    a grid without rows it returns, having drawn a sprite. *)
Lemma drawSprite_accepts_empty_grid :
  fst (V1.drawSprite_grid_plain [] [] "" "" sample_window quiet_world)
  = Returns tt
  /\ exists P M fragment,
      gl_calls (snd (V1.drawSprite_grid_plain [] [] "" "" sample_window
                                             quiet_world))
      = [DrawSpriteQuad P M (TextureU8 1 1 4 [255; 255; 255; 255]) fragment []].
Proof. split; [reflexivity|]. eexists _, _, _. reflexivity. Qed.

(** C3, amended: [drawPixels] in both revisions, [drawHeatMap] and
    [drawRGB], called with a grid without rows, end in an assertion failure
    and draw nothing.  (The grid overload of [drawSprite] does not abort: it
    draws with a white pixel.) *)
Theorem empty_grid_assertion
        (this : Window) (e : World)
        (heatToRGB : float -> float -> float -> RGBA)
        (valueMin valueMax : float) :
  V1.drawPixels [] this e = (AssertionFailure, e)
  /\ V2.drawPixels [] this e = (AssertionFailure, e)
  /\ drawHeatMap heatToRGB [] valueMin valueMax this e = (AssertionFailure, e)
  /\ V2.drawRGB [] this e = (AssertionFailure, e).
Proof. repeat split. Qed.

(** ** Shader constants *)

Lemma append_assoc (s1 s2 s3 : string) :
  (s1 +:+ s2) +:+ s3 = s1 +:+ (s2 +:+ s3).
Proof.
  induction s1 as [|c s1 IH]; [reflexivity|].
  change (String c ((s1 +:+ s2) +:+ s3) = String c (s1 +:+ (s2 +:+ s3))).
  f_equal. exact IH.
Qed.

Lemma append_empty (s : string) : s +:+ EmptyString = s.
Proof.
  induction s as [|c s IH]; [reflexivity|].
  change (String c (s +:+ EmptyString) = String c s). f_equal. exact IH.
Qed.

Lemma V1_declare_uniform_accepted (inputUniforms : string) (c : Constant) :
  accepted c ->
  V1.declare_uniform inputUniforms c
  = Returns (inputUniforms +:+ uniform_declaration c).
Proof.
  unfold accepted, V1.declare_uniform, uniform_declaration.
  destruct c as [name val]. simpl.
  destruct val as [|v1 [|v2 [|v3 [|v4 [|v5 val]]]]]; simpl; intros H;
    try lia; reflexivity.
Qed.

Lemma V1_declare_uniform_refused (inputUniforms : string) (c : Constant) :
  ~ accepted c -> V1.declare_uniform inputUniforms c = AssertionFailure.
Proof.
  unfold accepted, V1.declare_uniform.
  destruct c as [name val]. simpl. intros H.
  destruct (Z.eqb_spec (Z.of_nat (length val)) 1); [lia|].
  destruct (Z.eqb_spec (Z.of_nat (length val)) 2); [lia|].
  destruct (Z.eqb_spec (Z.of_nat (length val)) 3); [lia|].
  destruct (Z.eqb_spec (Z.of_nat (length val)) 4); [lia|].
  reflexivity.
Qed.

Lemma V1_declare_uniform_clean (inputUniforms : string) (c : Constant) :
  V1.declare_uniform inputUniforms c = AssertionFailure
  \/ exists s', V1.declare_uniform inputUniforms c = Returns s'.
Proof.
  unfold V1.declare_uniform.
  destruct (Z.of_nat (length (snd c)) =? 1); [eauto|].
  destruct (Z.of_nat (length (snd c)) =? 2); [eauto|].
  destruct (Z.of_nat (length (snd c)) =? 3); [eauto|].
  destruct (Z.of_nat (length (snd c)) =? 4); [eauto|].
  left. reflexivity.
Qed.

Lemma V1_declare_uniforms_accepted (inputConstants : list Constant) :
  Forall accepted inputConstants ->
  V1.declare_uniforms inputConstants
  = Returns (uniform_declarations inputConstants).
Proof.
  unfold V1.declare_uniforms.
  assert (Hloop : forall s,
             Forall accepted inputConstants ->
             for_each V1.declare_uniform s inputConstants
             = Returns (s +:+ uniform_declarations inputConstants)).
  { induction inputConstants as [|c cs IH]; intros s Hall;
      cbn [for_each uniform_declarations fold_right].
    - rewrite append_empty. reflexivity.
    - inversion Hall as [|? ? Hc Hcs]; subst.
      rewrite (V1_declare_uniform_accepted _ _ Hc).
      cbn [result_bind].
      rewrite (IH _ Hcs), append_assoc. reflexivity. }
  intros Hall. rewrite (Hloop _ Hall). reflexivity.
Qed.

Lemma V1_declare_uniforms_refused (inputConstants : list Constant) :
  Exists (fun c => ~ accepted c) inputConstants ->
  V1.declare_uniforms inputConstants = AssertionFailure.
Proof.
  intros Hbad. unfold V1.declare_uniforms.
  apply (for_each_trips V1.declare_uniform (fun c => ~ accepted c));
    [|exact V1_declare_uniform_clean|exact Hbad].
  intros s c Hc. apply V1_declare_uniform_refused. exact Hc.
Qed.

Lemma occurs_in_context (part text before after : string) :
  occurs_in part text -> occurs_in part (before +:+ text +:+ after).
Proof.
  intros (b & a & ->). exists (before +:+ b), (a +:+ after).
  rewrite !append_assoc. reflexivity.
Qed.

(** every constant has its declaration among the declarations *)
Lemma declarations_occur (inputConstants : list Constant) :
  Forall (fun c => occurs_in (uniform_declaration c)
                             (uniform_declarations inputConstants))
         inputConstants.
Proof.
  assert (H : forall before,
             Forall (fun c => occurs_in (uniform_declaration c)
                                (before +:+ uniform_declarations inputConstants))
                    inputConstants).
  { induction inputConstants as [|c cs IH]; intros before; constructor.
    - exists before, (uniform_declarations cs). reflexivity.
    - eapply Forall_impl; [exact (IH (before +:+ uniform_declaration c))|].
      intros c' Hc'. cbn [uniform_declarations fold_right].
      rewrite <- append_assoc. exact Hc'. }
  exact (H EmptyString).
Qed.

(** C7: in [shade] and [drawSprite] of the first revision, a constant whose
    vector has a length outside 1..4 ends the call in the assertion failure
    of [assert(0)], before anything is drawn.  When every vector has a
    length between 1 and 4 that branch is not taken: both calls return after
    one draw, with the constants set as uniforms, and the fragment shader
    that each call has compiled holds, for every constant, its declaration
    [uniform float], [uniform vec2], [uniform vec3] or [uniform vec4] of the
    constant's name, by the length of its vector ([shade] between its own
    three uniforms and [globals], [drawSprite] before the sampler). *)
Theorem shader_constants_declared
        (inputConstants : list Constant)
        (M : list float) (texture : Texture)
        (shader globals : string) (this : Window) (e : World) :
  (Exists (fun c => ~ accepted c) inputConstants ->
   V1.shade inputConstants shader globals this e = (AssertionFailure, e)
   /\ V1.drawSprite M texture inputConstants shader globals this e
      = (AssertionFailure, e))
  /\ (Forall accepted inputConstants ->
      exists shadeSource spriteSource minXY maxXY size,
        V1.shade inputConstants shader globals this e
        = (Returns tt,
           issue (DrawShadeQuad (m_projection this) shadeSource
                    (m_left this, m_bottom this) (m_right this, m_top this)
                    minXY maxXY size inputConstants) e)
        /\ V1.drawSprite M texture inputConstants shader globals this e
           = (Returns tt,
              issue (DrawSpriteQuad (m_projection this) M texture spriteSource
                                    inputConstants) e)
        /\ shadeSource
           = V1.shade_fragment (uniform_declarations inputConstants)
                               globals shader
        /\ spriteSource
           = V1.SPRITE_FRAG shader (uniform_declarations inputConstants)
                            globals
        /\ Forall (fun c =>
                     occurs_in ("uniform " +:+ glsl_type (length (snd c))
                                +:+ " " +:+ fst c +:+ ";" +:+ nl)
                               shadeSource
                     /\ occurs_in ("uniform " +:+ glsl_type (length (snd c))
                                   +:+ " " +:+ fst c +:+ ";" +:+ nl)
                                  spriteSource)
                  inputConstants).
Proof.
  split.
  - intros Hbad. pose proof (V1_declare_uniforms_refused _ Hbad) as H.
    unfold V1.shade, V1.drawSprite. rewrite !lift_bind, H. auto.
  - intros Hall. pose proof (V1_declare_uniforms_accepted _ Hall) as H.
    eexists _, _, _, _, _.
    split; [unfold V1.shade; rewrite lift_bind, H; reflexivity|].
    split; [unfold V1.drawSprite; rewrite lift_bind, H; reflexivity|].
    split; [reflexivity|]. split; [reflexivity|].
    eapply Forall_impl; [exact (declarations_occur inputConstants)|].
    intros c Hc. split.
    + exact (occurs_in_context _ _
               ("#version 330 core" +:+ nl +:+ "out vec4 FragColor;" +:+ nl +:+
                "in float x;" +:+ nl +:+ "in float y;" +:+ nl +:+
                "in float z;" +:+ nl +:+ "in float w;" +:+ nl +:+
                "uniform vec2 max;" +:+ nl +:+ "uniform vec2 min;" +:+ nl +:+
                "uniform vec2 size;" +:+ nl)
               ((nl +:+ globals +:+ nl) +:+ nl +:+ "void main(){" +:+ nl +:+
                "vec4 color;" +:+ nl +:+ shader +:+
                "gl_FragData[0] = color;" +:+ nl +:+ nl +:+ "}" +:+ nl)
               Hc).
    + exact (occurs_in_context _ _
               ("#version 330 core" +:+ nl +:+ "in vec2 texCoord;" +:+ nl +:+
                "out vec4 FragColor;" +:+ nl)
               (nl +:+ "uniform sampler2D texture0;" +:+ nl +:+ globals +:+
                nl +:+ "void main(){" +:+ nl +:+
                "vec4 color = texture2D(texture0, texCoord);" +:+ nl +:+
                shader +:+ "gl_FragData[0] = color;" +:+ nl +:+ "}" +:+ nl)
               Hc).
Qed.

Lemma shader_constants_declared_witness :
  let time := ("time", [Float32.of_Z 1]) in
  let tint := ("tint", [Float32.of_Z 1; Float32.of_Z 0; Float32.half]) in
  let none := ("none", @nil float) in
  (exists spriteSource,
      V1.drawSprite [Float32.of_Z 1] (TextureU8 1 1 4 [255; 255; 255; 255])
                    [time; tint] "" "" sample_window quiet_world
      = (Returns tt,
         issue (DrawSpriteQuad (m_projection sample_window) [Float32.of_Z 1]
                  (TextureU8 1 1 4 [255; 255; 255; 255]) spriteSource
                  [time; tint]) quiet_world)
      /\ occurs_in ("uniform vec3 tint;" +:+ nl) spriteSource)
  /\ V1.shade [time; none] "" "" sample_window quiet_world
     = (AssertionFailure, quiet_world).
Proof.
  cbv zeta.
  pose proof (shader_constants_declared
                [("time", [Float32.of_Z 1]);
                 ("tint", [Float32.of_Z 1; Float32.of_Z 0; Float32.half])]
                [Float32.of_Z 1] (TextureU8 1 1 4 [255; 255; 255; 255]) "" ""
                sample_window quiet_world) as [_ Hgood].
  pose proof (shader_constants_declared
                [("time", [Float32.of_Z 1]); ("none", [])]
                [Float32.of_Z 1] (TextureU8 1 1 4 [255; 255; 255; 255]) "" ""
                sample_window quiet_world) as [Hbad _].
  split.
  - destruct Hgood
      as (shadeSource & spriteSource & minXY & maxXY & size
          & _ & Hsprite & _ & _ & Hocc).
    { repeat constructor; unfold accepted; simpl; lia. }
    exists spriteSource. split; [exact Hsprite|].
    inversion Hocc as [|? ? _ Htint]; subst.
    inversion Htint as [|? ? [_ H] _]; subst. exact H.
  - apply Hbad. apply Exists_cons_tl, Exists_cons_hd. unfold accepted. simpl. lia.
Defined.

(** ** Sprites *)




(** * Further properties *)

(** ** The texture cache *)

(** X1: a file that [loadTexture] has handed out once is handed out again,
    the same texture, by every later call, whatever is on disk by then; the
    later call leaves the cache as it is. *)
Theorem loadTexture_cached
        (stbi_load stbi_load' : string -> option (Z * Z * Z * list Z))
        (filename : string) (m_textures : gmap string Texture)
        (texture : Texture) :
  fst (loadTexture stbi_load filename m_textures) = Some texture ->
  loadTexture stbi_load' filename
              (snd (loadTexture stbi_load filename m_textures))
  = (Some texture, snd (loadTexture stbi_load filename m_textures)).
Proof.
  unfold loadTexture.
  destruct (m_textures !! filename) as [it|] eqn:Hit; simpl.
  - intros [= <-]. rewrite Hit. reflexivity.
  - destruct (stbi_load filename) as [[[[width height] bpp] data]|]; simpl;
      [|discriminate].
    intros [= <-]. rewrite lookup_insert_eq. reflexivity.
Qed.

Lemma loadTexture_cached_witness :
  let disk := fun _ : string => Some (1, 1, 4, [255; 0; 0; 255]) in
  let gone := fun _ : string => @None (Z * Z * Z * list Z) in
  loadTexture gone "a.png" (snd (loadTexture disk "a.png" ∅))
  = (Some (TextureU8 1 1 4 [255; 0; 0; 255]),
     snd (loadTexture disk "a.png" ∅)).
Proof.
  cbv zeta.
  exact (loadTexture_cached
           (fun _ => Some (1, 1, 4, [255; 0; 0; 255])) (fun _ => None)
           "a.png" ∅ (TextureU8 1 1 4 [255; 0; 0; 255]) eq_refl).
Defined.

(** X2: [loadTexture] answers the null pointer exactly when the file is not
    in the cache and the decoder fails, and then the cache is unchanged; in
    every case the entries of the other files stay as they were, and a
    file that was in the cache keeps its texture. *)
Theorem loadTexture_failure_and_frame
        (stbi_load : string -> option (Z * Z * Z * list Z))
        (filename other : string) (m_textures : gmap string Texture) :
  (fst (loadTexture stbi_load filename m_textures) = None
   <-> m_textures !! filename = None /\ stbi_load filename = None)
  /\ (fst (loadTexture stbi_load filename m_textures) = None ->
      snd (loadTexture stbi_load filename m_textures) = m_textures)
  /\ (other <> filename ->
      snd (loadTexture stbi_load filename m_textures) !! other
      = m_textures !! other)
  /\ (forall it, m_textures !! filename = Some it ->
                 loadTexture stbi_load filename m_textures
                 = (Some it, m_textures)).
Proof.
  unfold loadTexture.
  destruct (m_textures !! filename) as [it|] eqn:Hit; simpl.
  - split; [split; [discriminate|intros [? _]; discriminate]|].
    split; [discriminate|]. split; [reflexivity|].
    intros it' [= <-]. reflexivity.
  - destruct (stbi_load filename) as [[[[width height] bpp] data]|]; simpl.
    + split; [split; [discriminate|intros [_ ?]; discriminate]|].
      split; [discriminate|]. split; [|discriminate].
      intros Hne. apply lookup_insert_ne. congruence.
    + split; [split; auto|]. split; [reflexivity|].
      split; [reflexivity|discriminate].
Qed.

Lemma loadTexture_failure_and_frame_witness :
  let disk := fun name : string =>
                if String.eqb name "a.png"
                then Some (1, 1, 4, [255; 0; 0; 255]) else None in
  snd (loadTexture disk "b.png" ∅) = ∅
  /\ snd (loadTexture disk "a.png" ∅) !! "b.png" = (∅ : gmap string Texture) !! "b.png".
Proof.
  cbv zeta.
  pose proof (loadTexture_failure_and_frame
                (fun name : string =>
                   if String.eqb name "a.png"
                   then Some (1, 1, 4, [255; 0; 0; 255]) else None)
                "b.png" "a.png" ∅) as (_ & Hnone & _ & _).
  pose proof (loadTexture_failure_and_frame
                (fun name : string =>
                   if String.eqb name "a.png"
                   then Some (1, 1, 4, [255; 0; 0; 255]) else None)
                "a.png" "b.png" ∅) as (_ & _ & Hother & _).
  split.
  - apply Hnone. reflexivity.
  - apply Hother. discriminate.
Defined.

(** ** Keys and the close flag *)

Lemma V2_deliver_key (keyCode : Z) (s : Window * World) (ev : glfw_event) :
  V2.keyState (m_curKeys (fst (V2.deliver s ev))) keyCode
  = default (V2.keyState (m_curKeys (fst s)) keyCode)
            (last_key_action keyCode [ev]).
Proof.
  destruct s as [this e], ev as [key action|]; simpl; [|reflexivity].
  unfold V2.keyState, GLFW_PRESS, GLFW_RELEASE.
  destruct (Z.eqb_spec key keyCode) as [->|Hne].
  - destruct (Z.eqb_spec action 1) as [->|H1]; simpl.
    + rewrite lookup_insert_eq. reflexivity.
    + destruct (Z.eqb_spec action 0) as [->|H0]; simpl;
        [rewrite lookup_insert_eq|]; reflexivity.
  - destruct (Z.eqb_spec action 1) as [->|H1]; simpl.
    + rewrite lookup_insert_ne by congruence. reflexivity.
    + destruct (Z.eqb_spec action 0) as [->|H0]; simpl;
        [rewrite lookup_insert_ne by congruence|]; reflexivity.
Qed.

Lemma V2_poll_key (keyCode : Z) (events : list glfw_event) : forall s,
  V2.keyState (m_curKeys (fst (fold_left V2.deliver events s))) keyCode
  = default (V2.keyState (m_curKeys (fst s)) keyCode)
            (last_key_action keyCode events).
Proof.
  induction events as [|ev events IH]; intros s; [reflexivity|].
  cbn [fold_left]. rewrite IH.
  cbn [last_key_action].
  destruct (last_key_action keyCode events) as [down|]; [reflexivity|].
  rewrite V2_deliver_key. reflexivity.
Qed.

Lemma V2_deliver_close (s : Window * World) (ev : glfw_event) :
  should_close (snd (V2.deliver s ev)) = should_close (snd s) || closes ev.
Proof.
  destruct s as [this e], ev as [key action|]; simpl.
  - destruct ((key =? GLFW_KEY_ESCAPE) && (action =? GLFW_PRESS));
      simpl; [rewrite orb_true_r|rewrite orb_false_r]; reflexivity.
  - rewrite orb_true_r. reflexivity.
Qed.

Lemma V2_poll_close (events : list glfw_event) : forall s,
  should_close (snd (fold_left V2.deliver events s))
  = should_close (snd s) || existsb closes events.
Proof.
  induction events as [|ev events IH]; intros s; cbn [fold_left existsb].
  - rewrite orb_false_r. reflexivity.
  - rewrite IH, V2_deliver_close, orb_assoc. reflexivity.
Qed.

(** the whole of what a poll does, for one key *)
Lemma V2_glfwPollEvents_spec events this e :
  exists this' e',
    V2.glfwPollEvents events this e = (Returns this', e')
    /\ screen_members this' = screen_members this
    /\ m_screenshotFileName this' = m_screenshotFileName this
    /\ m_prevKeys this' = m_prevKeys this
    /\ outputs e' = outputs e
    /\ should_close e' = should_close e || existsb closes events
    /\ forall keyCode,
        V2.keyState (m_curKeys this') keyCode
        = default (V2.keyState (m_curKeys this) keyCode)
                  (last_key_action keyCode events).
Proof.
  unfold V2.glfwPollEvents.
  pose proof (V2_poll_keeps events (this, e)) as (H1 & H2 & H3 & H4).
  pose proof (V2_poll_close events (this, e)) as H5.
  pose proof (fun k => V2_poll_key k events (this, e)) as H6.
  destruct (fold_left V2.deliver events (this, e)) as [this' e'].
  exists this', e'. repeat split; assumption.
Qed.

(** X3: [shouldClose] of the second revision answers true exactly when the
    window handle is null, or the close flag was up, or one of the events
    it polls asks to close (the escape key going down, or the close
    button); and afterwards [getKeyState] reports, for every key, the last
    press or release among those events, or the state from before when
    there was none (repeats and other keys change nothing). *)
Theorem shouldClose_polls
        (events : list glfw_event) (this : Window) (e : World) :
  exists this' e',
    V2.shouldClose events this e
    = (Returns ((m_window this =? 0) || should_close e
                || existsb closes events, this'), e')
    /\ should_close e' = should_close e || existsb closes events
    /\ outputs e' = outputs e
    /\ forall keyCode,
        V2.getKeyState keyCode this'
        = Z.b2z (default (V2.keyState (m_curKeys this) keyCode)
                         (last_key_action keyCode events)).
Proof.
  destruct (V2_glfwPollEvents_spec events this e)
    as (this' & e' & Hpoll & Hsame & _ & _ & Hout & Hclose & Hkeys).
  exists this', e'. split; [|split; [exact Hclose|split; [exact Hout|]]].
  - unfold V2.shouldClose. rewrite (bind_returns _ _ _ _ _ Hpoll).
    unfold bind, glfwWindowShouldClose, ret.
    assert (Hw : m_window this' = m_window this)
      by (unfold screen_members in Hsame; congruence).
    rewrite Hw, Hclose, orb_assoc. reflexivity.
  - intros keyCode. unfold V2.getKeyState. rewrite Hkeys.
    destruct (default _ _); reflexivity.
Qed.

(** ** A whole frame *)

(** the clear colour of a frame: the channels over 255, alpha 1 *)
Lemma clear_frame_runs this e rgb :
  m_palette this !! Z.to_nat (to_size_t (m_clearColor this)) = Some rgb ->
  clear_frame this e
  = (Returns tt,
     issue ClearShadeFbo
       (issue (Clear (Float32.div (Float32.of_Z (Color.r rgb)) (Float32.of_Z 255))
                     (Float32.div (Float32.of_Z (Color.g rgb)) (Float32.of_Z 255))
                     (Float32.div (Float32.of_Z (Color.b rgb)) (Float32.of_Z 255))
                     (Float32.of_Z 1)) e)).
Proof.
  intros H. unfold clear_frame, palette_at, bind, lift. rewrite H. reflexivity.
Qed.

(** A frame that is not cut short and whose clear colour is in the palette,
    from the first poll to the last. *)
Lemma V2_update_whole poll1 poll2 this e texture rgb :
  m_window this <> 0 ->
  m_shadeFbo this = Some texture ->
  should_close e || existsb closes poll1 = false ->
  m_palette this !! Z.to_nat (to_size_t (m_clearColor this)) = Some rgb ->
  m_screenshotFileName this = EmptyString \/ capturable e ->
  exists this1 e1 this' e',
    V2.shouldClose poll1 this e = (Returns (false, this1), e1)
    /\ V2.update poll1 poll2 this e
       = (Returns (if existsb closes poll2 then -1 else 0, this'), e')
    /\ gl_calls e'
       = gl_calls e
         ++ [DrawScreenSizeQuad texture; SwapBuffers;
             Clear (Float32.div (Float32.of_Z (Color.r rgb)) (Float32.of_Z 255))
                   (Float32.div (Float32.of_Z (Color.g rgb)) (Float32.of_Z 255))
                   (Float32.div (Float32.of_Z (Color.b rgb)) (Float32.of_Z 255))
                   (Float32.of_Z 1);
             ClearShadeFbo]
    /\ should_close e' = existsb closes poll2
    /\ screen_members this' = screen_members this
    /\ m_screenshotFileName this' = EmptyString
    /\ m_prevKeys this' = m_curKeys this1
    /\ (forall keyCode,
           V2.keyState (m_curKeys this1) keyCode
           = default (V2.keyState (m_curKeys this) keyCode)
                     (last_key_action keyCode poll1))
    /\ (forall keyCode,
           V2.keyState (m_curKeys this') keyCode
           = default (V2.keyState (m_curKeys this1) keyCode)
                     (last_key_action keyCode poll2)).
Proof.
  intros Hwindow Hfbo Hopen Hrgb Hok.
  destruct (V2_glfwPollEvents_spec poll1 this e)
    as (this1 & e1 & Hpoll1 & Hsame1 & Hname1 & _ & Hout1 & Hclose1 & Hkeys1).
  pose proof (V2_glfwPollEvents_frame _ _ _ _ _ Hpoll1) as [Hsize1 _].
  assert (Hw1 : m_window this1 = m_window this)
    by (unfold screen_members in Hsame1; congruence).
  assert (Hfbo1 : m_shadeFbo this1 = Some texture)
    by (unfold screen_members in Hsame1; congruence).
  assert (Hshould : V2.shouldClose poll1 this e = (Returns (false, this1), e1)).
  { unfold V2.shouldClose. rewrite (bind_returns _ _ _ _ _ Hpoll1).
    unfold bind, glfwWindowShouldClose, ret.
    rewrite Hw1, Hclose1, Hopen.
    destruct (Z.eqb_spec (m_window this) 0); [contradiction|reflexivity]. }
  set (e2 := issue SwapBuffers (issue (DrawScreenSizeQuad texture) e1)).
  assert (Hpresent : present_frame this1 e1 = (Returns tt, e2))
    by (unfold present_frame; rewrite Hfbo1; reflexivity).
  assert (Hpend : exists this2 e3,
             pending_screenshot this1 e2 = (Returns this2, e3)
             /\ screen_members this2 = screen_members this1
             /\ m_screenshotFileName this2 = EmptyString
             /\ m_curKeys this2 = m_curKeys this1
             /\ gl_calls e3 = gl_calls e2
             /\ should_close e3 = should_close e2).
  { rewrite pending_screenshot_runs.
    2:{ destruct Hok as [Hnone|Hcap]; [left; congruence|right].
        exact (capturable_same e e1 Hsize1 Hcap). }
    destruct (0 <? Z.of_nat (String.length (m_screenshotFileName this1))) eqn:Hlen.
    - eexists _, _. repeat split; reflexivity.
    - exists this1, e2. repeat split; try reflexivity.
      destruct (m_screenshotFileName this1); [reflexivity|discriminate]. }
  destruct Hpend as (this2 & e3 & Hpend & Hsame2 & Hname2 & Hcur2 & Hgl3 & Hsc3).
  assert (Hrgb2 : m_palette this2 !! Z.to_nat (to_size_t (m_clearColor this2))
                  = Some rgb).
  { unfold screen_members in Hsame1, Hsame2.
    replace (m_palette this2) with (m_palette this) by congruence.
    replace (m_clearColor this2) with (m_clearColor this) by congruence.
    exact Hrgb. }
  pose proof (clear_frame_runs this2 e3 rgb Hrgb2) as Hclear.
  match type of Hclear with _ = (_, ?w) => set (e4 := w) in Hclear end.
  destruct (V2_glfwPollEvents_spec poll2 (set_prevKeys (m_curKeys this2) this2) e4)
    as (this' & e' & Hpoll2 & Hsame3 & Hname3 & Hprev3 & Hout3 & Hclose3 & Hkeys3).
  exists this1, e1, this', e'.
  split; [exact Hshould|].
  assert (Hsc4 : should_close e4 = false).
  { change (should_close e4) with (should_close e3). rewrite Hsc3.
    change (should_close e2) with (should_close e1).
    rewrite Hclose1. exact Hopen. }
  rewrite Hsc4 in Hclose3. simpl in Hclose3.
  split.
  { unfold V2.update.
    rewrite (bind_returns _ _ _ _ _ Hshould). cbv beta iota.
    rewrite (bind_returns _ _ _ _ _ Hpresent).
    rewrite (bind_returns _ _ _ _ _ Hpend).
    rewrite (bind_returns _ _ _ _ _ Hclear).
    rewrite (bind_returns _ _ _ _ _ Hpoll2).
    unfold bind, glfwWindowShouldClose, ret. rewrite Hclose3. reflexivity. }
  split.
  { injection Hout3 as _ ->. change (gl_calls e4)
      with ((gl_calls e3 ++ [Clear (Float32.div (Float32.of_Z (Color.r rgb)) (Float32.of_Z 255))
                   (Float32.div (Float32.of_Z (Color.g rgb)) (Float32.of_Z 255))
                   (Float32.div (Float32.of_Z (Color.b rgb)) (Float32.of_Z 255))
                   (Float32.of_Z 1)]) ++ [ClearShadeFbo]).
    rewrite Hgl3.
    change (gl_calls e2)
      with ((gl_calls e1 ++ [DrawScreenSizeQuad texture]) ++ [SwapBuffers]).
    injection Hout1 as _ ->.
    rewrite <- !app_assoc. reflexivity. }
  split; [exact Hclose3|].
  split.
  { rewrite Hsame3. change (screen_members (set_prevKeys (m_curKeys this2) this2))
      with (screen_members this2). congruence. }
  split; [rewrite Hname3; exact Hname2|].
  split; [rewrite Hprev3; simpl; exact Hcur2|].
  split; [exact Hkeys1|].
  intros keyCode. rewrite Hkeys3. simpl. rewrite Hcur2. reflexivity.
Qed.

Lemma existsb_closes_app (poll1 poll2 : list glfw_event) :
  existsb closes (poll1 ++ poll2)
  = existsb closes poll1 || existsb closes poll2.
Proof. apply existsb_app. Qed.

Lemma shouldClose_polls_aux (events : list glfw_event) (this : Window) (e : World) :
  exists this' e',
    V2.shouldClose events this e
    = (Returns ((m_window this =? 0)
                || (should_close e || existsb closes events), this'), e').
Proof.
  destruct (V2_glfwPollEvents_spec events this e)
    as (this' & e' & Hpoll & Hsame & _ & _ & _ & Hclose & _).
  exists this', e'.
  unfold V2.shouldClose. rewrite (bind_returns _ _ _ _ _ Hpoll).
  unfold bind, glfwWindowShouldClose, ret.
  assert (Hw : m_window this' = m_window this)
    by (unfold screen_members in Hsame; congruence).
  rewrite Hw, Hclose. reflexivity.
Qed.

(** X4: on a constructed window whose clear-colour index is in the palette,
    and with no screenshot pending or a framebuffer that can be captured,
    [update] of the second revision returns, and it returns -1 exactly when
    the window has been asked to close by the end of the call: the close
    flag was up, or an event of one of its two polls asks to close (escape
    going down, or the close button); otherwise it returns 0. *)
Theorem update_return_code
        (poll1 poll2 : list glfw_event) (this : Window) (e : World) :
  constructed this ->
  is_Some (m_palette this !! Z.to_nat (to_size_t (m_clearColor this))) ->
  m_screenshotFileName this = EmptyString \/ capturable e ->
  exists this' e',
    V2.update poll1 poll2 this e
    = (Returns (if should_close e || existsb closes (poll1 ++ poll2)
                then -1 else 0, this'), e').
Proof.
  intros [Hwindow [texture Hfbo]] [rgb Hrgb] Hok.
  rewrite existsb_closes_app, orb_assoc.
  destruct (should_close e || existsb closes poll1) eqn:Hopen.
  - destruct (shouldClose_polls_aux poll1 this e) as (this1 & e1 & H).
    rewrite Hopen, orb_true_r in H.
    exists this1, e1. rewrite (V2_update_early _ _ _ _ _ _ H). reflexivity.
  - destruct (V2_update_whole poll1 poll2 this e texture rgb
                Hwindow Hfbo Hopen Hrgb Hok)
      as (this1 & e1 & this' & e' & _ & Hrun & _).
    exists this', e'. rewrite Hrun. reflexivity.
Qed.

Lemma sample_window_constructed : constructed sample_window.
Proof. exact (proj1 (reachable_invariant _ sample_window_reachable)). Qed.

Lemma update_return_code_witness :
  exists this' e',
    V2.update [KeyEvent 65 GLFW_PRESS] [KeyEvent GLFW_KEY_ESCAPE GLFW_PRESS]
              (set_screenshotFileName "shot.png" sample_window) quiet_world
    = (Returns (-1, this'), e').
Proof.
  refine (update_return_code
            [KeyEvent 65 GLFW_PRESS] [KeyEvent GLFW_KEY_ESCAPE GLFW_PRESS]
            (set_screenshotFileName "shot.png" sample_window) quiet_world
            _ _ (or_intror quiet_world_capturable)).
  - exact sample_window_constructed.
  - eexists. reflexivity.
Defined.

(** X5: a full [update] of the second revision (no close pending after its
    first poll, clear colour in the palette, no screenshot pending or a
    framebuffer that can be captured) issues exactly four calls, in
    this order: the FBO's colour texture on the screen-size quad, the buffer
    swap, the clear of the window to the palette's colour at
    [m_clearColor] (each channel over 255, alpha 1), and the clear of the
    FBO.  It leaves size, palette, range, matrix and handle as they were. *)
Theorem update_draws_frame
        (poll1 poll2 : list glfw_event) (this : Window) (e : World)
        (texture : Texture) (rgb : RGBA) :
  m_window this <> 0 ->
  m_shadeFbo this = Some texture ->
  should_close e || existsb closes poll1 = false ->
  m_palette this !! Z.to_nat (to_size_t (m_clearColor this)) = Some rgb ->
  m_screenshotFileName this = EmptyString \/ capturable e ->
  exists rc this' e',
    V2.update poll1 poll2 this e = (Returns (rc, this'), e')
    /\ gl_calls e'
       = gl_calls e
         ++ [DrawScreenSizeQuad texture; SwapBuffers;
             Clear (Float32.div (Float32.of_Z (Color.r rgb)) (Float32.of_Z 255))
                   (Float32.div (Float32.of_Z (Color.g rgb)) (Float32.of_Z 255))
                   (Float32.div (Float32.of_Z (Color.b rgb)) (Float32.of_Z 255))
                   (Float32.of_Z 1);
             ClearShadeFbo]
    /\ screen_members this' = screen_members this.
Proof.
  intros Hwindow Hfbo Hopen Hrgb Hok.
  destruct (V2_update_whole poll1 poll2 this e texture rgb
              Hwindow Hfbo Hopen Hrgb Hok)
    as (this1 & e1 & this' & e' & _ & Hrun & Hgl & _ & Hsame & _).
  eexists _, this', e'. split; [exact Hrun|]. split; [exact Hgl|exact Hsame].
Qed.

Lemma update_draws_frame_witness :
  exists rc this' e',
    V2.update [] [] (set_screenshotFileName "shot.png" sample_window)
              quiet_world
    = (Returns (rc, this'), e')
    /\ gl_calls e'
       = [DrawScreenSizeQuad (TextureTarget 640 480 false); SwapBuffers;
          Clear (Float32.of_Z 0) (Float32.of_Z 0) (Float32.of_Z 0)
                (Float32.of_Z 1);
          ClearShadeFbo].
Proof.
  destruct (update_draws_frame [] []
              (set_screenshotFileName "shot.png" sample_window) quiet_world
              (TextureTarget 640 480 false) black
              ltac:(discriminate) eq_refl eq_refl eq_refl
              (or_intror quiet_world_capturable))
    as (rc & this' & e' & Hrun & Hgl & _).
  exists rc, this', e'. split; [exact Hrun|exact Hgl].
Defined.

(** X6: after a full [update] of the second revision (constructed window,
    clear colour in the palette, no screenshot pending or a framebuffer that
    can be captured), the three key queries are decided by the two polls.  With [held] the state of the key after
    the first poll (the one inside [shouldClose]) and [down] its state after
    the last poll, [getKeyState] is [down], [getKeyPressed] is [down] and
    not [held], [getKeyReleased] is [held] and not [down].  So a press or
    release delivered to the first poll is never reported as an edge, and a
    key without an event in the last poll is neither pressed nor released. *)
Theorem update_key_edges
        (poll1 poll2 : list glfw_event) (this : Window) (e : World)
        (keyCode : Z) :
  constructed this ->
  is_Some (m_palette this !! Z.to_nat (to_size_t (m_clearColor this))) ->
  should_close e || existsb closes poll1 = false ->
  m_screenshotFileName this = EmptyString \/ capturable e ->
  let held := default (V2.keyState (m_curKeys this) keyCode)
                      (last_key_action keyCode poll1) in
  let down := default held (last_key_action keyCode poll2) in
  exists rc this' e',
    V2.update poll1 poll2 this e = (Returns (rc, this'), e')
    /\ V2.getKeyState keyCode this' = Z.b2z down
    /\ V2.getKeyPressed keyCode this' = Z.b2z (down && negb held)
    /\ V2.getKeyReleased keyCode this' = Z.b2z (negb down && held)
    /\ (last_key_action keyCode poll2 = None ->
        V2.getKeyPressed keyCode this' = 0
        /\ V2.getKeyReleased keyCode this' = 0).
Proof.
  intros [Hwindow [texture Hfbo]] [rgb Hrgb] Hopen Hok held down.
  destruct (V2_update_whole poll1 poll2 this e texture rgb
              Hwindow Hfbo Hopen Hrgb Hok)
    as (this1 & e1 & this' & e' & _ & Hrun & _ & _ & _ & _ & Hprev
        & Hkeys1 & Hkeys2).
  assert (Hheld : V2.keyState (m_prevKeys this') keyCode = held)
    by (rewrite Hprev; apply Hkeys1).
  assert (Hdown : V2.keyState (m_curKeys this') keyCode = down)
    by (rewrite Hkeys2, Hkeys1; reflexivity).
  eexists _, this', e'. split; [exact Hrun|].
  unfold V2.getKeyState, V2.getKeyPressed, V2.getKeyReleased.
  rewrite Hheld, Hdown.
  split; [destruct down; reflexivity|].
  split; [reflexivity|]. split; [reflexivity|].
  intros Hnone. unfold down. rewrite Hnone. simpl.
  destruct held; split; reflexivity.
Qed.

Lemma update_key_edges_witness :
  exists rc this' e',
    V2.update [KeyEvent 65 GLFW_PRESS] [KeyEvent 66 GLFW_PRESS]
              sample_window quiet_world
    = (Returns (rc, this'), e')
    /\ V2.getKeyState 65 this' = 1 /\ V2.getKeyPressed 65 this' = 0
    /\ V2.getKeyState 66 this' = 1 /\ V2.getKeyPressed 66 this' = 1.
Proof.
  assert (Hpal : is_Some (m_palette sample_window
                            !! Z.to_nat (to_size_t (m_clearColor sample_window))))
    by (eexists; reflexivity).
  destruct (update_key_edges [KeyEvent 65 GLFW_PRESS] [KeyEvent 66 GLFW_PRESS]
              sample_window quiet_world 65 sample_window_constructed Hpal
              eq_refl (or_introl eq_refl))
    as (rc & this' & e' & Hrun & Hs65 & Hp65 & _).
  destruct (update_key_edges [KeyEvent 65 GLFW_PRESS] [KeyEvent 66 GLFW_PRESS]
              sample_window quiet_world 66 sample_window_constructed Hpal
              eq_refl (or_introl eq_refl))
    as (rc2 & this2 & e2 & Hrun2 & Hs66 & Hp66 & _).
  rewrite Hrun in Hrun2. injection Hrun2 as _ <- _.
  exists rc, this', e'.
  split; [exact Hrun|]. split; [exact Hs65|]. split; [exact Hp65|].
  split; [exact Hs66|exact Hp66].
Defined.

(** X7: once the close flag is up, every [update] of the second revision
    returns -1 at once, whatever events arrive: it draws nothing, writes no
    file, keeps a pending screenshot request pending, and the flag stays
    up. *)
Theorem update_after_close
        (poll1 poll2 : list glfw_event) (this : Window) (e : World) :
  should_close e = true ->
  exists this' e',
    V2.update poll1 poll2 this e = (Returns (-1, this'), e')
    /\ should_close e' = true
    /\ gl_calls e' = gl_calls e
    /\ png_files e' = png_files e
    /\ m_screenshotFileName this' = m_screenshotFileName this
    /\ screen_members this' = screen_members this.
Proof.
  intros Hclosed.
  destruct (V2_glfwPollEvents_spec poll1 this e)
    as (this1 & e1 & Hpoll & Hsame & Hname & _ & Hout & Hclose & _).
  destruct (shouldClose_polls_aux poll1 this e) as (this1' & e1' & H).
  assert (H' := H). unfold V2.shouldClose in H'.
  rewrite (bind_returns _ _ _ _ _ Hpoll) in H'.
  unfold bind, glfwWindowShouldClose, ret in H'. injection H' as _ <- <-.
  rewrite Hclosed, orb_true_r in H.
  exists this1, e1. rewrite (V2_update_early _ _ _ _ _ _ H).
  split; [reflexivity|].
  split; [rewrite Hclose, Hclosed; reflexivity|].
  injection Hout as Hpng Hgl. auto.
Qed.

Lemma update_after_close_witness :
  let closed := set_should_close true quiet_world in
  exists this' e',
    V2.update [KeyEvent 65 GLFW_PRESS] []
              (set_screenshotFileName "shot.png" sample_window) closed
    = (Returns (-1, this'), e')
    /\ png_files e' = [] /\ gl_calls e' = []
    /\ m_screenshotFileName this' = "shot.png".
Proof.
  cbv zeta.
  destruct (update_after_close [KeyEvent 65 GLFW_PRESS] []
              (set_screenshotFileName "shot.png" sample_window)
              (set_should_close true quiet_world) eq_refl)
    as (this' & e' & Hrun & _ & Hgl & Hpng & Hname & _).
  exists this', e'. split; [exact Hrun|].
  split; [exact Hpng|]. split; [exact Hgl|exact Hname].
Defined.

Lemma palette_lookup_outside (m_palette : list RGBA) (index : Z) :
  is_int index ->
  Z.of_nat (length m_palette) <= 2 ^ 31 ->
  ~ in_palette m_palette index ->
  m_palette !! Z.to_nat (to_size_t index) = None.
Proof.
  unfold is_int, in_palette. intros Hint Hsize Hout.
  apply lookup_ge_None_2.
  destruct (Z.ltb_spec index 0) as [Hneg|Hpos].
  - assert (H : to_size_t index = index + 2 ^ 64).
    { unfold to_size_t, size_t_bits.
      rewrite <- (Z.mod_add index 1 (2 ^ 64)) by lia.
      apply Z.mod_small. lia. }
    rewrite H. lia.
  - rewrite to_size_t_small by lia. lia.
Qed.

Lemma clear_frame_undefined this e :
  m_palette this !! Z.to_nat (to_size_t (m_clearColor this)) = None ->
  clear_frame this e = (UndefinedBehaviour, e).
Proof.
  intros H. unfold clear_frame, palette_at, bind, lift. rewrite H. reflexivity.
Qed.

(** X8: [update] uses the clear-colour index unchecked.  On a constructed
    window of the second revision whose [m_clearColor] is outside the
    palette, an [update] that is not cut short and gets past the screenshot
    (none is pending, or the framebuffer can be captured) reads
    [m_palette[m_clearColor]] out of bounds: it has presented the frame and
    taken the pending screenshot by then, and nothing after that is
    defined. *)
Theorem update_clear_colour_unchecked
        (poll1 poll2 : list glfw_event) (this : Window) (e : World) :
  constructed this ->
  should_close e || existsb closes poll1 = false ->
  is_int (m_clearColor this) ->
  Z.of_nat (length (m_palette this)) <= 2 ^ 31 ->
  ~ in_palette (m_palette this) (m_clearColor this) ->
  m_screenshotFileName this = EmptyString \/ capturable e ->
  exists texture,
    m_shadeFbo this = Some texture
    /\ fst (V2.update poll1 poll2 this e) = UndefinedBehaviour
    /\ gl_calls (snd (V2.update poll1 poll2 this e))
       = gl_calls e ++ [DrawScreenSizeQuad texture; SwapBuffers]
    /\ length (png_files (snd (V2.update poll1 poll2 this e)))
       = (length (png_files e)
          + if (0 <? Z.of_nat (String.length (m_screenshotFileName this)))%Z
            then 1 else 0)%nat.
Proof.
  intros [Hwindow [texture Hfbo]] Hopen Hint Hsize Hout Hok.
  exists texture. split; [exact Hfbo|].
  pose proof (palette_lookup_outside _ _ Hint Hsize Hout) as Hnone.
  destruct (V2_glfwPollEvents_spec poll1 this e)
    as (this1 & e1 & Hpoll1 & Hsame1 & Hname1 & _ & Hout1 & _).
  destruct (shouldClose_polls_aux poll1 this e) as (this1' & e1' & Hshould).
  assert (H' := Hshould). unfold V2.shouldClose in H'.
  rewrite (bind_returns _ _ _ _ _ Hpoll1) in H'.
  unfold bind, glfwWindowShouldClose, ret in H'. injection H' as _ <- <-.
  rewrite Hopen in Hshould.
  destruct (Z.eqb_spec (m_window this) 0) as [|_]; [contradiction|].
  simpl in Hshould.
  assert (Hfbo1 : m_shadeFbo this1 = Some texture)
    by (unfold screen_members in Hsame1; congruence).
  assert (Hnone1 : m_palette this1 !! Z.to_nat (to_size_t (m_clearColor this1))
                   = None).
  { unfold screen_members in Hsame1.
    replace (m_palette this1) with (m_palette this) by congruence.
    replace (m_clearColor this1) with (m_clearColor this) by congruence.
    exact Hnone. }
  set (e2 := issue SwapBuffers (issue (DrawScreenSizeQuad texture) e1)).
  assert (Hpresent : present_frame this1 e1 = (Returns tt, e2))
    by (unfold present_frame; rewrite Hfbo1; reflexivity).
  pose proof (V2_glfwPollEvents_frame _ _ _ _ _ Hpoll1) as [Hsize1 _].
  assert (Hok2 : m_screenshotFileName this1 = EmptyString \/ capturable e2).
  { destruct Hok as [Hnone0|Hcap]; [left; congruence|right].
    exact (capturable_same e e1 Hsize1 Hcap). }
  pose proof (pending_screenshot_runs this1 e2 Hok2) as Hpend.
  rewrite Hname1 in Hpend.
  injection Hout1 as Hpng1 Hgl1.
  assert (Hgl2 : gl_calls e2
                 = gl_calls e ++ [DrawScreenSizeQuad texture; SwapBuffers])
    by (simpl; rewrite Hgl1, <- app_assoc; reflexivity).
  unfold V2.update.
  rewrite (bind_returns _ _ _ _ _ Hshould). cbv beta iota.
  rewrite (bind_returns _ _ _ _ _ Hpresent).
  destruct (0 <? Z.of_nat (String.length (m_screenshotFileName this)));
    rewrite (bind_returns _ _ _ _ _ Hpend).
  - rewrite (bind_undefined _ _ _ _
               (clear_frame_undefined (set_screenshotFileName EmptyString this1)
                                      _ Hnone1)).
    split; [reflexivity|]. split; [exact Hgl2|].
    simpl. rewrite length_app, Hpng1. reflexivity.
  - rewrite (bind_undefined _ _ _ _ (clear_frame_undefined this1 _ Hnone1)).
    split; [reflexivity|]. split; [exact Hgl2|].
    simpl. rewrite Hpng1. lia.
Qed.

Lemma update_clear_colour_unchecked_witness :
  let this := set_shadeFbo (Some (TextureTarget 640 480 false))
                (set_window 1 (initial_members 640 480 [black; white] 7)) in
  fst (V2.update [] [] this quiet_world) = UndefinedBehaviour.
Proof.
  cbv zeta.
  destruct (update_clear_colour_unchecked [] []
              (set_shadeFbo (Some (TextureTarget 640 480 false))
                 (set_window 1 (initial_members 640 480 [black; white] 7)))
              quiet_world)
    as (texture & _ & H & _).
  - split; [discriminate|eexists; reflexivity].
  - reflexivity.
  - unfold is_int. simpl. lia.
  - simpl. lia.
  - unfold in_palette. simpl. lia.
  - left. reflexivity.
  - exact H.
Defined.

(** ** Textures of grids *)

Section GridShape.
Variable lookup : Z -> result RGBA.

Lemma row_pixels_shape (row : list Z) : forall s0 s',
  for_each (fun s index => result_bind (lookup index)
                             (fun color => Returns (push_color color s)))
           s0 row = Returns s' ->
  mapWidth s' = mapWidth s0 + Z.of_nat (length row)
  /\ mapHeight s' = mapHeight s0
  /\ length (mapData s') = (length (mapData s0) + 4 * length row)%nat.
Proof.
  induction row as [|index row IH]; intros s0 s' Hrun; cbn [for_each] in Hrun.
  - injection Hrun as <-. simpl. repeat split; lia.
  - destruct (lookup index) as [color| | |]; try discriminate.
    cbn [result_bind] in Hrun.
    destruct (IH _ _ Hrun) as (Hw & Hh & Hd).
    rewrite Hw, Hh, Hd. simpl. rewrite length_app. simpl.
    repeat split; lia.
Qed.

(** what a row that runs through adds to the three locals *)
Lemma grid_row_shape (row : list Z) (s s' : map_state) :
  grid_row lookup s row = Returns s' ->
  mapWidth s' = mapWidth s + Z.of_nat (length row)
  /\ mapHeight s' = mapHeight s + 1
  /\ length (mapData s') = (length (mapData s) + 4 * length row)%nat.
Proof.
  unfold grid_row. intros Hrun.
  destruct (row_pixels_shape _ _ _ Hrun) as (Hw & Hh & Hd).
  simpl in Hw, Hh, Hd. auto.
Qed.

Lemma grid_rows_shape (pixels : Grid) : forall s s',
  for_each (grid_row lookup) s pixels = Returns s' ->
  mapWidth s' = mapWidth s + Z.of_nat (length (concat pixels))
  /\ mapHeight s' = mapHeight s + Z.of_nat (length pixels)
  /\ length (mapData s')
     = (length (mapData s) + 4 * length (concat pixels))%nat.
Proof.
  induction pixels as [|row pixels IH]; intros s s' Hrun; cbn [for_each] in Hrun.
  - injection Hrun as <-. simpl. repeat split; lia.
  - destruct (grid_row lookup s row) as [s1| | |] eqn:Hrow; try discriminate.
    cbn [result_bind] in Hrun.
    destruct (grid_row_shape _ _ _ Hrow) as (Hw1 & Hh1 & Hd1).
    destruct (IH _ _ Hrun) as (Hw & Hh & Hd).
    rewrite Hw, Hh, Hd, Hw1, Hh1, Hd1. simpl. rewrite length_app.
    repeat split; lia.
Qed.

(** Whatever the lookup, a grid loop that runs through has counted the
    pixels and the rows and pushed four bytes per pixel. *)
Lemma grid_loop_shape (pixels : Grid) (s : map_state) :
  grid_loop lookup pixels = Returns s ->
  mapWidth s = Z.of_nat (length (concat pixels))
  /\ mapHeight s = Z.of_nat (length pixels)
  /\ length (mapData s) = (4 * length (concat pixels))%nat.
Proof.
  unfold grid_loop. intros Hrun.
  destruct (grid_rows_shape _ _ _ Hrun) as (Hw & Hh & Hd).
  simpl in Hw, Hh, Hd. auto.
Qed.

(** the texture stage of [drawPixels], from the loop to the texture *)
Lemma grid_texture_shape (pixels : Grid) (texture : Texture) :
  result_bind (grid_loop lookup pixels) finish_texture = Returns texture ->
  exists data,
    texture = TextureU8 (Z.quot (Z.of_nat (length (concat pixels)))
                                (Z.of_nat (length pixels)))
                        (Z.of_nat (length pixels)) 4 data
    /\ length data = (4 * length (concat pixels))%nat
    /\ concat pixels <> [].
Proof.
  destruct (grid_loop lookup pixels) as [s| | |] eqn:Hloop; try discriminate.
  cbn [result_bind]. unfold finish_texture, assert.
  destruct (grid_loop_shape _ _ Hloop) as (Hw & Hh & Hd).
  destruct (Z.eqb_spec (mapWidth s) 0) as [|Hwidth]; [discriminate|].
  destruct (Z.eqb_spec (mapHeight s) 0) as [|Hheight]; [discriminate|].
  cbn. intros [= <-]. exists (mapData s).
  rewrite Hw, Hh. split; [reflexivity|]. split; [exact Hd|].
  intros Hnil. rewrite Hw, Hnil in Hwidth. contradiction.
Qed.
End GridShape.

Lemma quot_rows_bound (total rows : nat) :
  rows <> 0%nat ->
  0 <= Z.quot (Z.of_nat total) (Z.of_nat rows)
  /\ 4 * Z.quot (Z.of_nat total) (Z.of_nat rows) * Z.of_nat rows
     <= 4 * Z.of_nat total.
Proof.
  intros Hrows.
  rewrite Z.quot_div_nonneg by lia.
  pose proof (Z.div_pos (Z.of_nat total) (Z.of_nat rows) ltac:(lia) ltac:(lia)).
  pose proof (Z.mul_div_le (Z.of_nat total) (Z.of_nat rows) ltac:(lia)).
  split; [assumption|]. nia.
Qed.

(** X9: whenever [drawPixels] returns, in either revision, the grid holds
    at least one index and the call has issued one draw, of a four-channel
    texture whose height is the number of rows, whose width is the number of
    indices divided by the number of rows (rounded down: the common row
    length on a rectangular grid) and whose buffer holds four bytes per
    index.  So the texture never covers more bytes than the buffer has, also
    when the rows differ in length. *)
Theorem drawPixels_texture_within_buffer
        (this : Window) (pixels : Grid) (e : World) :
  (fst (V1.drawPixels pixels this e) = Returns tt ->
   concat pixels <> []
   /\ drew_within_buffer pixels e (snd (V1.drawPixels pixels this e)))
  /\ (fst (V2.drawPixels pixels this e) = Returns tt ->
      concat pixels <> []
      /\ drew_within_buffer pixels e (snd (V2.drawPixels pixels this e))).
Proof.
  assert (Hstage : forall lookup,
             let run :=
               match result_bind (grid_loop lookup pixels) finish_texture with
               | Returns texture =>
                   (Returns tt, issue (DrawScreenSizeQuad texture) e)
               | AssertionFailure => (AssertionFailure, e)
               | RuntimeError what => (RuntimeError what, e)
               | UndefinedBehaviour => (UndefinedBehaviour, e)
               end in
             fst run = Returns tt ->
             concat pixels <> [] /\ drew_within_buffer pixels e (snd run)).
  { intros lookup.
    destruct (result_bind (grid_loop lookup pixels) finish_texture)
      as [texture| | |] eqn:Hstage; cbv zeta; try discriminate.
    intros _.
    destruct (grid_texture_shape lookup pixels texture Hstage)
      as (data & -> & Hlen & Hne).
    split; [exact Hne|]. exists data. cbv zeta.
    assert (Hheight : length pixels <> 0%nat)
      by (destruct pixels; [simpl in Hne; congruence|discriminate]).
    destruct (quot_rows_bound (length (concat pixels)) (length pixels) Hheight)
      as [Hw Hbound].
    split; [reflexivity|]. split; [lia|]. split; [exact Hw|]. split; [lia|].
    rewrite Hlen. lia. }
  split; intros Hret.
  - rewrite V1_drawPixels_runs in Hret |- *. exact (Hstage _ Hret).
  - rewrite V2_drawPixels_runs in Hret |- *. exact (Hstage _ Hret).
Qed.

Lemma drawPixels_texture_within_buffer_witness :
  drew_within_buffer [[0; 1; 2]; [1]] quiet_world
    (snd (V1.drawPixels [[0; 1; 2]; [1]] sample_window quiet_world)).
Proof.
  exact (proj2 (proj1 (drawPixels_texture_within_buffer
                         sample_window [[0; 1; 2]; [1]] quiet_world)
                      eq_refl)).
Defined.

(** ** Maps of colours *)

(** the asserts pass once there is a pixel *)
Lemma finish_texture_rows {A} (data : list Z) (rows : list (list A)) :
  concat rows <> [] ->
  finish_texture (MapState data (Z.of_nat (length (concat rows)))
                           (Z.of_nat (length rows)))
  = Returns (TextureU8 (Z.quot (Z.of_nat (length (concat rows)))
                               (Z.of_nat (length rows)))
                       (Z.of_nat (length rows)) 4 data).
Proof.
  intros Hne. unfold finish_texture. simpl.
  assert (Hw : Z.of_nat (length (concat rows)) <> 0)
    by (destruct (concat rows); [congruence|simpl; lia]).
  assert (Hh : Z.of_nat (length rows) <> 0)
    by (destruct rows; [simpl in Hne; congruence|simpl; lia]).
  destruct (Z.eqb_spec (Z.of_nat (length (concat rows))) 0); [contradiction|].
  destruct (Z.eqb_spec (Z.of_nat (length rows)) 0); [contradiction|].
  reflexivity.
Qed.

Section ColourRows.
Context {A : Type}.
Variable color : A -> RGBA.

Lemma pushed_row (row : list A) : forall s,
  for_each (fun s x => Returns (push_color (color x) s)) s row
  = Returns (MapState (mapData s ++ flat_map (fun x => rgba_bytes (color x)) row)
                      (mapWidth s + Z.of_nat (length row))
                      (mapHeight s)).
Proof.
  induction row as [|x row IH]; intros s; cbn [for_each flat_map].
  - rewrite app_nil_r, Z.add_0_r. destruct s; reflexivity.
  - cbn [result_bind]. rewrite IH. simpl.
    rewrite <- app_assoc. f_equal. f_equal. lia.
Qed.

Lemma pushed_rows (rows : list (list A)) : forall s,
  for_each (fun s row =>
              for_each (fun s x => Returns (push_color (color x) s))
                       (MapState (mapData s) (mapWidth s) (mapHeight s + 1)) row)
           s rows
  = Returns (MapState (mapData s ++ flat_map (fun x => rgba_bytes (color x))
                                             (concat rows))
                      (mapWidth s + Z.of_nat (length (concat rows)))
                      (mapHeight s + Z.of_nat (length rows))).
Proof.
  induction rows as [|row rows IH]; intros s; cbn [for_each concat].
  - simpl. rewrite app_nil_r, !Z.add_0_r. destruct s; reflexivity.
  - rewrite pushed_row. cbn [result_bind]. rewrite IH. simpl.
    rewrite flat_map_app, length_app, <- app_assoc.
    f_equal. f_equal; lia.
Qed.

(** the texture stage of [drawRGB] and [drawHeatMap] *)
Lemma colour_rows_texture (rows : list (list A)) :
  result_bind
    (for_each (fun s row =>
                 for_each (fun s x => Returns (push_color (color x) s))
                          (MapState (mapData s) (mapWidth s) (mapHeight s + 1))
                          row)
              (MapState [] 0 0) rows)
    finish_texture
  = if decide (concat rows = [])
    then AssertionFailure
    else Returns (texture_of_rows color rows).
Proof.
  rewrite pushed_rows. cbn [result_bind mapData mapWidth mapHeight app].
  rewrite !Z.add_0_l.
  destruct (decide (concat rows = [])) as [Hnil|Hne].
  - unfold finish_texture. simpl. rewrite Hnil. reflexivity.
  - rewrite finish_texture_rows by exact Hne. reflexivity.
Qed.
End ColourRows.

Lemma rectangular_width {A} (rows : list (list A)) (n : nat) :
  rows <> [] ->
  Forall (fun row => length row = n) rows ->
  Z.quot (Z.of_nat (length (concat rows))) (Z.of_nat (length rows))
  = Z.of_nat n.
Proof.
  intros Hrows Hn.
  assert (Hlen : length (concat rows) = (n * length rows)%nat).
  { clear Hrows. induction Hn as [|row rows Hrow _ IH]; simpl; [lia|].
    rewrite length_app, IH, Hrow. lia. }
  assert (Hheight : length rows <> 0%nat)
    by (destruct rows; [congruence|discriminate]).
  rewrite Hlen, Nat2Z.inj_mul, Z.quot_mul by lia. reflexivity.
Qed.

(** X10: [drawRGB(map)] ends in an assertion failure, drawing nothing, when
    the map holds no colour at all (no rows, or only empty rows).
    Otherwise it returns after one draw of the four-channel texture whose
    bytes are the red, green, blue and alpha of the colours, row after row,
    whose height is the number of rows and whose width is the number of
    colours divided by the number of rows, which is the row length when all
    rows have the same length. *)
Theorem drawRGB_draws_map
        (map : list (list RGBA)) (this : Window) (e : World) :
  (concat map = [] -> V2.drawRGB map this e = (AssertionFailure, e))
  /\ (concat map <> [] ->
      V2.drawRGB map this e
      = (Returns tt,
         issue (DrawScreenSizeQuad (texture_of_rows (fun color => color) map))
               e))
  /\ (forall n, map <> [] -> Forall (fun row => length row = n) map ->
                n <> 0%nat ->
                V2.drawRGB map this e
                = (Returns tt,
                   issue (DrawScreenSizeQuad
                            (TextureU8 (Z.of_nat n) (Z.of_nat (length map)) 4
                                       (flat_map rgba_bytes (concat map)))) e)).
Proof.
  assert (Hrun : V2.drawRGB map this e
                 = match (if decide (concat map = [])
                          then AssertionFailure
                          else Returns (texture_of_rows (fun color => color) map))
                   with
                   | Returns texture =>
                       (Returns tt, issue (DrawScreenSizeQuad texture) e)
                   | AssertionFailure => (AssertionFailure, e)
                   | RuntimeError what => (RuntimeError what, e)
                   | UndefinedBehaviour => (UndefinedBehaviour, e)
                   end).
  { unfold V2.drawRGB. rewrite lift_bind.
    rewrite <- (colour_rows_texture (fun color : RGBA => color) map).
    reflexivity. }
  split; [|split].
  - intros Hnil. rewrite Hrun. destruct (decide (concat map = [])); [reflexivity|contradiction].
  - intros Hne. rewrite Hrun. destruct (decide (concat map = [])); [contradiction|reflexivity].
  - intros n Hrows Hn Hpos. rewrite Hrun.
    destruct (decide (concat map = [])) as [Hnil|Hne].
    + exfalso. destruct map as [|row map]; [congruence|].
      inversion Hn as [|? ? Hrow _]; subst.
      destruct row; [simpl in Hpos; congruence|discriminate].
    + unfold texture_of_rows. rewrite (rectangular_width map n Hrows Hn).
      reflexivity.
Qed.

Lemma drawRGB_draws_map_witness :
  V2.drawRGB [[]; []] sample_window quiet_world = (AssertionFailure, quiet_world)
  /\ V2.drawRGB [[red; white]; [black; red]] sample_window quiet_world
     = (Returns tt,
        issue (DrawScreenSizeQuad
                 (TextureU8 2 2 4 [255; 0; 0; 255;  255; 255; 255; 255;
                                   0; 0; 0; 255;  255; 0; 0; 255]))
              quiet_world).
Proof.
  split.
  - apply (proj1 (drawRGB_draws_map [[]; []] sample_window quiet_world)).
    reflexivity.
  - refine (proj2 (proj2 (drawRGB_draws_map [[red; white]; [black; red]]
                            sample_window quiet_world)) 2%nat _ _ _).
    + discriminate.
    + repeat constructor.
    + discriminate.
Defined.

(** X11: [drawHeatMap] does with the colours that [heatToRGB] gives to the
    values, under the two bounds, what [drawRGB] does with colours: an
    assertion failure when the map holds no value, otherwise one draw of
    the texture of those colours, row after row, of width the row length
    when the map is rectangular. *)
Theorem drawHeatMap_draws_map
        (heatToRGB : float -> float -> float -> RGBA)
        (pixels : list (list float)) (valueMin valueMax : float)
        (this : Window) (e : World) :
  (concat pixels = [] ->
   drawHeatMap heatToRGB pixels valueMin valueMax this e = (AssertionFailure, e))
  /\ (concat pixels <> [] ->
      drawHeatMap heatToRGB pixels valueMin valueMax this e
      = (Returns tt,
         issue (DrawScreenSizeQuad
                  (texture_of_rows (fun heat => heatToRGB heat valueMin valueMax)
                                   pixels)) e))
  /\ (forall n, pixels <> [] -> Forall (fun row => length row = n) pixels ->
                n <> 0%nat ->
                drawHeatMap heatToRGB pixels valueMin valueMax this e
                = (Returns tt,
                   issue (DrawScreenSizeQuad
                            (TextureU8 (Z.of_nat n) (Z.of_nat (length pixels)) 4
                               (flat_map (fun heat =>
                                            rgba_bytes
                                              (heatToRGB heat valueMin valueMax))
                                         (concat pixels)))) e)).
Proof.
  assert (Hrun : drawHeatMap heatToRGB pixels valueMin valueMax this e
                 = match (if decide (concat pixels = [])
                          then AssertionFailure
                          else Returns (texture_of_rows
                                          (fun heat => heatToRGB heat valueMin valueMax)
                                          pixels))
                   with
                   | Returns texture =>
                       (Returns tt, issue (DrawScreenSizeQuad texture) e)
                   | AssertionFailure => (AssertionFailure, e)
                   | RuntimeError what => (RuntimeError what, e)
                   | UndefinedBehaviour => (UndefinedBehaviour, e)
                   end).
  { unfold drawHeatMap. rewrite lift_bind.
    rewrite <- (colour_rows_texture
                  (fun heat => heatToRGB heat valueMin valueMax) pixels).
    reflexivity. }
  split; [|split].
  - intros Hnil. rewrite Hrun.
    destruct (decide (concat pixels = [])); [reflexivity|contradiction].
  - intros Hne. rewrite Hrun.
    destruct (decide (concat pixels = [])); [contradiction|reflexivity].
  - intros n Hrows Hn Hpos. rewrite Hrun.
    destruct (decide (concat pixels = [])) as [Hnil|Hne].
    + exfalso. destruct pixels as [|row pixels]; [congruence|].
      inversion Hn as [|? ? Hrow _]; subst.
      destruct row; [simpl in Hpos; congruence|discriminate].
    + unfold texture_of_rows. rewrite (rectangular_width pixels n Hrows Hn).
      reflexivity.
Qed.

Lemma drawHeatMap_draws_map_witness :
  let ramp := fun heat lo hi : float =>
                if Float32.ltb heat hi then black else white in
  drawHeatMap ramp [[Float32.of_Z 0; Float32.of_Z 5]]
              (Float32.of_Z 0) (Float32.of_Z 3) sample_window quiet_world
  = (Returns tt,
     issue (DrawScreenSizeQuad
              (TextureU8 2 1 4 [0; 0; 0; 255;  255; 255; 255; 255]))
           quiet_world).
Proof.
  cbv zeta.
  refine (proj2 (proj2 (drawHeatMap_draws_map
                          (fun heat lo hi : float =>
                             if Float32.ltb heat hi then black else white)
                          [[Float32.of_Z 0; Float32.of_Z 5]]
                          (Float32.of_Z 0) (Float32.of_Z 3)
                          sample_window quiet_world)) 2%nat _ _ _).
  - discriminate.
  - repeat constructor.
  - discriminate.
Defined.

(** ** Sprites from grids *)

(** with a grid that has rows, the texture stage of the sprite is the one
    of the first revision's [drawPixels] *)
Lemma sprite_texture_rows (this : Window) (pixels : Grid) :
  pixels <> [] ->
  sprite_texture this pixels
  = result_bind (grid_loop (checked_color (m_palette this)) pixels)
                finish_texture.
Proof.
  intros Hrows. unfold sprite_texture.
  destruct pixels as [|row pixels]; [congruence|].
  destruct (grid_loop _ _); reflexivity.
Qed.

(** X12: the grid overload of [drawSprite] does not reduce indices, in
    either revision: a grid that holds an index outside [0, palette size)
    ends the call in an assertion failure, before anything is drawn and
    before the shader constants are looked at.  (In the second revision
    [drawPixels] accepts the same grid.) *)
Theorem drawSprite_index_outside_palette
        (shaders_constants : list Constant -> result string)
        (shaders_textureFSSource : string -> string -> string -> string)
        (transform : list (list float)) (pixels : Grid)
        (inputConstants : list Constant) (surfaceShader globals : string)
        (this : Window) (e : World) :
  Exists (Exists (fun index => ~ in_palette (m_palette this) index)) pixels ->
  V1.drawSprite_grid transform pixels inputConstants surfaceShader globals
                     this e
  = (AssertionFailure, e)
  /\ V2.drawSprite_grid shaders_constants shaders_textureFSSource
                        transform pixels inputConstants surfaceShader globals
                        this e
     = (AssertionFailure, e).
Proof.
  intros Hbad.
  assert (Htexture : sprite_texture this pixels = AssertionFailure).
  { unfold sprite_texture.
    rewrite (grid_loop_trips _ (checked_color_clean (m_palette this)));
      [reflexivity|].
    eapply Exists_impl; [exact Hbad|]. intros row Hrow.
    eapply Exists_impl; [exact Hrow|]. intros index.
    apply checked_color_outside. }
  unfold V1.drawSprite_grid, V2.drawSprite_grid.
  rewrite !lift_bind, Htexture. split; reflexivity.
Qed.

Lemma drawSprite_index_outside_palette_witness :
  V2.drawSprite_grid V1.declare_uniforms V1.SPRITE_FRAG
                     [] [[0; 5]] [] "" "" sample_window quiet_world
  = (AssertionFailure, quiet_world)
  /\ fst (V2.drawPixels [[0; 5]] sample_window quiet_world) = Returns tt.
Proof.
  split; [|reflexivity].
  refine (proj2 (drawSprite_index_outside_palette
                   V1.declare_uniforms V1.SPRITE_FRAG [] [[0; 5]] [] "" ""
                   sample_window quiet_world _)).
  apply Exists_cons_hd, Exists_cons_tl, Exists_cons_hd.
  unfold in_palette. simpl. lia.
Defined.

(** X13: for a grid that has rows, the grid overload of [drawSprite] builds
    the texture that [drawPixels] of the first revision draws for that
    grid, and hands it, with the rows of [transform] one after the other as
    the model matrix, to the texture overload; this in both revisions. *)
Theorem drawSprite_texture_of_drawPixels
        (shaders_constants : list Constant -> result string)
        (shaders_textureFSSource : string -> string -> string -> string)
        (transform : list (list float)) (pixels : Grid)
        (inputConstants : list Constant) (surfaceShader globals : string)
        (this : Window) (e e0 : World) (texture : Texture) :
  V1.drawPixels pixels this e0
  = (Returns tt, issue (DrawScreenSizeQuad texture) e0) ->
  V1.drawSprite_grid transform pixels inputConstants surfaceShader globals
                     this e
  = V1.drawSprite (concat transform) texture inputConstants surfaceShader
                  globals this e
  /\ V2.drawSprite_grid shaders_constants shaders_textureFSSource
                        transform pixels inputConstants surfaceShader globals
                        this e
     = V2.drawSprite shaders_constants shaders_textureFSSource
                     (concat transform) texture inputConstants surfaceShader
                     globals this e.
Proof.
  intros Hdraw. rewrite V1_drawPixels_runs in Hdraw.
  destruct (result_bind (grid_loop (checked_color (m_palette this)) pixels)
                        finish_texture) as [texture'| | |] eqn:Hstage;
    try discriminate.
  injection Hdraw as Hdraw.
  apply app_inj_tail in Hdraw as [_ [= ->]].
  assert (Hrows : pixels <> []) by (intros ->; discriminate).
  assert (Htexture : sprite_texture this pixels = Returns texture)
    by (rewrite sprite_texture_rows by exact Hrows; exact Hstage).
  unfold V1.drawSprite_grid, V2.drawSprite_grid.
  rewrite !lift_bind, Htexture. split; reflexivity.
Qed.

Lemma drawSprite_texture_of_drawPixels_witness :
  V1.drawSprite_grid [[Float32.of_Z 1]] [[2; 1]] [] "" "" sample_window
                     quiet_world
  = V1.drawSprite [Float32.of_Z 1]
                  (TextureU8 2 1 4 [255; 0; 0; 255;  255; 255; 255; 255])
                  [] "" "" sample_window quiet_world.
Proof.
  exact (proj1 (drawSprite_texture_of_drawPixels
                  V1.declare_uniforms V1.SPRITE_FRAG
                  [[Float32.of_Z 1]] [[2; 1]] [] "" ""
                  sample_window quiet_world quiet_world
                  (TextureU8 2 1 4 [255; 0; 0; 255;  255; 255; 255; 255])
                  eq_refl)).
Defined.

(** ** Indices in the second revision *)

Lemma grid_loop_undefined (lookup : Z -> result RGBA) (pixels : Grid) :
  (forall index, lookup index = UndefinedBehaviour) ->
  concat pixels <> [] ->
  grid_loop lookup pixels = UndefinedBehaviour.
Proof.
  intros Hlookup. unfold grid_loop. generalize (MapState [] 0 0).
  induction pixels as [|row pixels IH]; intros s Hne; [contradiction|].
  cbn [for_each]. destruct row as [|index row].
  - unfold grid_row. cbn [for_each result_bind]. apply IH. exact Hne.
  - unfold grid_row. cbn [for_each]. rewrite Hlookup. reflexivity.
Qed.

(** X14: with an empty palette, [drawPixels] of the second revision divides
    by zero at the first index it meets ([index % m_palette.size()]): on
    every grid that holds an index the call has no defined behaviour, and
    nothing is drawn.  (The first revision ends in its assertion.) *)
Theorem drawPixels_empty_palette
        (this : Window) (pixels : Grid) (e : World) :
  m_palette this = [] ->
  concat pixels <> [] ->
  V2.drawPixels pixels this e = (UndefinedBehaviour, e)
  /\ V1.drawPixels pixels this e = (AssertionFailure, e).
Proof.
  intros Hempty Hne. split.
  - rewrite V2_drawPixels_runs, grid_loop_undefined; [reflexivity| |exact Hne].
    intros index. unfold V2.wrap_index. rewrite Hempty. reflexivity.
  - rewrite V1_drawPixels_runs.
    rewrite (grid_loop_trips _ (checked_color_clean (m_palette this)));
      [reflexivity|].
    clear -Hempty Hne.
    induction pixels as [|row pixels IH]; [contradiction|].
    destruct row as [|index row].
    + apply Exists_cons_tl, IH. exact Hne.
    + apply Exists_cons_hd, Exists_cons_hd.
      apply checked_color_outside. unfold in_palette. rewrite Hempty.
      simpl. lia.
Qed.

Lemma drawPixels_empty_palette_witness :
  V2.drawPixels [[]; [0]] (initial_members 1 1 [] 0) quiet_world
  = (UndefinedBehaviour, quiet_world).
Proof.
  refine (proj1 (drawPixels_empty_palette (initial_members 1 1 [] 0)
                   [[]; [0]] quiet_world eq_refl _)).
  discriminate.
Defined.

Lemma wrapped_int (m_palette : list RGBA) (index : Z) :
  is_int index ->
  wrapped m_palette index
  = (if index <? 0 then index + 2 ^ 64 else index)
      mod Z.of_nat (length m_palette).
Proof.
  unfold is_int, wrapped, to_size_t, size_t_bits. intros Hint.
  destruct (Z.ltb_spec index 0) as [Hneg|Hpos].
  - rewrite <- (Z.mod_add index 1 (2 ^ 64)) by lia.
    rewrite (Z.mod_small (index + 1 * 2 ^ 64)) by lia.
    f_equal; lia.
  - rewrite (Z.mod_small index (2 ^ 64)) by lia. reflexivity.
Qed.

(** X15: with a palette that is not empty (and of at most 2^31 colours),
    [drawPixels] of the second revision returns on every grid of [int]s that
    holds an index, and the pixel of an index [i] has the palette's colour
    at [i mod size] when [i] is not negative, and at [(i + 2^64) mod size]
    when it is: a negative index goes through its 64-bit unsigned value.
    When the size divides 2^64 (a power of two) the two agree, and every
    index [i] gets the colour at [i mod size]. *)
Theorem drawPixels_reduces_indices
        (this : Window) (pixels : Grid) (e : World) :
  0 < Z.of_nat (length (m_palette this)) <= 2 ^ 31 ->
  Forall (Forall is_int) pixels ->
  concat pixels <> [] ->
  let size := Z.of_nat (length (m_palette this)) in
  V2.drawPixels pixels this e
  = (Returns tt,
     issue (DrawScreenSizeQuad
              (texture_of_rows
                 (fun index =>
                    color_at (m_palette this)
                             ((if index <? 0 then index + 2 ^ 64 else index)
                                mod size))
                 pixels)) e)
  /\ ((size | 2 ^ 64) ->
      V2.drawPixels pixels this e
      = (Returns tt,
         issue (DrawScreenSizeQuad
                  (texture_of_rows
                     (fun index => color_at (m_palette this) (index mod size))
                     pixels)) e)).
Proof.
  intros Hsize Hint Hne size.
  assert (Hrun : forall color,
             Forall (Forall (fun index =>
                               color index
                               = color_at (m_palette this)
                                          (wrapped (m_palette this) index)))
                    pixels ->
             V2.drawPixels pixels this e
             = (Returns tt,
                issue (DrawScreenSizeQuad (texture_of_rows color pixels)) e)).
  { intros color Hcolor. rewrite V2_drawPixels_runs.
    rewrite (grid_loop_returns _ color).
    - cbn [result_bind]. rewrite finish_texture_grid by exact Hne. reflexivity.
    - eapply Forall_impl; [exact Hcolor|]. intros row Hrow.
      eapply Forall_impl; [exact Hrow|]. intros index ->.
      apply V2_wrapped_color. exact Hsize. }
  split.
  - apply Hrun.
    eapply Forall_impl; [exact Hint|]. intros row Hrow.
    eapply Forall_impl; [exact Hrow|]. intros index Hindex.
    rewrite (wrapped_int _ _ Hindex). reflexivity.
  - intros Hdiv. apply Hrun.
    apply Forall_forall. intros row _. apply Forall_forall. intros index _.
    unfold wrapped, to_size_t, size_t_bits. f_equal. symmetry.
    apply Z.mod_mod_divide. exact Hdiv.
Qed.

Lemma drawPixels_reduces_indices_witness :
  V2.drawPixels [[-1; 4]] sample_window quiet_world
  = (Returns tt,
     issue (DrawScreenSizeQuad
              (TextureU8 2 1 4 [0; 0; 0; 255;  255; 255; 255; 255]))
           quiet_world).
Proof.
  refine (proj1 (drawPixels_reduces_indices sample_window [[-1; 4]] quiet_world
                   _ _ _)).
  - simpl. lia.
  - repeat constructor; unfold is_int; lia.
  - discriminate.
Defined.

(** ** More on [setScreen] *)

Lemma eqb_number_refl (x : float) : is_number x -> Float32.eqb x x = true.
Proof.
  unfold is_number, Float32.eqb, SFeqb.
  destruct x as [s|s| |s m ex]; simpl; intros H; try congruence.
  - destruct s; reflexivity.
  - change (Pos.compare_cont Eq m m) with (Pos.compare m m).
    rewrite Z.compare_refl, Pos.compare_refl. destruct s; reflexivity.
Qed.

Lemma eqb_nan_r (x : float) : Float32.eqb x S754_nan = false.
Proof. destruct x; reflexivity. Qed.

(** X16: in the second revision, once [setScreen] has run with four numbers,
    running it again with the same four changes nothing: the call issues no
    GL call, leaves the window as it is and returns the same matrix.  When
    one of the four is NaN the comparison with the members never succeeds,
    and every call stores and uploads again. *)
Theorem setScreen_again
        (left right bottom top : float) (this : Window) (e : World) :
  (is_number left -> is_number right -> is_number bottom -> is_number top ->
   exists p this1 e1,
     V2.setScreen left right bottom top this e = (Returns (p, this1), e1)
     /\ forall e2,
         V2.setScreen left right bottom top this1 e2 = (Returns (p, this1), e2))
  /\ (~ (is_number left /\ is_number right /\ is_number bottom /\ is_number top) ->
      V2.setScreen left right bottom top this e
      = (Returns (projection_of left right bottom top,
                  set_projection (projection_of left right bottom top)
                                 (set_range left right bottom top this)),
         issue (ScreenSizeQuadPositions (screenSizeQuad left right bottom top))
               (issue (Ortho left right bottom top
                             (Float32.opp (Float32.of_Z 1)) (Float32.of_Z 1))
                      e))).
Proof.
  split.
  - intros Hl Hr Hb Ht.
    destruct (V2_setScreen_cases left right bottom top this e)
      as [(El & Er & Eb & Et & H)|[e1 H]].
    + exists (m_projection this), this, e. split; [exact H|].
      intros e2. unfold V2.setScreen. rewrite El, Er, Eb, Et. reflexivity.
    + eexists _, _, e1. split; [exact H|].
      intros e2. unfold V2.setScreen. simpl.
      rewrite !eqb_number_refl by assumption. reflexivity.
  - intros Hnan. unfold V2.setScreen.
    assert (Hcond : Float32.eqb (m_left this) left
                    && Float32.eqb (m_right this) right
                    && Float32.eqb (m_bottom this) bottom
                    && Float32.eqb (m_top this) top = false).
    { unfold is_number in Hnan.
      destruct left as [| | |]; try (rewrite eqb_nan_r; reflexivity);
        destruct right as [| | |];
        try (rewrite eqb_nan_r, andb_false_r; reflexivity);
        destruct bottom as [| | |];
        try (rewrite eqb_nan_r, !andb_false_r; reflexivity);
        destruct top as [| | |];
        try (rewrite eqb_nan_r, !andb_false_r; reflexivity);
        exfalso; apply Hnan; repeat split; discriminate. }
    rewrite Hcond. reflexivity.
Qed.

Lemma setScreen_again_witness :
  exists p this1 e1,
    V2.setScreen (Float32.of_Z 1) (Float32.of_Z 5) (Float32.of_Z 0)
                 (Float32.of_Z 4) sample_window quiet_world
    = (Returns (p, this1), e1)
    /\ V2.setScreen (Float32.of_Z 1) (Float32.of_Z 5) (Float32.of_Z 0)
                    (Float32.of_Z 4) this1 e1
       = (Returns (p, this1), e1).
Proof.
  destruct (proj1 (setScreen_again (Float32.of_Z 1) (Float32.of_Z 5)
                     (Float32.of_Z 0) (Float32.of_Z 4)
                     sample_window quiet_world))
    as (p & this1 & e1 & Hrun & Hagain); try discriminate.
  exists p, this1, e1. split; [exact Hrun|apply Hagain].
Defined.

(** ** More on the constructors *)

Lemma V2_ensure_static_init_runs e :
  V2.ensure_static_init e
  = if static_init e then (Returns tt, e)
    else if negb (glfwInit_ok e)
         then (RuntimeError "Failed to initialize OpenGL!", e)
         else if negb (ma_engine_init_ok e)
              then (RuntimeError "Failed to initialize audio engine!", e)
              else (Returns tt, set_static_init true e).
Proof.
  unfold V2.ensure_static_init, V2.StaticInit_new, bind, throw, ret, effect.
  destruct (static_init e), (glfwInit_ok e), (ma_engine_init_ok e); reflexivity.
Qed.

(** the path of a constructor call that returns *)
Lemma V2_new_returns sizeX sizeY title palette clearColor e this e' :
  V2.new sizeX sizeY title palette clearColor e = (Returns this, e') ->
  exists e0 p this0,
    V2.ensure_static_init e = (Returns tt, e0)
    /\ static_init e0 = true
    /\ glfwCreateWindow_handle e <> 0
    /\ V2.setScreen (Float32.of_Z 0) (Float32.of_Z (fst (framebuffer_size e)))
                    (Float32.of_Z 0) (Float32.of_Z (snd (framebuffer_size e)))
                    (set_window (glfwCreateWindow_handle e)
                       (initial_members sizeX sizeY palette clearColor)) e0
       = (Returns (p, this0), e')
    /\ this = set_shadeFbo
                (Some (TextureTarget (fst (framebuffer_size e))
                                     (snd (framebuffer_size e)) false)) this0.
Proof.
  unfold V2.new. intros Hrun.
  pose proof (V2_ensure_static_init_runs e) as Hinit.
  assert (Hcases : (exists what, V2.ensure_static_init e = (RuntimeError what, e))
                   \/ exists e0, V2.ensure_static_init e = (Returns tt, e0)
                                 /\ static_init e0 = true
                                 /\ glfwCreateWindow_handle e0
                                    = glfwCreateWindow_handle e
                                 /\ framebuffer_size e0 = framebuffer_size e).
  { rewrite Hinit.
    destruct (static_init e) eqn:Es; [right; exists e; auto|].
    destruct (glfwInit_ok e); simpl; [|left; eauto].
    destruct (ma_engine_init_ok e); simpl; [|left; eauto].
    right. eexists. repeat split; reflexivity. }
  destruct Hcases as [[what Hthrow]|(e0 & Hok & Hset & Hhandle & Hsize)].
  - rewrite (bind_throws _ _ _ _ _ Hthrow) in Hrun. discriminate.
  - rewrite (bind_returns _ _ _ _ _ Hok) in Hrun. cbv beta in Hrun.
    change (m_window (set_window (glfwCreateWindow_handle e0)
              (initial_members sizeX sizeY palette clearColor)))
      with (glfwCreateWindow_handle e0) in Hrun.
    rewrite Hhandle, Hsize in Hrun.
    destruct (Z.eqb_spec (glfwCreateWindow_handle e) 0) as [|Hne];
      [discriminate|].
    destruct (framebuffer_size e) as [screenWidth screenHeight]. simpl.
    destruct (V2_setScreen_cases (Float32.of_Z 0) (Float32.of_Z screenWidth)
                (Float32.of_Z 0) (Float32.of_Z screenHeight)
                (set_window (glfwCreateWindow_handle e)
                   (initial_members sizeX sizeY palette clearColor)) e0)
      as [(_ & _ & _ & _ & H)|[e1 H]];
      rewrite (bind_returns _ _ _ _ _ H) in Hrun;
      injection Hrun as <- <-;
      eexists e0, _, _; repeat split; try eassumption; reflexivity.
Qed.

Lemma V2_setScreen_settled left right bottom top this e p this' e' :
  projection_settled this ->
  V2.setScreen left right bottom top this e = (Returns (p, this'), e') ->
  projection_settled this'.
Proof.
  intros Hset Hrun.
  destruct (V2_setScreen_cases left right bottom top this e)
    as [(_ & _ & _ & _ & H)|[e0 H]];
    rewrite H in Hrun; injection Hrun as _ <- _; [exact Hset|].
  left. reflexivity.
Qed.

Lemma screen_members_settled this this' :
  screen_members this' = screen_members this ->
  projection_settled this -> projection_settled this'.
Proof.
  unfold screen_members, projection_settled. intros H Hs.
  injection H as _ _ _ _ _ _ -> -> -> -> ->. exact Hs.
Qed.

(** X17: on every reachable window of the second revision, [m_projection]
    is the matrix computed from the stored range [m_left], [m_right],
    [m_bottom], [m_top] (sixteen floats), or no range was ever stored: then
    the matrix is still the empty vector and the four members are 0, which
    is how the constructor leaves a window whose framebuffer is 0 by 0. *)
Theorem projection_matches_range (this : Window) :
  reachable this ->
  projection_settled this
  /\ (length (m_projection this) = 16%nat \/ m_projection this = []).
Proof.
  intros Hreach.
  assert (Hset : projection_settled this).
  { induction Hreach as
        [sizeX sizeY title palette clearColor e this e' Hnew
        |left right bottom top this e p this' e' Hreach IH Hrun
        |pos size this e p this' e' Hreach IH Hrun
        |width height this e this' e' Hreach IH Hrun
        |filename this e this' e' Hreach IH Hrun
        |events this e c this' e' Hreach IH Hrun
        |poll1 poll2 this e rc this' e' Hreach IH Hrun].
    - destruct (V2_new_returns _ _ _ _ _ _ _ _ Hnew)
        as (e0 & p & this0 & _ & _ & _ & Hrun & ->).
      change (projection_settled this0).
      refine (V2_setScreen_settled _ _ _ _ _ _ _ _ _ _ Hrun).
      right. repeat split; reflexivity.
    - exact (V2_setScreen_settled _ _ _ _ _ _ _ _ _ IH Hrun).
    - unfold V2.setScreen_centered in Hrun.
      exact (V2_setScreen_settled _ _ _ _ _ _ _ _ _ IH Hrun).
    - injection Hrun as <- _. exact IH.
    - injection Hrun as <- _. exact IH.
    - destruct (V2_shouldClose_runs events this e)
        as (this1 & e1 & H & Hsame & _).
      rewrite H in Hrun. injection Hrun as _ <- _.
      exact (screen_members_settled _ _ Hsame IH).
    - exact (screen_members_settled _ _
               (V2_update_members _ _ _ _ _ _ _ Hrun) IH). }
  split; [exact Hset|].
  destruct Hset as [->|[-> _]]; [left; reflexivity|right; reflexivity].
Qed.

Lemma projection_matches_range_witness :
  length (m_projection sample_window) = 16%nat
  \/ m_projection sample_window = [].
Proof.
  exact (proj2 (projection_matches_range sample_window sample_window_reachable)).
Defined.

Lemma V2_setScreen_static_init left right bottom top this e :
  static_init (snd (V2.setScreen left right bottom top this e)) = static_init e.
Proof.
  unfold V2.setScreen.
  destruct (Float32.eqb (m_left this) left && Float32.eqb (m_right this) right
            && Float32.eqb (m_bottom this) bottom
            && Float32.eqb (m_top this) top); reflexivity.
Qed.

(** X18: the second revision initialises glfw and the audio engine once.
    A constructor call that returns leaves the global [init] set; with
    [init] set, a constructor throws exactly when the window creation fails,
    whatever glfw or the audio engine would answer to a new initialisation.
    A constructor that throws because the initialisation failed leaves the
    world as it was, [init] unset, so that the next constructor tries
    again; one that throws because the window creation failed has
    initialised and leaves [init] set. *)
Theorem static_init_once
        (sizeX sizeY : Z) (title : string) (palette : list RGBA)
        (clearColor : Z) (e : World) :
  (forall this e',
      V2.new sizeX sizeY title palette clearColor e = (Returns this, e') ->
      static_init e' = true)
  /\ (static_init e = true ->
      ((exists what e',
           V2.new sizeX sizeY title palette clearColor e
           = (RuntimeError what, e'))
       <-> glfwCreateWindow_handle e = 0))
  /\ (static_init_fails e ->
      exists what,
        V2.new sizeX sizeY title palette clearColor e = (RuntimeError what, e))
  /\ (~ static_init_fails e -> glfwCreateWindow_handle e = 0 ->
      exists e',
        V2.new sizeX sizeY title palette clearColor e
        = (RuntimeError "Failed to create window!", e')
        /\ static_init e' = true).
Proof.
  split; [|split; [|split]].
  - intros this e' Hnew.
    destruct (V2_new_returns _ _ _ _ _ _ _ _ Hnew)
      as (e0 & p & this0 & _ & Hset & _ & Hrun & _).
    pose proof (V2_setScreen_static_init
                  (Float32.of_Z 0) (Float32.of_Z (fst (framebuffer_size e)))
                  (Float32.of_Z 0) (Float32.of_Z (snd (framebuffer_size e)))
                  (set_window (glfwCreateWindow_handle e)
                     (initial_members sizeX sizeY palette clearColor)) e0) as H.
    rewrite Hrun in H. simpl in H. congruence.
  - intros Hset.
    destruct (V2_new_outcome sizeX sizeY title palette clearColor e)
      as [([[Hfalse _]|H0] & Hthrow)|(_ & Hne & this & e' & Hret & _)].
    + congruence.
    + split; [intros _; exact H0|intros _; exact Hthrow].
    + split; [intros (what & e0 & H); rewrite Hret in H; discriminate
             |intros H0; contradiction].
  - intros Hfails. unfold V2.new.
    destruct (V2_ensure_static_init_cases e)
      as [(_ & what & H)|(Hok & _)]; [|contradiction].
    exists what. apply (bind_throws _ _ _ _ _ H).
  - intros Hok H0. unfold V2.new.
    pose proof (V2_ensure_static_init_runs e) as Hinit.
    assert (Hcases : exists e0, V2.ensure_static_init e = (Returns tt, e0)
                                /\ static_init e0 = true
                                /\ glfwCreateWindow_handle e0
                                   = glfwCreateWindow_handle e).
    { rewrite Hinit. unfold static_init_fails in Hok.
      destruct (static_init e) eqn:Es; [exists e; auto|].
      destruct (glfwInit_ok e); simpl; [|exfalso; apply Hok; auto].
      destruct (ma_engine_init_ok e); simpl; [|exfalso; apply Hok; auto].
      eexists. repeat split; reflexivity. }
    destruct Hcases as (e0 & Hrun & Hset & Hhandle).
    exists e0. rewrite (bind_returns _ _ _ _ _ Hrun). cbv beta.
    change (m_window (set_window (glfwCreateWindow_handle e0)
              (initial_members sizeX sizeY palette clearColor)))
      with (glfwCreateWindow_handle e0).
    rewrite Hhandle, H0. split; [reflexivity|exact Hset].
Qed.

Lemma static_init_once_witness :
  let e1 := snd (V2.new 640 480 "plot" [black; white; red] 0 quiet_world) in
  let later := mkWorld false false 2 (static_init e1) false (320, 200) [] [] [] in
  static_init e1 = true
  /\ exists this e', V2.new 320 200 "second" [black] 0 later = (Returns this, e').
Proof.
  cbv zeta.
  pose proof (static_init_once 640 480 "plot" [black; white; red] 0 quiet_world)
    as (Hafter & _).
  split.
  - exact (Hafter sample_window _ eq_refl).
  - eexists _, _. reflexivity.
Defined.

(** X19: a constructor that returns leaves the coordinate range at the
    framebuffer's pixel rectangle, from (0, 0) to (width, height) of the
    framebuffer as glfw reports it, whatever size was asked for; the FBO's
    colour texture has the framebuffer's size, the handle is the one glfw
    gave, and no screenshot is pending.  In the first revision the members
    are exactly these floats and the matrix is the one of that range; in
    the second they hold these values (up to [==], since a framebuffer of
    0 by 0 makes [setScreen] return early) and no key is down. *)
Theorem constructor_initial_state
        (sizeX sizeY : Z) (title : string) (palette : list RGBA)
        (clearColor : Z) (e : World) (this : Window) (e' : World) :
  let width := fst (framebuffer_size e) in
  let height := snd (framebuffer_size e) in
  (V1.new sizeX sizeY title palette clearColor e = (Returns this, e') ->
   m_left this = Float32.of_Z 0 /\ m_right this = Float32.of_Z width
   /\ m_bottom this = Float32.of_Z 0 /\ m_top this = Float32.of_Z height
   /\ m_projection this
      = projection_of (Float32.of_Z 0) (Float32.of_Z width)
                      (Float32.of_Z 0) (Float32.of_Z height)
   /\ m_shadeFbo this = Some (TextureTarget width height false)
   /\ m_window this = glfwCreateWindow_handle e
   /\ m_screenshotFileName this = EmptyString)
  /\ (V2.new sizeX sizeY title palette clearColor e = (Returns this, e') ->
      holds_value (m_left this) (Float32.of_Z 0)
      /\ holds_value (m_right this) (Float32.of_Z width)
      /\ holds_value (m_bottom this) (Float32.of_Z 0)
      /\ holds_value (m_top this) (Float32.of_Z height)
      /\ m_shadeFbo this = Some (TextureTarget width height false)
      /\ m_window this = glfwCreateWindow_handle e
      /\ m_screenshotFileName this = EmptyString
      /\ m_curKeys this = ∅ /\ m_prevKeys this = ∅).
Proof.
  intros width height. split.
  - unfold V1.new. subst width height.
    change (m_window (set_window (glfwCreateWindow_handle e)
              (initial_members sizeX sizeY palette clearColor)))
      with (glfwCreateWindow_handle e).
    destruct (glfwCreateWindow_handle e =? 0); [discriminate|].
    destruct (framebuffer_size e) as [screenWidth screenHeight].
    intros [= <- _]. repeat split.
  - intros Hnew. subst width height.
    destruct (V2_new_returns _ _ _ _ _ _ _ _ Hnew)
      as (e0 & p & this0 & _ & _ & _ & Hrun & ->).
    destruct (V2_setScreen_cases
                (Float32.of_Z 0) (Float32.of_Z (fst (framebuffer_size e)))
                (Float32.of_Z 0) (Float32.of_Z (snd (framebuffer_size e)))
                (set_window (glfwCreateWindow_handle e)
                   (initial_members sizeX sizeY palette clearColor)) e0)
      as [(El & Er & Eb & Et & H)|[e1 H]];
      rewrite H in Hrun; injection Hrun as _ <- _; unfold holds_value;
      simpl; repeat split; auto.
Qed.

Lemma constructor_initial_state_witness :
  holds_value (m_right sample_window) (Float32.of_Z 640)
  /\ holds_value (m_top sample_window) (Float32.of_Z 480)
  /\ m_shadeFbo sample_window = Some (TextureTarget 640 480 false).
Proof.
  destruct (proj2 (constructor_initial_state
                     640 480 "plot" [black; white; red] 0 quiet_world
                     sample_window
                     (snd (V2.new 640 480 "plot" [black; white; red] 0
                                  quiet_world)))
                  eq_refl)
    as (_ & Hr & _ & Ht & Hf & _).
  split; [exact Hr|]. split; [exact Ht|exact Hf].
Defined.

(** ** The screenshot file *)

Lemma flipped_rows_length (height stride : nat) : forall data : list Z,
  (height * stride <= length data)%nat ->
  length (concat (reverse (buffer_rows height stride data)))
  = (height * stride)%nat.
Proof.
  induction height as [|h IH]; intros data Hlen; [reflexivity|].
  cbn [buffer_rows]. rewrite reverse_cons, concat_app, length_app.
  rewrite IH by (rewrite length_drop; lia).
  cbn [concat]. rewrite app_nil_r, length_take. lia.
Qed.

Lemma flipped_rows_lookup (height stride : nat) : forall (data : list Z) (y j : nat),
  (y < height)%nat -> (j < stride)%nat ->
  (height * stride <= length data)%nat ->
  concat (reverse (buffer_rows height stride data)) !! (y * stride + j)%nat
  = data !! ((height - 1 - y) * stride + j)%nat.
Proof.
  induction height as [|h IH]; intros data y j Hy Hj Hlen; [lia|].
  cbn [buffer_rows]. rewrite reverse_cons, concat_app.
  assert (Hrest : length (concat (reverse (buffer_rows h stride
                                             (drop stride data))))
                  = (h * stride)%nat)
    by (apply flipped_rows_length; rewrite length_drop; lia).
  destruct (Nat.lt_ge_cases y h) as [Hlt|Hge].
  - rewrite lookup_app_l by (rewrite Hrest; nia).
    rewrite IH by (try rewrite length_drop; lia).
    rewrite lookup_drop. f_equal. nia.
  - assert (y = h) by lia. subst y.
    rewrite lookup_app_r by (rewrite Hrest; lia).
    rewrite Hrest. cbn [concat]. rewrite app_nil_r.
    replace (h * stride + j - h * stride)%nat with j by lia.
    rewrite lookup_take_lt by exact Hj.
    f_equal. nia.
Qed.

Lemma opaque_lookup (count : nat) (frame : list Z) (i : nat) :
  (i < count)%nat ->
  opaque (resize count 0 frame) !! i
  = Some (if Z.of_nat i mod 4 =? 3 then 255 else default 0 (frame !! i)).
Proof.
  intros Hi. unfold opaque. rewrite list_lookup_imap.
  destruct (Nat.lt_ge_cases i (length frame)) as [Hin|Hout].
  - rewrite lookup_resize by assumption.
    destruct (lookup_lt_is_Some_2 _ _ Hin) as [byte ->]. reflexivity.
  - rewrite lookup_resize_new by assumption.
    rewrite (lookup_ge_None_2 _ _ Hout). reflexivity.
Qed.

Lemma int_mul_cases (a b : Z) :
  (- 2 ^ 31 <= a * b < 2 ^ 31 /\ int_mul a b = Returns (a * b))
  \/ (~ - 2 ^ 31 <= a * b < 2 ^ 31 /\ int_mul a b = UndefinedBehaviour).
Proof.
  destruct (Z_le_dec (- 2 ^ 31) (a * b)) as [Hlo|Hlo];
    [destruct (Z_lt_dec (a * b) (2 ^ 31)) as [Hhi|Hhi]|].
  - left. split; [lia|]. apply int_mul_fits. lia.
  - right. split; [lia|]. apply int_mul_overflows. lia.
  - right. split; [lia|]. apply int_mul_overflows. lia.
Qed.

(** X20: what [takeScreenshot] does, by the size of the framebuffer.  When
    the framebuffer has pixels and an [int] counts their bytes, one file is
    written: it has the name given, the framebuffer's width and height and
    four channels; its data are 4 * width * height bytes; the pixel in
    column [x] of row [y] of the file is the pixel in column [x] of row
    [height - 1 - y] of the frame that was read (the file is the frame
    upside down), with its alpha replaced by 0xff.  So every pixel of a
    screenshot is opaque, whatever alpha was drawn.  No file is written
    otherwise: a framebuffer without pixels leaves the vector empty and its
    first element is taken; a byte count that an [int] cannot hold is an
    overflow; a negative byte count makes [resize] throw. *)
Theorem takeScreenshot_opaque (filename : string) (e : World) :
  let width := fst (framebuffer_size e) in
  let height := snd (framebuffer_size e) in
  (capturable e ->
   exists file,
     takeScreenshot filename e = (Returns tt, write_png file e)
     /\ png_name file = filename
     /\ png_width file = width
     /\ png_height file = height
     /\ png_channels file = 4
     /\ Z.of_nat (length (png_data file)) = 4 * width * height
     /\ forall x y c : Z,
         0 <= x < width -> 0 <= y < height -> 0 <= c < 4 ->
         png_data file !! Z.to_nat (4 * (y * width + x) + c)
         = Some (if c =? 3 then 255
                 else default 0
                        (framebuffer e
                         !! Z.to_nat (4 * ((height - 1 - y) * width + x) + c))))
  /\ (0 <= width -> 0 <= height -> width = 0 \/ height = 0 ->
      takeScreenshot filename e = (UndefinedBehaviour, e))
  /\ (0 < width -> 0 < height -> 2 ^ 31 <= 4 * width * height ->
      takeScreenshot filename e = (UndefinedBehaviour, e))
  /\ (- 2 ^ 31 <= 4 * width < 2 ^ 31 ->
      - 2 ^ 31 <= 4 * width * height < 0 ->
      takeScreenshot filename e = (RuntimeError "std::length_error", e)).
Proof.
  cbv zeta. split; [|split; [|split]].
  - intros Hcap. exists (screenshot_file filename e).
    split; [exact (takeScreenshot_runs _ _ Hcap)|].
    unfold capturable in Hcap. unfold screenshot_file, glReadPixels.
    destruct (framebuffer_size e) as [width height].
    cbn [fst snd] in *. destruct Hcap as (Hw & Hh & Hsize).
    unfold stbi_write_png_flipped.
    cbn [png_name png_width png_height png_channels png_data].
    split; [reflexivity|]. split; [reflexivity|]. split; [reflexivity|].
    split; [reflexivity|].
    assert (Hcount : Z.to_nat (4 * width * height)
                     = (Z.to_nat height * Z.to_nat (width * 4))%nat).
    { apply Nat2Z.inj. rewrite Nat2Z.inj_mul, !Z2Nat.id by nia. ring. }
    assert (Hlen : (Z.to_nat height * Z.to_nat (width * 4)
                    <= length (opaque (resize (Z.to_nat (4 * width * height))
                                              0%Z (framebuffer e))))%nat).
    { unfold opaque. rewrite length_imap, length_resize. lia. }
    split.
    + rewrite (flipped_rows_length _ _ _ Hlen), <- Hcount, Z2Nat.id by nia.
      reflexivity.
    + intros x y c Hx Hy Hc.
      replace (Z.to_nat (4 * (y * width + x) + c))
        with (Z.to_nat y * Z.to_nat (width * 4) + Z.to_nat (4 * x + c))%nat.
      2:{ apply Nat2Z.inj.
          rewrite Nat2Z.inj_add, Nat2Z.inj_mul, !Z2Nat.id by nia. ring. }
      rewrite flipped_rows_lookup;
        [|lia|apply Nat2Z.inj_lt; rewrite !Z2Nat.id by lia; lia|exact Hlen].
      rewrite opaque_lookup.
      2:{ apply Nat2Z.inj_lt.
          rewrite Nat2Z.inj_add, Nat2Z.inj_mul, Nat2Z.inj_sub, Nat2Z.inj_sub,
            !Z2Nat.id by (try lia; nia).
          change (Z.of_nat 1) with 1. nia. }
      assert (Hindex : Z.of_nat ((Z.to_nat height - 1 - Z.to_nat y)
                                 * Z.to_nat (width * 4) + Z.to_nat (4 * x + c))
                       = 4 * ((height - 1 - y) * width + x) + c).
      { rewrite Nat2Z.inj_add, Nat2Z.inj_mul, Nat2Z.inj_sub, Nat2Z.inj_sub,
          !Z2Nat.id by (try lia; nia).
        change (Z.of_nat 1) with 1. ring. }
      rewrite Hindex.
      replace ((4 * ((height - 1 - y) * width + x) + c) mod 4) with c.
      2:{ rewrite Z.add_comm, Z.mul_comm, Z.mod_add by lia.
          symmetry. apply Z.mod_small. lia. }
      rewrite <- Hindex, Nat2Z.id. reflexivity.
  - intros Hw Hh Hzero. unfold takeScreenshot.
    destruct (framebuffer_size e) as [width height]. cbn [fst snd] in *.
    rewrite lift_bind.
    destruct (int_mul_cases 4 width) as [[Hfit ->]|[_ ->]]; [|reflexivity].
    cbn [result_bind].
    rewrite (int_mul_fits (4 * width) height) by nia.
    replace (4 * width * height) with 0 by nia.
    reflexivity.
  - intros Hw Hh Hbig. unfold takeScreenshot.
    destruct (framebuffer_size e) as [width height]. cbn [fst snd] in *.
    rewrite lift_bind.
    destruct (int_mul_cases 4 width) as [[Hfit ->]|[_ ->]]; [|reflexivity].
    cbn [result_bind].
    rewrite (int_mul_overflows (4 * width) height) by lia.
    reflexivity.
  - intros Hrow Hsize. unfold takeScreenshot.
    destruct (framebuffer_size e) as [width height]. cbn [fst snd] in *.
    rewrite lift_bind, (int_mul_fits 4 width) by lia. cbn [result_bind].
    rewrite (int_mul_fits (4 * width) height) by lia.
    rewrite lift_bind, vector_resize_negative by lia.
    reflexivity.
Qed.

(** a frame of one column and two rows: the file holds the upper row of the
    frame, which GL hands out last, first *)
Lemma takeScreenshot_opaque_witness :
  let e := mkWorld true true 1 true false (1, 2)
                   [10; 20; 30; 40; 50; 60; 70; 80] [] [] in
  exists file,
    takeScreenshot "shot.png" e = (Returns tt, write_png file e)
    /\ png_data file !! 0%nat = Some 50
    /\ png_data file !! 3%nat = Some 255
    /\ png_data file !! 4%nat = Some 10.
Proof.
  cbv zeta.
  destruct (proj1 (takeScreenshot_opaque "shot.png"
                     (mkWorld true true 1 true false (1, 2)
                              [10; 20; 30; 40; 50; 60; 70; 80] [] [])))
    as (file & Hrun & _ & _ & _ & _ & _ & Hdata).
  { unfold capturable. simpl. lia. }
  exists file. split; [exact Hrun|].
  split; [exact (Hdata 0 0 0 ltac:(simpl; lia) ltac:(simpl; lia) ltac:(lia))|].
  split; [exact (Hdata 0 0 3 ltac:(simpl; lia) ltac:(simpl; lia) ltac:(lia))|].
  exact (Hdata 0 1 0 ltac:(simpl; lia) ltac:(simpl; lia) ltac:(lia)).
Defined.

(** ** The first revision's frame *)

Lemma V1_deliver_keeps (e : World) (ev : glfw_event) :
  outputs (V1.deliver e ev) = outputs e
  /\ should_close (V1.deliver e ev) = should_close e || closes ev.
Proof.
  destruct ev as [key action|]; simpl.
  - unfold V1.key_callback.
    destruct ((key =? GLFW_KEY_ESCAPE) && (action =? GLFW_PRESS)); simpl;
      [rewrite orb_true_r|rewrite orb_false_r]; split; reflexivity.
  - rewrite orb_true_r. split; reflexivity.
Qed.

Lemma V1_poll_keeps (events : list glfw_event) : forall e,
  outputs (fold_left V1.deliver events e) = outputs e
  /\ should_close (fold_left V1.deliver events e)
     = should_close e || existsb closes events.
Proof.
  induction events as [|ev events IH]; intros e; cbn [fold_left existsb].
  - rewrite orb_false_r. split; reflexivity.
  - destruct (IH (V1.deliver e ev)) as [-> ->].
    destruct (V1_deliver_keeps e ev) as [-> ->].
    rewrite orb_assoc. split; reflexivity.
Qed.

Lemma V1_poll_frame (events : list glfw_event) : forall e,
  framebuffer_size (fold_left V1.deliver events e) = framebuffer_size e.
Proof.
  induction events as [|ev events IH]; intros e; cbn [fold_left]; [reflexivity|].
  rewrite IH. destruct ev as [key action|]; simpl; [|reflexivity].
  unfold V1.key_callback.
  destruct ((key =? GLFW_KEY_ESCAPE) && (action =? GLFW_PRESS)); reflexivity.
Qed.

Lemma V1_shouldClose_runs (events : list glfw_event) (this : Window) (e : World) :
  V1.shouldClose events this e
  = (Returns ((m_window this =? 0)
              || (should_close e || existsb closes events)),
     fold_left V1.deliver events e).
Proof.
  unfold V1.shouldClose, V1.glfwPollEvents, bind, effect,
    glfwWindowShouldClose, ret.
  rewrite (proj2 (V1_poll_keeps events e)). reflexivity.
Qed.

(** X21: [update] of the first revision, on a constructed window whose
    clear-colour index is in the palette, with no screenshot pending or a
    framebuffer that can be captured, returns -1 exactly when the close
    flag was up or an event of one of its two polls asks to close, and 0
    otherwise.  Cut short by its first poll it changes neither the window
    nor the files nor the draw calls.  Otherwise it writes the pending
    screenshot, one file of the pending name, when the name is not empty,
    and no file when it is; and it leaves no request pending. *)
Theorem first_revision_update
        (poll1 poll2 : list glfw_event) (this : Window) (e : World) :
  constructed this ->
  is_Some (m_palette this !! Z.to_nat (to_size_t (m_clearColor this))) ->
  m_screenshotFileName this = EmptyString \/ capturable e ->
  exists this' e',
    V1.update poll1 poll2 this e
    = (Returns (if should_close e || existsb closes (poll1 ++ poll2)
                then -1 else 0, this'), e')
    /\ if should_close e || existsb closes poll1
       then this' = this /\ outputs e' = outputs e
       else m_screenshotFileName this' = EmptyString
            /\ screen_members this' = screen_members this
            /\ exists written,
                png_files e' = png_files e ++ written
                /\ (m_screenshotFileName this = EmptyString -> written = [])
                /\ (m_screenshotFileName this <> EmptyString ->
                    exists file, written = [file]
                                 /\ png_name file = m_screenshotFileName this).
Proof.
  intros [Hwindow [texture Hfbo]] [rgb Hrgb] Hok.
  rewrite existsb_closes_app, orb_assoc.
  pose proof (V1_shouldClose_runs poll1 this e) as Hshould.
  pose proof (V1_poll_frame poll1 e) as Hsize1.
  destruct (V1_poll_keeps poll1 e) as [Hout1 Hclose1].
  set (e1 := fold_left V1.deliver poll1 e) in *.
  destruct (Z.eqb_spec (m_window this) 0) as [|_]; [contradiction|].
  simpl in Hshould.
  unfold V1.update. rewrite (bind_returns _ _ _ _ _ Hshould).
  destruct (should_close e || existsb closes poll1) eqn:Hopen.
  - exists this, e1. split; [reflexivity|]. split; [reflexivity|exact Hout1].
  - set (e2 := issue SwapBuffers (issue (DrawScreenSizeQuad texture) e1)).
    assert (Hpresent : present_frame this e1 = (Returns tt, e2))
      by (unfold present_frame; rewrite Hfbo; reflexivity).
    rewrite (bind_returns _ _ _ _ _ Hpresent).
    assert (Hpend : exists this2 e3 written,
               pending_screenshot this e2 = (Returns this2, e3)
               /\ m_screenshotFileName this2 = EmptyString
               /\ screen_members this2 = screen_members this
               /\ should_close e3 = should_close e2
               /\ png_files e3 = png_files e2 ++ written
               /\ (m_screenshotFileName this = EmptyString -> written = [])
               /\ (m_screenshotFileName this <> EmptyString ->
                   exists file, written = [file]
                                /\ png_name file = m_screenshotFileName this)).
    { rewrite pending_screenshot_runs.
      2:{ destruct Hok as [Hnone|Hcap]; [left; exact Hnone|right].
          exact (capturable_same e e1 Hsize1 Hcap). }
      destruct (m_screenshotFileName this) as [|c name] eqn:Hname.
      - exists this, e2, []. simpl. rewrite app_nil_r, Hname.
        repeat split; auto. congruence.
      - eexists _, _, [_]. simpl. repeat split; try reflexivity.
        + discriminate.
        + intros _. eexists. split; [reflexivity|].
          unfold screenshot_file. destruct (framebuffer_size e2). reflexivity. }
    destruct Hpend as (this2 & e3 & written & Hpend & Hname2 & Hsame2 & Hsc3
                       & Hpng3 & Hempty & Hfile).
    rewrite (bind_returns _ _ _ _ _ Hpend).
    assert (Hrgb2 : m_palette this2 !! Z.to_nat (to_size_t (m_clearColor this2))
                    = Some rgb).
    { unfold screen_members in Hsame2.
      replace (m_palette this2) with (m_palette this) by congruence.
      replace (m_clearColor this2) with (m_clearColor this) by congruence.
      exact Hrgb. }
    rewrite (bind_returns _ _ _ _ _ (clear_frame_runs this2 e3 rgb Hrgb2)).
    unfold V1.glfwPollEvents, bind, effect, glfwWindowShouldClose, ret.
    match goal with
    | |- context [fold_left V1.deliver poll2 ?w] =>
        destruct (V1_poll_keeps poll2 w) as [Hout4 Hclose4];
        set (e5 := fold_left V1.deliver poll2 w) in *
    end.
    exists this2, e5.
    assert (Hflag : should_close e5 = existsb closes poll2).
    { rewrite Hclose4. simpl. rewrite Hsc3. unfold e2. simpl.
      rewrite Hclose1. reflexivity. }
    rewrite Hflag. split; [reflexivity|].
    split; [exact Hname2|]. split; [exact Hsame2|].
    exists written. split; [|split; [exact Hempty|exact Hfile]].
    injection Hout4 as -> _. simpl. rewrite Hpng3. unfold e2. simpl.
    injection Hout1 as -> _. reflexivity.
Qed.

Lemma first_revision_update_witness :
  let pending := set_screenshotFileName "shot.png" sample_window in
  exists this' e',
    V1.update [] [CloseRequested] pending quiet_world
    = (Returns (-1, this'), e')
    /\ m_screenshotFileName this' = EmptyString
    /\ exists file, png_files e' = [file] /\ png_name file = "shot.png".
Proof.
  cbv zeta.
  assert (Hpal : is_Some (m_palette (set_screenshotFileName "shot.png" sample_window)
                            !! Z.to_nat (to_size_t
                                 (m_clearColor
                                    (set_screenshotFileName "shot.png"
                                                            sample_window)))))
    by (eexists; reflexivity).
  destruct (first_revision_update [] [CloseRequested]
              (set_screenshotFileName "shot.png" sample_window) quiet_world
              sample_window_constructed Hpal
              (or_intror quiet_world_capturable))
    as (this' & e' & Hrun & Hname & _ & written & Hpng & _ & Hfile).
  exists this', e'. split; [exact Hrun|]. split; [exact Hname|].
  destruct (Hfile ltac:(discriminate)) as (file & -> & Hfn).
  exists file. split; [exact Hpng|exact Hfn].
Defined.

(** ** The bounds that [shade] hands to the shader *)

Lemma ltb_antisym (a b : float) :
  Float32.ltb a b = true -> Float32.ltb b a = false.
Proof.
  unfold Float32.ltb, SFltb.
  destruct a as [sa|sa| |sa ma ea], b as [sb|sb| |sb mb eb]; simpl;
    try discriminate; try reflexivity;
    try (destruct sa; discriminate || reflexivity);
    try (destruct sb; discriminate || reflexivity);
    try (destruct sa, sb; discriminate || reflexivity).
  change (Pos.compare_cont Eq ma mb) with (Pos.compare ma mb).
  change (Pos.compare_cont Eq mb ma) with (Pos.compare mb ma).
  rewrite (Z.compare_antisym ea eb), (Pos.compare_antisym ma mb).
  destruct sa, sb; try discriminate; try reflexivity;
    destruct (ea ?= eb); simpl; try discriminate; try reflexivity;
    destruct (ma ?= mb)%positive; simpl; try discriminate; reflexivity.
Qed.

(** [std::max(right, left)] and [std::min(right, left)], by cases *)
Lemma max_min_cases (left right : float) :
  (Float32.ltb left right = true ->
   Float32.min right left = left /\ Float32.max right left = right)
  /\ (Float32.ltb right left = true ->
      Float32.min right left = right /\ Float32.max right left = left)
  /\ (Float32.ltb left right = false -> Float32.ltb right left = false ->
      Float32.min right left = right /\ Float32.max right left = right)
  /\ Float32.ltb (Float32.max right left) (Float32.min right left) = false.
Proof.
  unfold Float32.min, Float32.max.
  destruct (Float32.ltb left right) eqn:Hlr.
  - rewrite (ltb_antisym _ _ Hlr).
    repeat split; try discriminate; auto using ltb_antisym.
  - destruct (Float32.ltb right left) eqn:Hrl.
    + repeat split; try discriminate; auto.
    + repeat split; try discriminate; auto.
      destruct right as [s|s| |s m ex]; try reflexivity;
        try (destruct s; reflexivity).
      unfold Float32.ltb, SFltb. simpl.
      change (Pos.compare_cont Eq m m) with (Pos.compare m m).
      rewrite Z.compare_refl, Pos.compare_refl. destruct s; reflexivity.
Qed.

(** X22: [shade] hands the shader the range in order, also when the range
    was set upside down or mirrored: the uniform [min] is the smaller and
    [max] the larger of [m_left], [m_right] (of [m_bottom], [m_top]), and
    [size] is their difference, while [leftBottom] and [rightTop] are the
    members as stored.  When the two ends are equal or one is NaN, [min]
    and [max] are both [m_right] (both [m_top]).  This in the first
    revision whenever the constants are accepted, and in the second
    whenever its helper declares them and a matrix is stored; on a window
    whose matrix is still the empty vector the second revision takes the
    first element of that vector and draws nothing. *)
Theorem shade_bounds_ordered
        (shaders_constants : list Constant -> result string)
        (shaders_shadeFSSource : string -> string -> string -> string)
        (inputConstants : list Constant)
        (fragmentShaderMain globals : string) (this : Window) (e : World) :
  exists minX minY maxX maxY,
    ordered_ends minX maxX (m_left this) (m_right this)
    /\ ordered_ends minY maxY (m_bottom this) (m_top this)
    /\ (Forall accepted inputConstants ->
        V1.shade inputConstants fragmentShaderMain globals this e
        = (Returns tt,
           issue (DrawShadeQuad (m_projection this)
                    (V1.shade_fragment (uniform_declarations inputConstants)
                                       globals fragmentShaderMain)
                    (m_left this, m_bottom this) (m_right this, m_top this)
                    (minX, minY) (maxX, maxY)
                    (Float32.sub maxX minX, Float32.sub maxY minY)
                    inputConstants) e))
    /\ (forall inputUniforms,
           shaders_constants inputConstants = Returns inputUniforms ->
           (m_projection this <> [] ->
            V2.shade shaders_constants shaders_shadeFSSource
                     inputConstants fragmentShaderMain globals this e
            = (Returns tt,
               issue (DrawShadeQuad (m_projection this)
                        (shaders_shadeFSSource inputUniforms globals
                                               fragmentShaderMain)
                        (m_left this, m_bottom this) (m_right this, m_top this)
                        (minX, minY) (maxX, maxY)
                        (Float32.sub maxX minX, Float32.sub maxY minY)
                        inputConstants) e))
           /\ (m_projection this = [] ->
               V2.shade shaders_constants shaders_shadeFSSource
                        inputConstants fragmentShaderMain globals this e
               = (UndefinedBehaviour, e))).
Proof.
  exists (Float32.min (m_right this) (m_left this)),
         (Float32.min (m_top this) (m_bottom this)),
         (Float32.max (m_right this) (m_left this)),
         (Float32.max (m_top this) (m_bottom this)).
  split; [exact (max_min_cases (m_left this) (m_right this))|].
  split; [exact (max_min_cases (m_bottom this) (m_top this))|].
  split.
  - intros Hall. unfold V1.shade.
    rewrite lift_bind, (V1_declare_uniforms_accepted _ Hall). reflexivity.
  - intros inputUniforms Hconstants. unfold V2.shade.
    rewrite lift_bind, Hconstants, lift_bind.
    split.
    + intros Hp. destruct (m_projection this) as [|p0 P]; [congruence|].
      reflexivity.
    + intros ->. reflexivity.
Qed.

Lemma shade_bounds_ordered_witness :
  let mirrored := set_range (Float32.of_Z 3) (Float32.of_Z 1)
                            (Float32.of_Z 0) (Float32.of_Z 2) sample_window in
  exists fragment P,
    V2.shade V1.declare_uniforms V1.shade_fragment [] "" "" mirrored
             quiet_world
    = (Returns tt,
       issue (DrawShadeQuad P fragment
                (Float32.of_Z 3, Float32.of_Z 0) (Float32.of_Z 1, Float32.of_Z 2)
                (Float32.of_Z 1, Float32.of_Z 0) (Float32.of_Z 3, Float32.of_Z 2)
                (Float32.of_Z 2, Float32.of_Z 2) []) quiet_world).
Proof.
  cbv zeta.
  destruct (shade_bounds_ordered
              V1.declare_uniforms V1.shade_fragment [] "" ""
              (set_range (Float32.of_Z 3) (Float32.of_Z 1)
                         (Float32.of_Z 0) (Float32.of_Z 2) sample_window)
              quiet_world)
    as (minX & minY & maxX & maxY & HX & HY & _ & Hrun).
  destruct HX as (_ & HX & _). destruct HY as (HY & _).
  destruct (HX eq_refl) as [-> ->]. destruct (HY eq_refl) as [-> ->].
  eexists _, _.
  rewrite (proj1 (Hrun EmptyString eq_refl) ltac:(discriminate)).
  reflexivity.
Defined.

(** ** Requests that follow one another *)

(** X23: only one screenshot request is kept.  When [screenshot] is called
    twice before a frame, the second name replaces the first: on a
    framebuffer that can be captured, the next full [update] of the second
    revision writes one file, under the second name, and none under the
    first; a second call with the empty name withdraws the request, and the
    [update] writes no file. *)
Theorem screenshot_replaced
        (first second : string) (this : Window) (e : World)
        (poll1 poll2 : list glfw_event) :
  reachable this ->
  capturable e ->
  should_close e || existsb closes poll1 = false ->
  exists requested this1 e1,
    bind (screenshot first this) (screenshot second) e = (Returns requested, e)
    /\ V2.shouldClose poll1 requested e = (Returns (false, this1), e1)
    /\ (second <> EmptyString ->
        exists file,
          png_name file = second
          /\ png_files (snd (V2.update poll1 poll2 requested e))
             = png_files e ++ [file])
    /\ (second = EmptyString ->
        png_files (snd (V2.update poll1 poll2 requested e)) = png_files e).
Proof.
  intros Hreach Hcap Hopen.
  set (requested := set_screenshotFileName second
                      (set_screenshotFileName first this)).
  assert (Hcon : constructed requested)
    by exact (proj1 (reachable_invariant _ Hreach)).
  destruct (V2_glfwPollEvents_spec poll1 requested e)
    as (this1 & e1 & Hpoll1 & Hsame1 & Hname1 & _ & Hout1 & _).
  destruct (shouldClose_polls_aux poll1 requested e) as (this1' & e1' & Hshould).
  assert (H' := Hshould). unfold V2.shouldClose in H'.
  rewrite (bind_returns _ _ _ _ _ Hpoll1) in H'.
  unfold bind, glfwWindowShouldClose, ret in H'. injection H' as _ <- <-.
  rewrite Hopen in Hshould.
  destruct Hcon as [Hwindow Hfbo].
  destruct (Z.eqb_spec (m_window requested) 0) as [|_]; [contradiction|].
  simpl in Hshould.
  exists requested, this1, e1.
  split; [reflexivity|]. split; [exact Hshould|].
  assert (Hfbo1 : is_Some (m_shadeFbo this1))
    by (unfold screen_members in Hsame1;
        replace (m_shadeFbo this1) with (m_shadeFbo requested) by congruence;
        exact Hfbo).
  destruct Hfbo1 as [texture Hfbo1].
  pose proof (V2_glfwPollEvents_frame _ _ _ _ _ Hpoll1) as [Hsize1 _].
  assert (Hcap2 : capturable (issue SwapBuffers
                                (issue (DrawScreenSizeQuad texture) e1)))
    by exact (capturable_same e e1 Hsize1 Hcap).
  destruct (V2_update_frame poll1 poll2 requested e this1 e1 texture
              Hshould Hfbo1 (or_intror Hcap2))
    as (this2 & e2 & Hpend & _ & Hwritten & _).
  rewrite (pending_screenshot_runs _ _ (or_intror Hcap2)), Hname1 in Hpend.
  change (m_screenshotFileName requested) with second in Hpend.
  injection Hout1 as Hpng1 _.
  split.
  - intros Hname. rewrite (length_positive _ Hname) in Hpend.
    injection Hpend as _ <-.
    eexists. split; [|rewrite Hwritten; simpl; rewrite Hpng1; reflexivity].
    unfold screenshot_file. destruct (framebuffer_size _). reflexivity.
  - intros ->. simpl in Hpend. injection Hpend as _ <-.
    rewrite Hwritten. simpl. exact Hpng1.
Qed.

Lemma screenshot_replaced_witness :
  exists file,
    png_name file = "b.png"
    /\ png_files (snd (V2.update [] []
                         (set_screenshotFileName "b.png"
                            (set_screenshotFileName "a.png" sample_window))
                         quiet_world))
       = [file].
Proof.
  destruct (screenshot_replaced "a.png" "b.png" sample_window quiet_world [] []
              sample_window_reachable quiet_world_capturable eq_refl)
    as (requested & this1 & e1 & Hreq & _ & Hfile & _).
  injection Hreq as <-.
  exact (Hfile ltac:(discriminate)).
Defined.
